(** * fake6050: runtime core of the MPU6050 accelerometer + gyroscope driver

    Shallow embedding of [src/fake6050.c].  Every C function that the
    properties below talk about is a Rocq function of the same name over an
    explicit [mpu6050_sensor] record; a C function that both mutates the
    sensor and returns a status returns a pair [(ret, sensor)].

    Conventions
    - C integers are [Z]; a store into a narrower type is written out with
      [s16_of], [u8_of], [u32_of] (the kernel is built with gcc, whose
      out-of-range conversions reduce modulo 2^N).
    - An [hrtimer] is idle, armed to fire a number of nanoseconds after the
      arming call, or inside its handler.
    - The calls are modelled one after the other (the driver serialises them
      with [op_lock]); sleeps and log output have no counterpart. *)

From Stdlib Require Import Ascii String DecimalString.
From Stdlib Require Import ZArith Lia List Bool.
Import ListNotations.
Open Scope Z_scope.

(** ** Fixed-width integers *)

Definition s16_of (v : Z) : Z := (v + 32768) mod 65536 - 32768.
Definition u8_of (v : Z) : Z := v mod 256.
Definition u32_of (v : Z) : Z := v mod 4294967296.

(** A value stored in a signed bit-field of [w] bits. *)
Definition sbitfield (w v : Z) : Z := (v + 2 ^ (w - 1)) mod 2 ^ w - 2 ^ (w - 1).

(** ** Kernel constants (linux/time.h, errno-base.h) *)

Definition MSEC_PER_SEC : Z := 1000.
Definition NSEC_PER_MSEC : Z := 1000000.
Definition NSEC_PER_SEC : Z := 1000000000.
Definition EBUSY : Z := 16.
Definition EINVAL : Z := 22.

(** ** Constants of the driver ([#define]s at the top of the file) *)

Definition MPU6050_ACCEL_MIN_POLL_INTERVAL_MS : Z := 10.
Definition MPU6050_ACCEL_MAX_POLL_INTERVAL_MS : Z := 5000.
Definition MPU6050_ACCEL_DEFAULT_POLL_INTERVAL_MS : Z := 200.
Definition MPU6050_GYRO_MIN_POLL_INTERVAL_MS : Z := 10.
Definition MPU6050_GYRO_MAX_POLL_INTERVAL_MS : Z := 5000.
Definition MPU6050_GYRO_DEFAULT_POLL_INTERVAL_MS : Z := 200.
Definition POLL_MS_100HZ : Z := 10.
Definition SNS_TYPE_GYRO : Z := 0.
Definition SNS_TYPE_ACCEL : Z := 1.
Definition MPU6050_AXIS_REMAP_TAB_SZ : Z := 8.

(** ** Constants of [fake6050.h]

    The header is not part of the sources; the macros and enumerators the
    modelled functions read are gathered in a record and every function takes
    it as a parameter. *)

Record fake6050_h : Type := {
  ODR_DLPF_ENA : Z;            (* output data rate with the filter on, Hz *)
  ODR_DLPF_DIS : Z;            (* output data rate with the filter off, Hz *)
  DELAY_MS_MIN_DLPF : Z;
  DELAY_MS_MAX_DLPF : Z;
  DELAY_MS_MIN_NODLPF : Z;
  DELAY_MS_MAX_NODLPF : Z;
  MPU_DLPF_256HZ_NOLPF2 : Z;   (* enum mpu_filter *)
  MPU_DLPF_42HZ : Z;
  MPU_DLPF_RESERVED : Z;
  INIT_FIFO_RATE : Z;
  MPU6050_LPA_5HZ : Z;
  BIT_PWR_ACCEL_STBY_MASK : Z;
  BIT_PWR_GYRO_STBY_MASK : Z
}.

(** ** Data *)

Record axis_data : Type := {
  x : Z; y : Z; z : Z;
  rx : Z; ry : Z; rz : Z
}.

(** [struct sensor_axis_remap]: three 3-bit and three 2-bit bit-fields of type
    [int], which gcc takes as signed. *)
Record sensor_axis_remap : Type := {
  src_x : Z; src_y : Z; src_z : Z;
  sign_x : Z; sign_y : Z; sign_z : Z
}.

Definition mk_remap (sx sy sz gx gy gz : Z) : sensor_axis_remap :=
  {| src_x := sbitfield 3 sx; src_y := sbitfield 3 sy; src_z := sbitfield 3 sz;
     sign_x := sbitfield 2 gx; sign_y := sbitfield 2 gy; sign_z := sbitfield 2 gz |}.

Definition mpu6050_accel_axis_remap_tab : list sensor_axis_remap :=
  [ mk_remap 0 1 2   1    1    1 ;    (* P0 *)
    mk_remap 1 0 2   1  (-1)   1 ;    (* P1 *)
    mk_remap 0 1 2 (-1) (-1)   1 ;    (* P2 *)
    mk_remap 1 0 2 (-1)   1    1 ;    (* P3 *)
    mk_remap 0 1 2 (-1)   1  (-1);    (* P4 *)
    mk_remap 1 0 2 (-1) (-1) (-1);    (* P5 *)
    mk_remap 0 1 2   1  (-1) (-1);    (* P6 *)
    mk_remap 1 0 2   1    1  (-1) ].  (* P7 *)

Definition mpu6050_gyro_axis_remap_tab : list sensor_axis_remap :=
  [ mk_remap 0 1 2 (-1)   1  (-1);    (* P0 *)
    mk_remap 1 0 2 (-1) (-1) (-1);    (* P1 *)
    mk_remap 0 1 2   1  (-1) (-1);    (* P2 *)
    mk_remap 1 0 2   1    1  (-1);    (* P3 *)
    mk_remap 0 1 2   1    1    1 ;    (* P4 *)
    mk_remap 1 0 2   1  (-1)   1 ;    (* P5 *)
    mk_remap 0 1 2 (-1) (-1)   1 ;    (* P6 *)
    mk_remap 1 0 2 (-1)   1    1 ].   (* P7 *)

Definition remap_zero : sensor_axis_remap := mk_remap 0 0 0 0 0 0.

(** [tab[i]] and [tmp[i]] for an [int] index. *)
Definition tab_at (tab : list sensor_axis_remap) (i : Z) : sensor_axis_remap :=
  nth (Z.to_nat i) tab remap_zero.
Definition arr_at (tmp : list Z) (i : Z) : Z := nth (Z.to_nat i) tmp 0.

(** ** Placement transform *)

Definition mpu6050_remap_accel_data (data : axis_data) (place : Z) : axis_data :=
  if (place <=? 0) || (place >=? MPU6050_AXIS_REMAP_TAB_SZ) then data
  else
    let remap := tab_at mpu6050_accel_axis_remap_tab place in
    let tmp := [x data; y data; z data] in
    {| x := s16_of (arr_at tmp (src_x remap) * sign_x remap);
       y := s16_of (arr_at tmp (src_y remap) * sign_y remap);
       z := s16_of (arr_at tmp (src_z remap) * sign_z remap);
       rx := rx data; ry := ry data; rz := rz data |}.

Definition mpu6050_remap_gyro_data (data : axis_data) (place : Z) : axis_data :=
  if (place <=? 0) || (place >=? MPU6050_AXIS_REMAP_TAB_SZ) then data
  else
    let remap := tab_at mpu6050_gyro_axis_remap_tab place in
    let tmp := [rx data; ry data; rz data] in
    {| x := x data; y := y data; z := z data;
       rx := s16_of (arr_at tmp (src_x remap) * sign_x remap);
       ry := s16_of (arr_at tmp (src_y remap) * sign_y remap);
       rz := s16_of (arr_at tmp (src_z remap) * sign_z remap) |}.

(** ** Sensor state *)

(** The fields of [struct mpu_chip_config] that the modelled functions read or
    write. *)
Record mpu_chip_config : Type := {
  lpf : Z;
  enable : bool;
  accel_enable : bool;
  gyro_enable : bool;
  is_asleep : bool;
  lpa_freq : Z;
  rate_div : Z
}.

(** A one-shot high-resolution timer.  [HR_CALLBACK] is the state while its
    handler runs. *)
Inductive hrtimer : Type :=
| HR_IDLE
| HR_ARMED (expires_ns : Z)
| HR_CALLBACK.

Record mpu6050_sensor : Type := {
  gyro_timer : hrtimer;
  accel_timer : hrtimer;
  cfg : mpu_chip_config;
  axis : axis_data;
  gyro_poll_ms : Z;
  accel_poll_ms : Z;
  accel_en : Z;                (* atomic_t *)
  gyro_en : Z;                 (* atomic_t *)
  use_poll : bool;
  batch_accel : bool;
  batch_gyro : bool;
  acc_cal_params : list Z;     (* int[3] *)
  acc_use_cal : bool;
  power_enabled : bool;
  gyro_wkp_flag : Z;
  accel_wkp_flag : Z;
  gyro_delay_change : bool;
  accel_delay_change : bool;
  place : Z;                   (* pdata->place *)
  wake_up_idle : bool          (* the hint written by set_wake_up_idle() *)
}.

(** Field updates. *)

Definition set_cfg (s : mpu6050_sensor) (c : mpu_chip_config) : mpu6050_sensor :=
  {| gyro_timer := gyro_timer s; accel_timer := accel_timer s; cfg := c;
     axis := axis s; gyro_poll_ms := gyro_poll_ms s; accel_poll_ms := accel_poll_ms s;
     accel_en := accel_en s; gyro_en := gyro_en s; use_poll := use_poll s;
     batch_accel := batch_accel s; batch_gyro := batch_gyro s;
     acc_cal_params := acc_cal_params s; acc_use_cal := acc_use_cal s;
     power_enabled := power_enabled s; gyro_wkp_flag := gyro_wkp_flag s;
     accel_wkp_flag := accel_wkp_flag s; gyro_delay_change := gyro_delay_change s;
     accel_delay_change := accel_delay_change s; place := place s;
     wake_up_idle := wake_up_idle s |}.

Definition set_gyro_timer (s : mpu6050_sensor) (t : hrtimer) : mpu6050_sensor :=
  {| gyro_timer := t; accel_timer := accel_timer s; cfg := cfg s;
     axis := axis s; gyro_poll_ms := gyro_poll_ms s; accel_poll_ms := accel_poll_ms s;
     accel_en := accel_en s; gyro_en := gyro_en s; use_poll := use_poll s;
     batch_accel := batch_accel s; batch_gyro := batch_gyro s;
     acc_cal_params := acc_cal_params s; acc_use_cal := acc_use_cal s;
     power_enabled := power_enabled s; gyro_wkp_flag := gyro_wkp_flag s;
     accel_wkp_flag := accel_wkp_flag s; gyro_delay_change := gyro_delay_change s;
     accel_delay_change := accel_delay_change s; place := place s;
     wake_up_idle := wake_up_idle s |}.

Definition set_accel_timer (s : mpu6050_sensor) (t : hrtimer) : mpu6050_sensor :=
  {| gyro_timer := gyro_timer s; accel_timer := t; cfg := cfg s;
     axis := axis s; gyro_poll_ms := gyro_poll_ms s; accel_poll_ms := accel_poll_ms s;
     accel_en := accel_en s; gyro_en := gyro_en s; use_poll := use_poll s;
     batch_accel := batch_accel s; batch_gyro := batch_gyro s;
     acc_cal_params := acc_cal_params s; acc_use_cal := acc_use_cal s;
     power_enabled := power_enabled s; gyro_wkp_flag := gyro_wkp_flag s;
     accel_wkp_flag := accel_wkp_flag s; gyro_delay_change := gyro_delay_change s;
     accel_delay_change := accel_delay_change s; place := place s;
     wake_up_idle := wake_up_idle s |}.

Definition set_axis (s : mpu6050_sensor) (a : axis_data) : mpu6050_sensor :=
  {| gyro_timer := gyro_timer s; accel_timer := accel_timer s; cfg := cfg s;
     axis := a; gyro_poll_ms := gyro_poll_ms s; accel_poll_ms := accel_poll_ms s;
     accel_en := accel_en s; gyro_en := gyro_en s; use_poll := use_poll s;
     batch_accel := batch_accel s; batch_gyro := batch_gyro s;
     acc_cal_params := acc_cal_params s; acc_use_cal := acc_use_cal s;
     power_enabled := power_enabled s; gyro_wkp_flag := gyro_wkp_flag s;
     accel_wkp_flag := accel_wkp_flag s; gyro_delay_change := gyro_delay_change s;
     accel_delay_change := accel_delay_change s; place := place s;
     wake_up_idle := wake_up_idle s |}.

Definition set_gyro_poll_ms (s : mpu6050_sensor) (v : Z) : mpu6050_sensor :=
  {| gyro_timer := gyro_timer s; accel_timer := accel_timer s; cfg := cfg s;
     axis := axis s; gyro_poll_ms := v; accel_poll_ms := accel_poll_ms s;
     accel_en := accel_en s; gyro_en := gyro_en s; use_poll := use_poll s;
     batch_accel := batch_accel s; batch_gyro := batch_gyro s;
     acc_cal_params := acc_cal_params s; acc_use_cal := acc_use_cal s;
     power_enabled := power_enabled s; gyro_wkp_flag := gyro_wkp_flag s;
     accel_wkp_flag := accel_wkp_flag s; gyro_delay_change := gyro_delay_change s;
     accel_delay_change := accel_delay_change s; place := place s;
     wake_up_idle := wake_up_idle s |}.

Definition set_accel_poll_ms (s : mpu6050_sensor) (v : Z) : mpu6050_sensor :=
  {| gyro_timer := gyro_timer s; accel_timer := accel_timer s; cfg := cfg s;
     axis := axis s; gyro_poll_ms := gyro_poll_ms s; accel_poll_ms := v;
     accel_en := accel_en s; gyro_en := gyro_en s; use_poll := use_poll s;
     batch_accel := batch_accel s; batch_gyro := batch_gyro s;
     acc_cal_params := acc_cal_params s; acc_use_cal := acc_use_cal s;
     power_enabled := power_enabled s; gyro_wkp_flag := gyro_wkp_flag s;
     accel_wkp_flag := accel_wkp_flag s; gyro_delay_change := gyro_delay_change s;
     accel_delay_change := accel_delay_change s; place := place s;
     wake_up_idle := wake_up_idle s |}.

Definition set_accel_en (s : mpu6050_sensor) (v : Z) : mpu6050_sensor :=
  {| gyro_timer := gyro_timer s; accel_timer := accel_timer s; cfg := cfg s;
     axis := axis s; gyro_poll_ms := gyro_poll_ms s; accel_poll_ms := accel_poll_ms s;
     accel_en := v; gyro_en := gyro_en s; use_poll := use_poll s;
     batch_accel := batch_accel s; batch_gyro := batch_gyro s;
     acc_cal_params := acc_cal_params s; acc_use_cal := acc_use_cal s;
     power_enabled := power_enabled s; gyro_wkp_flag := gyro_wkp_flag s;
     accel_wkp_flag := accel_wkp_flag s; gyro_delay_change := gyro_delay_change s;
     accel_delay_change := accel_delay_change s; place := place s;
     wake_up_idle := wake_up_idle s |}.

Definition set_gyro_en (s : mpu6050_sensor) (v : Z) : mpu6050_sensor :=
  {| gyro_timer := gyro_timer s; accel_timer := accel_timer s; cfg := cfg s;
     axis := axis s; gyro_poll_ms := gyro_poll_ms s; accel_poll_ms := accel_poll_ms s;
     accel_en := accel_en s; gyro_en := v; use_poll := use_poll s;
     batch_accel := batch_accel s; batch_gyro := batch_gyro s;
     acc_cal_params := acc_cal_params s; acc_use_cal := acc_use_cal s;
     power_enabled := power_enabled s; gyro_wkp_flag := gyro_wkp_flag s;
     accel_wkp_flag := accel_wkp_flag s; gyro_delay_change := gyro_delay_change s;
     accel_delay_change := accel_delay_change s; place := place s;
     wake_up_idle := wake_up_idle s |}.

Definition set_use_poll (s : mpu6050_sensor) (v : bool) : mpu6050_sensor :=
  {| gyro_timer := gyro_timer s; accel_timer := accel_timer s; cfg := cfg s;
     axis := axis s; gyro_poll_ms := gyro_poll_ms s; accel_poll_ms := accel_poll_ms s;
     accel_en := accel_en s; gyro_en := gyro_en s; use_poll := v;
     batch_accel := batch_accel s; batch_gyro := batch_gyro s;
     acc_cal_params := acc_cal_params s; acc_use_cal := acc_use_cal s;
     power_enabled := power_enabled s; gyro_wkp_flag := gyro_wkp_flag s;
     accel_wkp_flag := accel_wkp_flag s; gyro_delay_change := gyro_delay_change s;
     accel_delay_change := accel_delay_change s; place := place s;
     wake_up_idle := wake_up_idle s |}.

Definition set_acc_use_cal (s : mpu6050_sensor) (v : bool) : mpu6050_sensor :=
  {| gyro_timer := gyro_timer s; accel_timer := accel_timer s; cfg := cfg s;
     axis := axis s; gyro_poll_ms := gyro_poll_ms s; accel_poll_ms := accel_poll_ms s;
     accel_en := accel_en s; gyro_en := gyro_en s; use_poll := use_poll s;
     batch_accel := batch_accel s; batch_gyro := batch_gyro s;
     acc_cal_params := acc_cal_params s; acc_use_cal := v;
     power_enabled := power_enabled s; gyro_wkp_flag := gyro_wkp_flag s;
     accel_wkp_flag := accel_wkp_flag s; gyro_delay_change := gyro_delay_change s;
     accel_delay_change := accel_delay_change s; place := place s;
     wake_up_idle := wake_up_idle s |}.

Definition set_power_enabled (s : mpu6050_sensor) (v : bool) : mpu6050_sensor :=
  {| gyro_timer := gyro_timer s; accel_timer := accel_timer s; cfg := cfg s;
     axis := axis s; gyro_poll_ms := gyro_poll_ms s; accel_poll_ms := accel_poll_ms s;
     accel_en := accel_en s; gyro_en := gyro_en s; use_poll := use_poll s;
     batch_accel := batch_accel s; batch_gyro := batch_gyro s;
     acc_cal_params := acc_cal_params s; acc_use_cal := acc_use_cal s;
     power_enabled := v; gyro_wkp_flag := gyro_wkp_flag s;
     accel_wkp_flag := accel_wkp_flag s; gyro_delay_change := gyro_delay_change s;
     accel_delay_change := accel_delay_change s; place := place s;
     wake_up_idle := wake_up_idle s |}.

Definition set_gyro_wkp_flag (s : mpu6050_sensor) (v : Z) : mpu6050_sensor :=
  {| gyro_timer := gyro_timer s; accel_timer := accel_timer s; cfg := cfg s;
     axis := axis s; gyro_poll_ms := gyro_poll_ms s; accel_poll_ms := accel_poll_ms s;
     accel_en := accel_en s; gyro_en := gyro_en s; use_poll := use_poll s;
     batch_accel := batch_accel s; batch_gyro := batch_gyro s;
     acc_cal_params := acc_cal_params s; acc_use_cal := acc_use_cal s;
     power_enabled := power_enabled s; gyro_wkp_flag := v;
     accel_wkp_flag := accel_wkp_flag s; gyro_delay_change := gyro_delay_change s;
     accel_delay_change := accel_delay_change s; place := place s;
     wake_up_idle := wake_up_idle s |}.

Definition set_accel_wkp_flag (s : mpu6050_sensor) (v : Z) : mpu6050_sensor :=
  {| gyro_timer := gyro_timer s; accel_timer := accel_timer s; cfg := cfg s;
     axis := axis s; gyro_poll_ms := gyro_poll_ms s; accel_poll_ms := accel_poll_ms s;
     accel_en := accel_en s; gyro_en := gyro_en s; use_poll := use_poll s;
     batch_accel := batch_accel s; batch_gyro := batch_gyro s;
     acc_cal_params := acc_cal_params s; acc_use_cal := acc_use_cal s;
     power_enabled := power_enabled s; gyro_wkp_flag := gyro_wkp_flag s;
     accel_wkp_flag := v; gyro_delay_change := gyro_delay_change s;
     accel_delay_change := accel_delay_change s; place := place s;
     wake_up_idle := wake_up_idle s |}.

Definition set_gyro_delay_change (s : mpu6050_sensor) (v : bool) : mpu6050_sensor :=
  {| gyro_timer := gyro_timer s; accel_timer := accel_timer s; cfg := cfg s;
     axis := axis s; gyro_poll_ms := gyro_poll_ms s; accel_poll_ms := accel_poll_ms s;
     accel_en := accel_en s; gyro_en := gyro_en s; use_poll := use_poll s;
     batch_accel := batch_accel s; batch_gyro := batch_gyro s;
     acc_cal_params := acc_cal_params s; acc_use_cal := acc_use_cal s;
     power_enabled := power_enabled s; gyro_wkp_flag := gyro_wkp_flag s;
     accel_wkp_flag := accel_wkp_flag s; gyro_delay_change := v;
     accel_delay_change := accel_delay_change s; place := place s;
     wake_up_idle := wake_up_idle s |}.

Definition set_accel_delay_change (s : mpu6050_sensor) (v : bool) : mpu6050_sensor :=
  {| gyro_timer := gyro_timer s; accel_timer := accel_timer s; cfg := cfg s;
     axis := axis s; gyro_poll_ms := gyro_poll_ms s; accel_poll_ms := accel_poll_ms s;
     accel_en := accel_en s; gyro_en := gyro_en s; use_poll := use_poll s;
     batch_accel := batch_accel s; batch_gyro := batch_gyro s;
     acc_cal_params := acc_cal_params s; acc_use_cal := acc_use_cal s;
     power_enabled := power_enabled s; gyro_wkp_flag := gyro_wkp_flag s;
     accel_wkp_flag := accel_wkp_flag s; gyro_delay_change := gyro_delay_change s;
     accel_delay_change := v; place := place s;
     wake_up_idle := wake_up_idle s |}.

Definition set_place (s : mpu6050_sensor) (v : Z) : mpu6050_sensor :=
  {| gyro_timer := gyro_timer s; accel_timer := accel_timer s; cfg := cfg s;
     axis := axis s; gyro_poll_ms := gyro_poll_ms s; accel_poll_ms := accel_poll_ms s;
     accel_en := accel_en s; gyro_en := gyro_en s; use_poll := use_poll s;
     batch_accel := batch_accel s; batch_gyro := batch_gyro s;
     acc_cal_params := acc_cal_params s; acc_use_cal := acc_use_cal s;
     power_enabled := power_enabled s; gyro_wkp_flag := gyro_wkp_flag s;
     accel_wkp_flag := accel_wkp_flag s; gyro_delay_change := gyro_delay_change s;
     accel_delay_change := accel_delay_change s; place := v;
     wake_up_idle := wake_up_idle s |}.

Definition set_wake_up_idle (s : mpu6050_sensor) (v : bool) : mpu6050_sensor :=
  {| gyro_timer := gyro_timer s; accel_timer := accel_timer s; cfg := cfg s;
     axis := axis s; gyro_poll_ms := gyro_poll_ms s; accel_poll_ms := accel_poll_ms s;
     accel_en := accel_en s; gyro_en := gyro_en s; use_poll := use_poll s;
     batch_accel := batch_accel s; batch_gyro := batch_gyro s;
     acc_cal_params := acc_cal_params s; acc_use_cal := acc_use_cal s;
     power_enabled := power_enabled s; gyro_wkp_flag := gyro_wkp_flag s;
     accel_wkp_flag := accel_wkp_flag s; gyro_delay_change := gyro_delay_change s;
     accel_delay_change := accel_delay_change s; place := place s;
     wake_up_idle := v |}.

(** Updates of [sensor->cfg.*]. *)

Definition cfg_set_lpa_freq (c : mpu_chip_config) (v : Z) : mpu_chip_config :=
  {| lpf := lpf c; enable := enable c; accel_enable := accel_enable c;
     gyro_enable := gyro_enable c; is_asleep := is_asleep c;
     lpa_freq := v; rate_div := rate_div c |}.
Definition cfg_set_rate_div (c : mpu_chip_config) (v : Z) : mpu_chip_config :=
  {| lpf := lpf c; enable := enable c; accel_enable := accel_enable c;
     gyro_enable := gyro_enable c; is_asleep := is_asleep c;
     lpa_freq := lpa_freq c; rate_div := v |}.
Definition cfg_set_lpf (c : mpu_chip_config) (v : Z) : mpu_chip_config :=
  {| lpf := v; enable := enable c; accel_enable := accel_enable c;
     gyro_enable := gyro_enable c; is_asleep := is_asleep c;
     lpa_freq := lpa_freq c; rate_div := rate_div c |}.
Definition cfg_set_enable (c : mpu_chip_config) (v : bool) : mpu_chip_config :=
  {| lpf := lpf c; enable := v; accel_enable := accel_enable c;
     gyro_enable := gyro_enable c; is_asleep := is_asleep c;
     lpa_freq := lpa_freq c; rate_div := rate_div c |}.
Definition cfg_set_accel_enable (c : mpu_chip_config) (v : bool) : mpu_chip_config :=
  {| lpf := lpf c; enable := enable c; accel_enable := v;
     gyro_enable := gyro_enable c; is_asleep := is_asleep c;
     lpa_freq := lpa_freq c; rate_div := rate_div c |}.
Definition cfg_set_gyro_enable (c : mpu_chip_config) (v : bool) : mpu_chip_config :=
  {| lpf := lpf c; enable := enable c; accel_enable := accel_enable c;
     gyro_enable := v; is_asleep := is_asleep c;
     lpa_freq := lpa_freq c; rate_div := rate_div c |}.
Definition cfg_set_is_asleep (c : mpu_chip_config) (v : bool) : mpu_chip_config :=
  {| lpf := lpf c; enable := enable c; accel_enable := accel_enable c;
     gyro_enable := gyro_enable c; is_asleep := v;
     lpa_freq := lpa_freq c; rate_div := rate_div c |}.

(** [memset(&sensor->cfg, 0, ...)] and the [devm_kzalloc]'ed sensor. *)
Definition cfg_zero : mpu_chip_config :=
  {| lpf := 0; enable := false; accel_enable := false; gyro_enable := false;
     is_asleep := false; lpa_freq := 0; rate_div := 0 |}.

Definition sensor_zero : mpu6050_sensor :=
  {| gyro_timer := HR_IDLE; accel_timer := HR_IDLE; cfg := cfg_zero;
     axis := {| x := 0; y := 0; z := 0; rx := 0; ry := 0; rz := 0 |};
     gyro_poll_ms := 0; accel_poll_ms := 0; accel_en := 0; gyro_en := 0;
     use_poll := false; batch_accel := false; batch_gyro := false;
     acc_cal_params := [0; 0; 0]; acc_use_cal := false;
     power_enabled := false; gyro_wkp_flag := 0; accel_wkp_flag := 0;
     gyro_delay_change := false; accel_delay_change := false; place := 0;
     wake_up_idle := false |}.

(** ** Kernel services used by the driver *)

Definition ktime_set (secs nsecs : Z) : Z := secs * NSEC_PER_SEC + nsecs.

(** [hrtimer_start(timer, ktime, HRTIMER_MODE_REL)]: (re)arms the timer. *)
Definition hrtimer_start (t : hrtimer) (ktime : Z) : Z * hrtimer :=
  (0, HR_ARMED ktime).

(** [hrtimer_try_to_cancel]: 0 when the timer was idle, 1 when it was armed
    and is now stopped, -1 when its handler is running. *)
Definition hrtimer_try_to_cancel (t : hrtimer) : Z * hrtimer :=
  match t with
  | HR_IDLE => (0, HR_IDLE)
  | HR_ARMED _ => (1, HR_IDLE)
  | HR_CALLBACK => (-1, HR_CALLBACK)
  end.

Definition atomic_read (v : Z) : bool := negb (v =? 0).

(** An [int] assigned from a [bool]-typed argument of a cdev callback. *)
Definition bool_of_uint (v : Z) : bool := negb (v =? 0).

(** ** Events handed to the input core *)

Inductive input_dev : Type := accel_dev | gyro_dev.
Inductive abs_code : Type := ABS_X | ABS_Y | ABS_Z | ABS_RX | ABS_RY | ABS_RZ.
Inductive input_ev : Type :=
| input_report_abs (dev : input_dev) (code : abs_code) (value : Z)
| input_event_time_sec (dev : input_dev) (sec : Z)
| input_event_time_nsec (dev : input_dev) (nsec : Z)
| input_sync (dev : input_dev).

Section Driver.

Variable h : fake6050_h.

(** ** Power control *)

Definition mpu6050_power_ctl (s : mpu6050_sensor) (on : bool) : Z * mpu6050_sensor :=
  let rc := 0 in
  if on && negb (power_enabled s) then
    (rc, set_power_enabled s true)
  else if negb on && power_enabled s then
    (rc, set_power_enabled s false)
  else
    (rc, s).

Definition mpu6050_power_init (s : mpu6050_sensor) : Z := 0.
Definition mpu6050_power_deinit (s : mpu6050_sensor) : Z := 0.

(** ** Polling timers *)

Definition mpu6050_manage_polling (sns_type : Z) (s : mpu6050_sensor)
  : Z * mpu6050_sensor :=
  if sns_type =? SNS_TYPE_GYRO then
    if atomic_read (gyro_en s) then
      let ktime := ktime_set 0 (gyro_poll_ms s * NSEC_PER_MSEC) in
      let '(ret, t) := hrtimer_start (gyro_timer s) ktime in
      (ret, set_gyro_timer s t)
    else
      let '(ret, t) := hrtimer_try_to_cancel (gyro_timer s) in
      (ret, set_gyro_timer s t)
  else if sns_type =? SNS_TYPE_ACCEL then
    if atomic_read (accel_en s) then
      let ktime := ktime_set 0 (accel_poll_ms s * NSEC_PER_MSEC) in
      let '(ret, t) := hrtimer_start (accel_timer s) ktime in
      (ret, set_accel_timer s t)
    else
      let '(ret, t) := hrtimer_try_to_cancel (accel_timer s) in
      (ret, set_accel_timer s t)
  else
    (- EINVAL, s).

(** The handlers return [HRTIMER_NORESTART]: unless the handler re-armed the
    timer itself, the timer is idle afterwards. *)
Definition hrtimer_norestart (t : hrtimer) : hrtimer :=
  match t with
  | HR_CALLBACK => HR_IDLE
  | _ => t
  end.

Definition gyro_timer_handle (s : mpu6050_sensor) : mpu6050_sensor :=
  let s := set_gyro_timer s HR_CALLBACK in
  let s := set_gyro_wkp_flag s 1 in
  let '(_, s) := mpu6050_manage_polling SNS_TYPE_GYRO s in
  set_gyro_timer s (hrtimer_norestart (gyro_timer s)).

Definition accel_timer_handle (s : mpu6050_sensor) : mpu6050_sensor :=
  let s := set_accel_timer s HR_CALLBACK in
  let s := set_accel_wkp_flag s 1 in
  let '(_, s) := mpu6050_manage_polling SNS_TYPE_ACCEL s in
  set_accel_timer s (hrtimer_norestart (accel_timer s)).

(** ** Workers

    One pass of the [while (1)] body after [wait_event_interruptible] has
    returned with [kthread_should_stop()] false; [timestamp] is what
    [ktime_get_boottime()] returns.  The pass yields the sensor and the events
    it hands to the input core, in order. *)

Definition gyro_poll_once (s : mpu6050_sensor) (timestamp : Z)
  : mpu6050_sensor * list input_ev :=
  let s :=
    if gyro_delay_change s then
      let s := if gyro_poll_ms s <=? POLL_MS_100HZ
               then set_wake_up_idle s true else set_wake_up_idle s false in
      set_gyro_delay_change s false
    else s in
  let s := set_axis s (mpu6050_remap_gyro_data (axis s) (place s)) in
  (s, [ input_report_abs gyro_dev ABS_RX (rx (axis s));
        input_report_abs gyro_dev ABS_RY (ry (axis s));
        input_report_abs gyro_dev ABS_RZ (rz (axis s));
        input_event_time_sec gyro_dev (timestamp / NSEC_PER_SEC);
        input_event_time_nsec gyro_dev (timestamp mod NSEC_PER_SEC);
        input_sync gyro_dev ]).

Definition accel_poll_once (s : mpu6050_sensor) (timestamp : Z)
  : mpu6050_sensor * list input_ev :=
  let s :=
    if accel_delay_change s then
      let s := if accel_poll_ms s <=? POLL_MS_100HZ
               then set_wake_up_idle s true else set_wake_up_idle s false in
      set_accel_delay_change s false
    else s in
  let s := set_axis s (mpu6050_remap_accel_data (axis s) (place s)) in
  (s, [ input_report_abs accel_dev ABS_X (x (axis s));
        input_report_abs accel_dev ABS_Y (y (axis s));
        input_report_abs accel_dev ABS_Z (z (axis s));
        input_event_time_sec accel_dev (timestamp / NSEC_PER_SEC);
        input_event_time_nsec accel_dev (timestamp mod NSEC_PER_SEC);
        input_sync accel_dev ]).

(** The thread itself, run over the successive returns of the wait: [None]
    when the thread was told to stop, [Some timestamp] for a wake-up. *)
Fixpoint gyro_poll_thread (wakes : list (option Z)) (s : mpu6050_sensor)
  : mpu6050_sensor * list input_ev :=
  match wakes with
  | [] => (s, [])
  | w :: wakes' =>
      let s := set_gyro_wkp_flag s 0 in
      match w with
      | None => (s, [])
      | Some timestamp =>
          let '(s, evs) := gyro_poll_once s timestamp in
          let '(s, evs') := gyro_poll_thread wakes' s in
          (s, evs ++ evs')
      end
  end.

Fixpoint accel_poll_thread (wakes : list (option Z)) (s : mpu6050_sensor)
  : mpu6050_sensor * list input_ev :=
  match wakes with
  | [] => (s, [])
  | w :: wakes' =>
      let s := set_accel_wkp_flag s 0 in
      match w with
      | None => (s, [])
      | Some timestamp =>
          let '(s, evs) := accel_poll_once s timestamp in
          let '(s, evs') := accel_poll_thread wakes' s in
          (s, evs ++ evs')
      end
  end.

(** ** Engine and context *)

Definition mpu6050_set_lpa_freq (s : mpu6050_sensor) (freq : Z) : Z * mpu6050_sensor :=
  (0, set_cfg s (cfg_set_lpa_freq (cfg s) freq)).

(** The body only computes the local [mgmt_1] and sleeps; it ends in
    [return 0]. *)
Definition mpu6050_switch_engine (s : mpu6050_sensor) (en : bool) (mask : Z)
  : Z * mpu6050_sensor := (0, s).

Definition mpu6050_init_engine (s : mpu6050_sensor) : Z * mpu6050_sensor :=
  let '(ret, s) := mpu6050_switch_engine s false (BIT_PWR_GYRO_STBY_MASK h) in
  if negb (ret =? 0) then (ret, s) else
  let '(ret, s) := mpu6050_switch_engine s false (BIT_PWR_ACCEL_STBY_MASK h) in
  if negb (ret =? 0) then (ret, s) else
  (0, s).

(** Only a local [val] is computed. *)
Definition mpu6050_set_power_mode (s : mpu6050_sensor) (power_on : bool)
  : Z * mpu6050_sensor := (0, s).

(** [resume_work] is never queued, so [work_pending] is false in the disable
    branches below. *)
Definition mpu6050_gyro_enable (s : mpu6050_sensor) (on : bool) : Z * mpu6050_sensor :=
  if is_asleep (cfg s) then (- EINVAL, s) else
  if on then
    let '(ret, s) := mpu6050_switch_engine s true (BIT_PWR_GYRO_STBY_MASK h) in
    if negb (ret =? 0) then (ret, s) else
    let s := set_cfg s (cfg_set_gyro_enable (cfg s) true) in
    let s := set_cfg s (cfg_set_enable (cfg s) true) in
    (0, s)
  else
    let '(ret, s) := mpu6050_switch_engine s false (BIT_PWR_GYRO_STBY_MASK h) in
    if negb (ret =? 0) then (ret, s) else
    let s := set_cfg s (cfg_set_gyro_enable (cfg s) false) in
    let s := if negb (accel_enable (cfg s))
             then set_cfg s (cfg_set_enable (cfg s) false) else s in
    (0, s).

Definition mpu6050_accel_enable (s : mpu6050_sensor) (on : bool) : Z * mpu6050_sensor :=
  if is_asleep (cfg s) then (- EINVAL, s) else
  if on then
    let '(ret, s) := mpu6050_switch_engine s true (BIT_PWR_ACCEL_STBY_MASK h) in
    if negb (ret =? 0) then (ret, s) else
    let s := set_cfg s (cfg_set_accel_enable (cfg s) true) in
    let s := set_cfg s (cfg_set_enable (cfg s) true) in
    (0, s)
  else
    let '(ret, s) := mpu6050_switch_engine s false (BIT_PWR_ACCEL_STBY_MASK h) in
    if negb (ret =? 0) then (ret, s) else
    let s := set_cfg s (cfg_set_accel_enable (cfg s) false) in
    let s := if negb (gyro_enable (cfg s))
             then set_cfg s (cfg_set_enable (cfg s) false) else s in
    (0, s).

Definition mpu6050_restore_context (s : mpu6050_sensor) : Z * mpu6050_sensor :=
  let '(ret, s) := mpu6050_set_lpa_freq s (lpa_freq (cfg s)) in
  if ret <? 0 then (ret, s) else (ret, s).

(** The loop polls a local that never changes and sleeps. *)
Definition mpu6050_reset_chip (s : mpu6050_sensor) : mpu6050_sensor := s.

(** ** Rate negotiation *)

(** [delay_ms] is a [u32] and [div] a [u8]; the operands of [/] are not
    negative. *)
Definition mpu6050_config_sample_rate (s : mpu6050_sensor) : Z * mpu6050_sensor :=
  if is_asleep (cfg s) then (- EINVAL, s) else
  let delay_ms :=
    if accel_poll_ms s <=? gyro_poll_ms s then accel_poll_ms s else gyro_poll_ms s in
  let div :=
    if negb (lpf (cfg s) =? MPU_DLPF_256HZ_NOLPF2 h) &&
       negb (lpf (cfg s) =? MPU_DLPF_RESERVED h) then
      let delay_ms :=
        if delay_ms >? DELAY_MS_MAX_DLPF h then DELAY_MS_MAX_DLPF h else delay_ms in
      let delay_ms :=
        if delay_ms <? DELAY_MS_MIN_DLPF h then DELAY_MS_MIN_DLPF h else delay_ms in
      u8_of (u32_of (ODR_DLPF_ENA h * delay_ms) / MSEC_PER_SEC - 1)
    else
      let delay_ms :=
        if delay_ms >? DELAY_MS_MAX_NODLPF h then DELAY_MS_MAX_NODLPF h else delay_ms in
      let delay_ms :=
        if delay_ms <? DELAY_MS_MIN_NODLPF h then DELAY_MS_MIN_NODLPF h else delay_ms in
      u8_of (u32_of (ODR_DLPF_DIS h * delay_ms) / MSEC_PER_SEC - 1) in
  if rate_div (cfg s) =? div then (0, s)
  else (0, set_cfg s (cfg_set_rate_div (cfg s) div)).

(** The value returned is in nanoseconds. *)
Definition mpu6050_get_sample_interval (s : mpu6050_sensor) : Z :=
  if (lpf (cfg s) =? MPU_DLPF_256HZ_NOLPF2 h) ||
     (lpf (cfg s) =? MPU_DLPF_RESERVED h) then
    let interval_ns := (rate_div (cfg s) + 1) * NSEC_PER_MSEC in
    interval_ns / 8
  else
    (rate_div (cfg s) + 1) * NSEC_PER_MSEC.

(** ** Enable, disable *)

Definition mpu6050_gyro_set_enable (s : mpu6050_sensor) (enable : bool)
  : Z * mpu6050_sensor :=
  if enable then
    (* from [ret = mpu6050_gyro_enable(sensor, true)] to [exit:] *)
    let engine_on (s : mpu6050_sensor) : Z * mpu6050_sensor :=
      let '(ret, s) := mpu6050_gyro_enable s true in
      if negb (ret =? 0) then (- EBUSY, s) else
      let '(ret, s) := mpu6050_config_sample_rate s in
      let s :=
        if negb (batch_gyro s) then
          let ktime := ktime_set 0 (gyro_poll_ms s * NSEC_PER_MSEC) in
          set_gyro_timer s (snd (hrtimer_start (gyro_timer s) ktime))
        else s in
      let s := set_gyro_en s 1 in
      (ret, s) in
    if negb (power_enabled s) then
      let '(ret, s) := mpu6050_power_ctl s true in
      if ret <? 0 then (ret, s) else
      let s := mpu6050_reset_chip s in
      let '(ret, s) := mpu6050_restore_context s in
      if ret <? 0 then (ret, s) else
      engine_on s
    else engine_on s
  else
    let s := set_gyro_en s 0 in
    let s :=
      if negb (batch_gyro s)
      then set_gyro_timer s (snd (hrtimer_try_to_cancel (gyro_timer s)))
      else s in
    let '(ret, s) := mpu6050_gyro_enable s false in
    if negb (ret =? 0) then (- EBUSY, s) else
    let s :=
      if negb (accel_enable (cfg s)) && negb (gyro_enable (cfg s))
      then snd (mpu6050_power_ctl s false) else s in
    (ret, s).

Definition mpu6050_accel_set_enable (s : mpu6050_sensor) (enable : bool)
  : Z * mpu6050_sensor :=
  if enable then
    let engine_on (s : mpu6050_sensor) : Z * mpu6050_sensor :=
      let '(ret, s) := mpu6050_accel_enable s true in
      if negb (ret =? 0) then (- EBUSY, s) else
      let '(ret, s) := mpu6050_config_sample_rate s in
      let s :=
        if negb (batch_accel s) then
          let ktime := ktime_set 0 (accel_poll_ms s * NSEC_PER_MSEC) in
          set_accel_timer s (snd (hrtimer_start (accel_timer s) ktime))
        else s in
      let s := set_accel_en s 1 in
      (ret, s) in
    if negb (power_enabled s) then
      let '(ret, s) := mpu6050_power_ctl s true in
      if ret <? 0 then (ret, s) else
      let s := mpu6050_reset_chip s in
      let '(ret, s) := mpu6050_restore_context s in
      if ret <? 0 then (ret, s) else
      engine_on s
    else engine_on s
  else
    let s := set_accel_en s 0 in
    let s :=
      if negb (batch_accel s)
      then set_accel_timer s (snd (hrtimer_try_to_cancel (accel_timer s)))
      else s in
    let '(ret, s) := mpu6050_accel_enable s false in
    if negb (ret =? 0) then (- EBUSY, s) else
    let s :=
      if negb (accel_enable (cfg s)) && negb (gyro_enable (cfg s))
      then snd (mpu6050_power_ctl s false) else s in
    (ret, s).

(** ** Poll interval

    [delay] is an [unsigned long]; after the two clamps it fits the [u32]
    field.  The accelerometer variant declares [int ret;] without a value:
    its result is [None] on the paths that return before [ret] is assigned. *)

Definition mpu6050_gyro_set_poll_delay (s : mpu6050_sensor) (delay : Z)
  : Z * mpu6050_sensor :=
  let ret := 0 in
  let delay := if delay <? MPU6050_GYRO_MIN_POLL_INTERVAL_MS
               then MPU6050_GYRO_MIN_POLL_INTERVAL_MS else delay in
  let delay := if delay >? MPU6050_GYRO_MAX_POLL_INTERVAL_MS
               then MPU6050_GYRO_MAX_POLL_INTERVAL_MS else delay in
  if gyro_poll_ms s =? delay then (ret, s) else
  let s := set_gyro_delay_change s true in
  let s := set_gyro_poll_ms s (u32_of delay) in
  if negb (atomic_read (gyro_en s)) then (ret, s) else
  (ret, s).

Definition mpu6050_accel_set_poll_delay (s : mpu6050_sensor) (delay : Z)
  : option Z * mpu6050_sensor :=
  let ret : option Z := None in
  let delay := if delay <? MPU6050_ACCEL_MIN_POLL_INTERVAL_MS
               then MPU6050_ACCEL_MIN_POLL_INTERVAL_MS else delay in
  let delay := if delay >? MPU6050_ACCEL_MAX_POLL_INTERVAL_MS
               then MPU6050_ACCEL_MAX_POLL_INTERVAL_MS else delay in
  if accel_poll_ms s =? delay then (ret, s) else
  let s := set_accel_delay_change s true in
  let s := set_accel_poll_ms s (u32_of delay) in
  if negb (atomic_read (accel_en s)) then (ret, s) else
  if use_poll s then
    let '(ret, t) := hrtimer_try_to_cancel (accel_timer s) in
    let ktime := ktime_set 0 (accel_poll_ms s * NSEC_PER_MSEC) in
    let '(_, t) := hrtimer_start t ktime in
    (Some ret, set_accel_timer s t)
  else
    let '(ret, s) := mpu6050_config_sample_rate s in
    (Some ret, s).

(** Entry points registered with the sensor class; their arguments are
    [unsigned int]. *)
Definition mpu6050_gyro_cdev_enable (s : mpu6050_sensor) (enable : Z) :=
  mpu6050_gyro_set_enable s (bool_of_uint enable).
Definition mpu6050_gyro_cdev_poll_delay (s : mpu6050_sensor) (delay_ms : Z) :=
  mpu6050_gyro_set_poll_delay s delay_ms.
Definition mpu6050_accel_cdev_enable (s : mpu6050_sensor) (enable : Z) :=
  mpu6050_accel_set_enable s (bool_of_uint enable).
Definition mpu6050_accel_cdev_poll_delay (s : mpu6050_sensor) (delay_ms : Z) :=
  mpu6050_accel_set_poll_delay s delay_ms.

(** ** Probe *)

Definition mpu_check_chip_type (s : mpu6050_sensor) : Z * mpu6050_sensor :=
  let '(ret, s) := mpu6050_set_power_mode s false in
  if negb (ret =? 0) then (ret, s) else
  let '(ret, s) := mpu6050_set_power_mode s true in
  if negb (ret =? 0) then (ret, s) else
  (0, s).

Definition mpu6050_init_config (s : mpu6050_sensor) : Z * mpu6050_sensor :=
  if is_asleep (cfg s) then (- EINVAL, s) else
  let s := mpu6050_reset_chip s in
  let c := cfg_zero in
  let c := cfg_set_lpf c (MPU_DLPF_42HZ h) in
  let data := u8_of (Z.quot (ODR_DLPF_ENA h) (INIT_FIFO_RATE h) - 1) in
  let c := cfg_set_rate_div c data in
  let c := cfg_set_gyro_enable c false in
  let c := cfg_set_accel_enable c false in
  (0, set_cfg s c).

(** [mpu6050_probe] along the path where the kernel's allocations and
    registrations succeed; [pdata_place] is the placement read from the
    platform data.  On a failure of one of the driver's own steps the labels
    [err_power_off_device] and below are taken. *)
Definition mpu6050_probe (pdata_place : Z) : Z * mpu6050_sensor :=
  let s := sensor_zero in
  let s := set_axis s {| x := 0; y := 0; z := 0; rx := 0; ry := 0; rz := 0 |} in
  let s := set_place s pdata_place in
  let ret := mpu6050_power_init s in
  if negb (ret =? 0) then (ret, s) else
  let '(ret, s) := mpu6050_power_ctl s true in
  if negb (ret =? 0) then (ret, s) else
  let err_power_off_device (ret : Z) (s : mpu6050_sensor) :=
    (ret, snd (mpu6050_power_ctl s false)) in
  let '(ret, s) := mpu_check_chip_type s in
  if negb (ret =? 0) then err_power_off_device ret s else
  let '(ret, s) := mpu6050_init_engine s in
  if negb (ret =? 0) then err_power_off_device ret s else
  let '(ret, s) := mpu6050_set_lpa_freq s (MPU6050_LPA_5HZ h) in
  if negb (ret =? 0) then err_power_off_device ret s else
  let s := set_cfg s (cfg_set_is_asleep (cfg s) false) in
  let s := set_accel_en s 0 in
  let s := set_gyro_en s 0 in
  let '(ret, s) := mpu6050_init_config s in
  if negb (ret =? 0) then err_power_off_device ret s else
  let s := set_accel_poll_ms s MPU6050_ACCEL_DEFAULT_POLL_INTERVAL_MS in
  let s := set_gyro_poll_ms s MPU6050_GYRO_DEFAULT_POLL_INTERVAL_MS in
  let s := set_acc_use_cal s false in
  let s := set_use_poll s true in
  let s := set_gyro_timer s HR_IDLE in
  let s := set_accel_timer s HR_IDLE in
  let s := set_gyro_wkp_flag s 0 in
  let s := set_accel_wkp_flag s 0 in
  let '(ret, s) := mpu6050_power_ctl s false in
  if negb (ret =? 0) then err_power_off_device ret s else
  (0, s).

(** ** Call sequences

    The requests a client can issue once the device is probed, and the sensor
    after one request and after a list of them. *)

Inductive call : Type :=
| gyro_enable_call (enable : bool)
| accel_enable_call (enable : bool)
| gyro_interval_call (delay : Z)
| accel_interval_call (delay : Z).

Definition do_call (s : mpu6050_sensor) (c : call) : mpu6050_sensor :=
  match c with
  | gyro_enable_call en => snd (mpu6050_gyro_set_enable s en)
  | accel_enable_call en => snd (mpu6050_accel_set_enable s en)
  | gyro_interval_call d => snd (mpu6050_gyro_set_poll_delay s d)
  | accel_interval_call d => snd (mpu6050_accel_set_poll_delay s d)
  end.

(** The sensor after each call of [cs], in order. *)
Fixpoint run_calls (s : mpu6050_sensor) (cs : list call) : list mpu6050_sensor :=
  match cs with
  | [] => []
  | c :: cs' => let s' := do_call s c in s' :: run_calls s' cs'
  end.

End Driver.

(** ** Reading the spec against the model *)

(** A channel is on when its atomic enable flag is set (the states
    Enabling/Enabled of the specification; a call that has returned leaves no
    transient state behind). *)
Inductive channel : Type := Accel | Gyro.

Definition channel_on (s : mpu6050_sensor) (ch : channel) : bool :=
  match ch with
  | Accel => atomic_read (accel_en s)
  | Gyro => atomic_read (gyro_en s)
  end.

Definition any_channel_on (s : mpu6050_sensor) : bool :=
  channel_on s Accel || channel_on s Gyro.

(** The engine flag kept in [cfg] for a channel, and the channel's timer. *)
Definition engine_flag (s : mpu6050_sensor) (ch : channel) : bool :=
  match ch with
  | Accel => accel_enable (cfg s)
  | Gyro => gyro_enable (cfg s)
  end.

Definition channel_timer (s : mpu6050_sensor) (ch : channel) : hrtimer :=
  match ch with
  | Accel => accel_timer s
  | Gyro => gyro_timer s
  end.

Definition set_enable (h : fake6050_h) (ch : channel) (s : mpu6050_sensor)
  (enable : bool) : Z * mpu6050_sensor :=
  match ch with
  | Accel => mpu6050_accel_set_enable h s enable
  | Gyro => mpu6050_gyro_set_enable h s enable
  end.

(** What holds of the sensor between two calls. *)
Definition consistent (s : mpu6050_sensor) : Prop :=
  is_asleep (cfg s) = false /\
  channel_on s Accel = engine_flag s Accel /\
  channel_on s Gyro = engine_flag s Gyro /\
  power_enabled s = any_channel_on s.

(** Header values under which the divisor fits the [u8] register for every
    delay of the valid range of either mode. *)
Definition header_in_range (h : fake6050_h) : Prop :=
  0 <= DELAY_MS_MIN_DLPF h <= DELAY_MS_MAX_DLPF h /\
  0 <= DELAY_MS_MIN_NODLPF h <= DELAY_MS_MAX_NODLPF h /\
  MSEC_PER_SEC <= ODR_DLPF_ENA h * DELAY_MS_MIN_DLPF h /\
  ODR_DLPF_ENA h * DELAY_MS_MAX_DLPF h <= 256 * MSEC_PER_SEC /\
  MSEC_PER_SEC <= ODR_DLPF_DIS h * DELAY_MS_MIN_NODLPF h /\
  ODR_DLPF_DIS h * DELAY_MS_MAX_NODLPF h <= 256 * MSEC_PER_SEC.

(** Both output data rates are a whole number of samples per millisecond. *)
Definition header_whole_rates (h : fake6050_h) : Prop :=
  ODR_DLPF_ENA h mod MSEC_PER_SEC = 0 /\ ODR_DLPF_DIS h mod MSEC_PER_SEC = 0.

(** The specification's rate negotiator, written after its text:
    [negotiate(interval_accel, interval_gyro, lpf_mode) -> divisor]. *)
Definition clamp (lo hi v : Z) : Z := Z.max lo (Z.min v hi).

(** [round (n / d)] for [d > 0]: the nearest integer, halves upwards. *)
Definition round_div (n d : Z) : Z := (2 * n + d) / (2 * d).

Definition spec_negotiate (h : fake6050_h) (interval_accel interval_gyro lpf_mode : Z) : Z :=
  let effective_interval := Z.min interval_accel interval_gyro in
  if (lpf_mode =? MPU_DLPF_256HZ_NOLPF2 h) || (lpf_mode =? MPU_DLPF_RESERVED h) then
    let interval_ms :=
      clamp (DELAY_MS_MIN_NODLPF h) (DELAY_MS_MAX_NODLPF h) effective_interval in
    round_div (ODR_DLPF_DIS h * interval_ms) 1000 - 1
  else
    let interval_ms :=
      clamp (DELAY_MS_MIN_DLPF h) (DELAY_MS_MAX_DLPF h) effective_interval in
    round_div (ODR_DLPF_ENA h * interval_ms) 1000 - 1.

(** The header values of the MPU6050 data sheet: 1 kHz with the filter on,
    8 kHz with it off, an 8-bit divider. *)
Definition datasheet_h : fake6050_h :=
  {| ODR_DLPF_ENA := 1000; ODR_DLPF_DIS := 8000;
     DELAY_MS_MIN_DLPF := 1; DELAY_MS_MAX_DLPF := 256;
     DELAY_MS_MIN_NODLPF := 1; DELAY_MS_MAX_NODLPF := 32;
     MPU_DLPF_256HZ_NOLPF2 := 0; MPU_DLPF_42HZ := 3; MPU_DLPF_RESERVED := 7;
     INIT_FIFO_RATE := 50; MPU6050_LPA_5HZ := 1;
     BIT_PWR_ACCEL_STBY_MASK := 56; BIT_PWR_GYRO_STBY_MASK := 7 |}.

(** The three axes of a channel, a reading with a single axis set, and the
    table a channel uses. *)
Definition chan_axes (ch : channel) (d : axis_data) : list Z :=
  match ch with
  | Accel => [x d; y d; z d]
  | Gyro => [rx d; ry d; rz d]
  end.

Definition other_axes (ch : channel) (d : axis_data) : list Z :=
  match ch with
  | Accel => [rx d; ry d; rz d]
  | Gyro => [x d; y d; z d]
  end.

Definition single_axis (k : nat) (v : Z) : list Z :=
  match k with
  | O => [v; 0; 0]
  | S O => [0; v; 0]
  | _ => [0; 0; v]
  end.

Definition remap (ch : channel) (d : axis_data) (place : Z) : axis_data :=
  match ch with
  | Accel => mpu6050_remap_accel_data d place
  | Gyro => mpu6050_remap_gyro_data d place
  end.

Definition remap_tab (ch : channel) : list sensor_axis_remap :=
  match ch with
  | Accel => mpu6050_accel_axis_remap_tab
  | Gyro => mpu6050_gyro_axis_remap_tab
  end.

Definition tab_src (r : sensor_axis_remap) : list Z := [src_x r; src_y r; src_z r].
Definition tab_sign (r : sensor_axis_remap) : list Z := [sign_x r; sign_y r; sign_z r].

(** The values of the [input_report_abs] events of a published sample. *)
Fixpoint abs_values (evs : list input_ev) : list Z :=
  match evs with
  | [] => []
  | input_report_abs _ _ v :: evs' => v :: abs_values evs'
  | _ :: evs' => abs_values evs'
  end.

Definition vec_add (a b : list Z) : list Z := map (fun p => fst p + snd p) (combine a b).
Definition vec_sub (a b : list Z) : list Z := map (fun p => fst p - snd p) (combine a b).

(** The divisor the driver computes once the header keeps the arithmetic in
    range: the same clamp, and the integer division of C. *)
Definition trunc_negotiate (h : fake6050_h) (interval_accel interval_gyro lpf_mode : Z) : Z :=
  let effective_interval := Z.min interval_accel interval_gyro in
  if (lpf_mode =? MPU_DLPF_256HZ_NOLPF2 h) || (lpf_mode =? MPU_DLPF_RESERVED h) then
    ODR_DLPF_DIS h *
      clamp (DELAY_MS_MIN_NODLPF h) (DELAY_MS_MAX_NODLPF h) effective_interval
      / MSEC_PER_SEC - 1
  else
    ODR_DLPF_ENA h *
      clamp (DELAY_MS_MIN_DLPF h) (DELAY_MS_MAX_DLPF h) effective_interval
      / MSEC_PER_SEC - 1.

(** The sample interval (ns) the driver reports after negotiating the two
    requested intervals [a] (accelerometer) and [g] (gyroscope). *)
Definition negotiated_interval (h : fake6050_h) (s : mpu6050_sensor) (a g : Z) : Z :=
  mpu6050_get_sample_interval h
    (snd (mpu6050_config_sample_rate h
            (set_gyro_poll_ms (set_accel_poll_ms s a) g))).

(** The fields the power bookkeeping depends on. *)
Definition control (s : mpu6050_sensor) : bool * bool * bool * bool * bool * bool :=
  (channel_on s Accel, channel_on s Gyro, engine_flag s Accel, engine_flag s Gyro,
   is_asleep (cfg s), power_enabled s).

(** A probed sensor whose chip is marked asleep, and one on which
    calibration is switched on with a bias. *)
Definition asleep_sensor : mpu6050_sensor :=
  let s := snd (mpu6050_probe datasheet_h 0) in
  set_cfg s (cfg_set_is_asleep (cfg s) true).

Definition set_acc_cal_params (s : mpu6050_sensor) (v : list Z) : mpu6050_sensor :=
  {| gyro_timer := gyro_timer s; accel_timer := accel_timer s; cfg := cfg s;
     axis := axis s; gyro_poll_ms := gyro_poll_ms s; accel_poll_ms := accel_poll_ms s;
     accel_en := accel_en s; gyro_en := gyro_en s; use_poll := use_poll s;
     batch_accel := batch_accel s; batch_gyro := batch_gyro s;
     acc_cal_params := v; acc_use_cal := acc_use_cal s;
     power_enabled := power_enabled s; gyro_wkp_flag := gyro_wkp_flag s;
     accel_wkp_flag := accel_wkp_flag s; gyro_delay_change := gyro_delay_change s;
     accel_delay_change := accel_delay_change s; place := place s;
     wake_up_idle := wake_up_idle s |}.

Definition calibrated_sensor : mpu6050_sensor :=
  let s := snd (mpu6050_probe datasheet_h 2) in
  let s := set_axis s {| x := 1000; y := 2000; z := 3000; rx := 0; ry := 0; rz := 0 |} in
  set_acc_cal_params (set_acc_use_cal s true) [100; - 50; 25].

(** A probed sensor with the low-pass filter off. *)
Definition nolpf_sensor : mpu6050_sensor :=
  let s := snd (mpu6050_probe datasheet_h 0) in
  set_cfg s (cfg_set_lpf (cfg s) (MPU_DLPF_256HZ_NOLPF2 datasheet_h)).

(** * The rest of the driver *)

(** ** Placement names

    [struct mpu6050_place_name] as a pair (name, place). *)

Definition mpu6050_place_name2num : list (String.string * Z) :=
  [ ("Portrait Up"%string, 0);
    ("Landscape Right"%string, 1);
    ("Portrait Down"%string, 2);
    ("Landscape Left"%string, 3);
    ("Portrait Up Back Side"%string, 4);
    ("Landscape Right Back Side"%string, 5);
    ("Portrait Down Back Side"%string, 6);
    ("Landscape Left Back Side"%string, 7) ].

(** The [for] loop of [mpu6050_dt_get_place] over the table: the place of the
    first entry whose name compares equal, [None] when the loop runs to
    [MPU6050_AXIS_REMAP_TAB_SZ]. *)
Fixpoint place_lookup (tab : list (String.string * Z)) (place_name : String.string)
  : option Z :=
  match tab with
  | [] => None
  | (name, place) :: tab' =>
      if String.eqb place_name name then Some place
      else place_lookup tab' place_name
  end.

(** [prop] is what [of_property_read_string] yields for "invn,place": [None]
    when it fails.  The result is the return value and [pdata->place]. *)
Definition mpu6050_dt_get_place (prop : option String.string) (pdata_place : Z)
  : Z * Z :=
  match prop with
  | None => (- EINVAL, pdata_place)
  | Some place_name =>
      match place_lookup mpu6050_place_name2num place_name with
      | Some place => (0, place)
      | None => (0, 0)
      end
  end.

(** ** sysfs attributes *)

Definition newline : String.string := String.String (Ascii.ascii_of_nat 10) String.EmptyString.

(** [snprintf(buf, size, ...)] for the formatted text [out]: the buffer holds
    the first [size - 1] characters, the value returned is the length of the
    whole text. *)
Definition snprintf (size : nat) (out : String.string) : Z * String.string :=
  (Z.of_nat (String.length out), String.substring 0 (size - 1) out).

(** The conversion [%d]. *)
Definition fmt_d (v : Z) : String.string := NilZero.string_of_int (Z.to_int v).

(** [None] when [pdata->place] is outside the table (the C code reads past
    it). *)
Definition mpu6050_get_place (s : mpu6050_sensor) : option (Z * String.string) :=
  if (0 <=? place s) && (place s <? MPU6050_AXIS_REMAP_TAB_SZ) then
    match nth_error mpu6050_place_name2num (Z.to_nat (place s)) with
    | Some (name, _) => Some (snprintf 30 (String.append name newline))
    | None => None
    end
  else None.

Definition mpu6050_gyro_attr_get_rx (s : mpu6050_sensor) : Z * String.string :=
  snprintf 4 (String.append (fmt_d (rx (axis s))) newline).
Definition mpu6050_gyro_attr_get_ry (s : mpu6050_sensor) : Z * String.string :=
  snprintf 4 (String.append (fmt_d (ry (axis s))) newline).
Definition mpu6050_gyro_attr_get_rz (s : mpu6050_sensor) : Z * String.string :=
  snprintf 4 (String.append (fmt_d (rz (axis s))) newline).
Definition mpu6050_accel_attr_get_x (s : mpu6050_sensor) : Z * String.string :=
  snprintf 4 (String.append (fmt_d (x (axis s))) newline).
Definition mpu6050_accel_attr_get_y (s : mpu6050_sensor) : Z * String.string :=
  snprintf 4 (String.append (fmt_d (y (axis s))) newline).
Definition mpu6050_accel_attr_get_z (s : mpu6050_sensor) : Z * String.string :=
  snprintf 4 (String.append (fmt_d (z (axis s))) newline).

(** Updates of [sensor->axis.*]; the fields are [s16]. *)
Definition axis_set (code : abs_code) (a : axis_data) (v : Z) : axis_data :=
  match code with
  | ABS_X => {| x := v; y := y a; z := z a; rx := rx a; ry := ry a; rz := rz a |}
  | ABS_Y => {| x := x a; y := v; z := z a; rx := rx a; ry := ry a; rz := rz a |}
  | ABS_Z => {| x := x a; y := y a; z := v; rx := rx a; ry := ry a; rz := rz a |}
  | ABS_RX => {| x := x a; y := y a; z := z a; rx := v; ry := ry a; rz := rz a |}
  | ABS_RY => {| x := x a; y := y a; z := z a; rx := rx a; ry := v; rz := rz a |}
  | ABS_RZ => {| x := x a; y := y a; z := z a; rx := rx a; ry := ry a; rz := v |}
  end.

Definition axis_get (code : abs_code) (a : axis_data) : Z :=
  match code with
  | ABS_X => x a | ABS_Y => y a | ABS_Z => z a
  | ABS_RX => rx a | ABS_RY => ry a | ABS_RZ => rz a
  end.

(** The six store functions have one body.  [parsed] is the outcome of
    [kstrtoul(buf, 10, &enable)]: [None] when it returns an error, else the
    [unsigned long] read.  After a successful parse the function returns
    [ret ? -EBUSY : count] for a local [ret] that was never assigned: the
    result is [None]. *)
Definition attr_set (code : abs_code) (s : mpu6050_sensor) (parsed : option Z)
  (count : Z) : option Z * mpu6050_sensor :=
  match parsed with
  | None => (Some (- EINVAL), s)
  | Some enable => (None, set_axis s (axis_set code (axis s) (s16_of enable)))
  end.

Definition mpu6050_gyro_attr_set_rx := attr_set ABS_RX.
Definition mpu6050_gyro_attr_set_ry := attr_set ABS_RY.
Definition mpu6050_gyro_attr_set_rz := attr_set ABS_RZ.
Definition mpu6050_accel_attr_set_x := attr_set ABS_X.
Definition mpu6050_accel_attr_set_y := attr_set ABS_Y.
Definition mpu6050_accel_attr_set_z := attr_set ABS_Z.

Definition attr_get (code : abs_code) (s : mpu6050_sensor) : Z * String.string :=
  match code with
  | ABS_X => mpu6050_accel_attr_get_x s
  | ABS_Y => mpu6050_accel_attr_get_y s
  | ABS_Z => mpu6050_accel_attr_get_z s
  | ABS_RX => mpu6050_gyro_attr_get_rx s
  | ABS_RY => mpu6050_gyro_attr_get_ry s
  | ABS_RZ => mpu6050_gyro_attr_get_rz s
  end.

(** The attribute files of a device, as the indices into its attribute array
    that exist.  [create_err i] is what [device_create_file] returns for
    attribute [i]: 0 when the file is made. *)
Definition device_create_file (create_err : nat -> Z) (files : list nat) (i : nat)
  : Z * list nat :=
  if create_err i =? 0 then (0, i :: files) else (create_err i, files).

Definition device_remove_file (files : list nat) (i : nat) : list nat :=
  List.remove Nat.eq_dec i files.

(** [for (; i >= 0; i--) device_remove_file(dev, attr + i);] *)
Fixpoint remove_down (files : list nat) (i : nat) : list nat :=
  match i with
  | O => device_remove_file files O
  | S i' => remove_down (device_remove_file files i) i'
  end.

(** The creation loop from index [i], with [todo] attributes left. *)
Fixpoint create_from (create_err : nat -> Z) (files : list nat) (i todo : nat)
  : Z * list nat :=
  match todo with
  | O => (0, files)
  | S todo' =>
      let '(err, files') := device_create_file create_err files i in
      if negb (err =? 0) then (err, remove_down files' i)
      else create_from create_err files' (S i) todo'
  end.

Definition ARRAY_SIZE_attr : nat := 4.

Definition create_gyro_sysfs_interfaces (create_err : nat -> Z) (files : list nat)
  : Z * list nat := create_from create_err files 0 ARRAY_SIZE_attr.
Definition create_accel_sysfs_interfaces (create_err : nat -> Z) (files : list nat)
  : Z * list nat := create_from create_err files 0 ARRAY_SIZE_attr.

(** [for (i = 0; i < ARRAY_SIZE(attr); i++) device_remove_file(dev, attr + i);] *)
Definition remove_gyro_sysfs_interfaces (files : list nat) : Z * list nat :=
  (0, fold_left device_remove_file (seq 0 ARRAY_SIZE_attr) files).
Definition remove_accel_sysfs_interfaces (files : list nat) : Z * list nat :=
  (0, fold_left device_remove_file (seq 0 ARRAY_SIZE_attr) files).

(** ** Everything that happens to a probed sensor

    Besides the calls: a timer expiry (only an armed timer expires), a worker
    pass (the wait returns once the wake flag is set), and a write to one of
    the axis attributes. *)

Inductive event : Type :=
| ev_call (c : call)
| ev_gyro_timer
| ev_accel_timer
| ev_gyro_wake (timestamp : Z)
| ev_accel_wake (timestamp : Z)
| ev_store (code : abs_code) (parsed : option Z) (count : Z).

Definition do_event (h : fake6050_h) (s : mpu6050_sensor) (e : event) : mpu6050_sensor :=
  match e with
  | ev_call c => do_call h s c
  | ev_gyro_timer =>
      match gyro_timer s with
      | HR_ARMED _ => gyro_timer_handle s
      | _ => s
      end
  | ev_accel_timer =>
      match accel_timer s with
      | HR_ARMED _ => accel_timer_handle s
      | _ => s
      end
  | ev_gyro_wake timestamp =>
      if gyro_wkp_flag s =? 0 then s
      else fst (gyro_poll_thread [Some timestamp] s)
  | ev_accel_wake timestamp =>
      if accel_wkp_flag s =? 0 then s
      else fst (accel_poll_thread [Some timestamp] s)
  | ev_store code parsed count => snd (attr_set code s parsed count)
  end.

Fixpoint run_events (h : fake6050_h) (s : mpu6050_sensor) (es : list event)
  : list mpu6050_sensor :=
  match es with
  | [] => []
  | e :: es' => let s' := do_event h s e in s' :: run_events h s' es'
  end.

(** The divisor [mpu6050_config_sample_rate] computes for the intervals [a],
    [g] and the filter mode [l]: the expression bound to [div] there. *)
Definition negotiated_div (h : fake6050_h) (a g l : Z) : Z :=
  let delay_ms := if a <=? g then a else g in
  if negb (l =? MPU_DLPF_256HZ_NOLPF2 h) && negb (l =? MPU_DLPF_RESERVED h) then
    let delay_ms :=
      if delay_ms >? DELAY_MS_MAX_DLPF h then DELAY_MS_MAX_DLPF h else delay_ms in
    let delay_ms :=
      if delay_ms <? DELAY_MS_MIN_DLPF h then DELAY_MS_MIN_DLPF h else delay_ms in
    u8_of (u32_of (ODR_DLPF_ENA h * delay_ms) / MSEC_PER_SEC - 1)
  else
    let delay_ms :=
      if delay_ms >? DELAY_MS_MAX_NODLPF h then DELAY_MS_MAX_NODLPF h else delay_ms in
    let delay_ms :=
      if delay_ms <? DELAY_MS_MIN_NODLPF h then DELAY_MS_MIN_NODLPF h else delay_ms in
    u8_of (u32_of (ODR_DLPF_DIS h * delay_ms) / MSEC_PER_SEC - 1).

Definition in_s16 (v : Z) : Prop := -32768 <= v <= 32767.

Definition axes_in_s16 (a : axis_data) : Prop :=
  in_s16 (x a) /\ in_s16 (y a) /\ in_s16 (z a) /\
  in_s16 (rx a) /\ in_s16 (ry a) /\ in_s16 (rz a).

Definition poll_interval_ok (ms : Z) : Prop :=
  MPU6050_GYRO_MIN_POLL_INTERVAL_MS <= ms <= MPU6050_GYRO_MAX_POLL_INTERVAL_MS.

(** The timer a channel has when it runs in polling mode with the interval
    [ms], and when it is off. *)
Definition timer_for (on : bool) (ms : Z) : hrtimer :=
  if on then HR_ARMED (ms * NSEC_PER_MSEC) else HR_IDLE.

(** What holds of a probed sensor whatever happens to it. *)
Definition steady (s : mpu6050_sensor) : Prop :=
  consistent s /\
  enable (cfg s) = any_channel_on s /\
  use_poll s = true /\ batch_gyro s = false /\ batch_accel s = false /\
  (accel_en s = 0 \/ accel_en s = 1) /\ (gyro_en s = 0 \/ gyro_en s = 1) /\
  poll_interval_ok (gyro_poll_ms s) /\ poll_interval_ok (accel_poll_ms s) /\
  0 <= rate_div (cfg s) <= 255 /\
  axes_in_s16 (axis s) /\
  accel_timer s = timer_for (channel_on s Accel) (accel_poll_ms s) /\
  (exists ms, poll_interval_ok ms /\
              gyro_timer s = timer_for (channel_on s Gyro) ms).

(** The integers [start], [start + 1], ... ([n] of them). *)
Fixpoint zrange (n : nat) (start : Z) : list Z :=
  match n with
  | O => []
  | S n' => start :: zrange n' (start + 1)
  end.

(** What an axis attribute shows for the reading [v], as a check that can be
    run: the length returned is that of the whole text; the buffer holds the
    whole text when [-9 <= v <= 99], and otherwise the first three characters
    of the number only, fewer than the length returned. *)
Definition show_text_ok (v : Z) : bool :=
  let r := snprintf 4 (String.append (fmt_d v) newline) in
  let small := (-9 <=? v) && (v <=? 99) in
  (fst r =? Z.of_nat (String.length (fmt_d v)) + 1) &&
  String.eqb (snd r)
    (if small then String.append (fmt_d v) newline
     else String.substring 0 3 (fmt_d v)) &&
  (small || ((3 <? fst r) && Nat.eqb (String.length (snd r)) 3)).

(** The configuration probe leaves behind. *)
Definition static_ok (h : fake6050_h) (pdata_place : Z) (s : mpu6050_sensor) : Prop :=
  lpf (cfg s) = MPU_DLPF_42HZ h /\ lpa_freq (cfg s) = 0 /\
  acc_use_cal s = false /\ use_poll s = true /\ place s = pdata_place.

(** * Properties *)

(** ** Frame facts *)

Lemma sensor_eta (s : mpu6050_sensor) : set_cfg s (cfg s) = s.
Proof. destruct s; reflexivity. Qed.

Lemma cfg_eta (c : mpu_chip_config) : cfg_set_rate_div c (rate_div c) = c.
Proof. destruct c; reflexivity. Qed.

Lemma power_ctl_ret (s : mpu6050_sensor) (on : bool) :
  fst (mpu6050_power_ctl s on) = 0.
Proof.
  unfold mpu6050_power_ctl.
  destruct on, (power_enabled s); reflexivity.
Qed.

Lemma power_ctl_state (s : mpu6050_sensor) (on : bool) :
  snd (mpu6050_power_ctl s on) = set_power_enabled s on.
Proof.
  unfold mpu6050_power_ctl.
  destruct s as [? ? ? ? ? ? ? ? ? ? ? ? ? pw ? ? ? ? ? ?].
  destruct on, pw; reflexivity.
Qed.

Lemma power_ctl_eq (s : mpu6050_sensor) (on : bool) :
  mpu6050_power_ctl s on = (0, set_power_enabled s on).
Proof.
  rewrite (surjective_pairing (mpu6050_power_ctl s on)).
  now rewrite power_ctl_ret, power_ctl_state.
Qed.

Lemma restore_context_eq (s : mpu6050_sensor) :
  mpu6050_restore_context s = (0, s).
Proof.
  unfold mpu6050_restore_context, mpu6050_set_lpa_freq.
  destruct s as [? ? c ? ? ? ? ? ? ? ? ? ? ? ? ? ? ? ? ?]; destruct c; reflexivity.
Qed.

(** The negotiator writes [cfg.rate_div] and nothing else. *)
Lemma config_sample_rate_frame (h : fake6050_h) (s : mpu6050_sensor) :
  exists div : Z,
    snd (mpu6050_config_sample_rate h s) = set_cfg s (cfg_set_rate_div (cfg s) div).
Proof.
  unfold mpu6050_config_sample_rate.
  destruct (is_asleep (cfg s)).
  - exists (rate_div (cfg s)). cbn [snd]. now rewrite cfg_eta, sensor_eta.
  - match goal with
    | |- context [if rate_div (cfg s) =? ?d then _ else _] =>
        destruct (Z.eqb_spec (rate_div (cfg s)) d) as [E | E]
    end.
    + exists (rate_div (cfg s)). cbn [snd]. now rewrite cfg_eta, sensor_eta.
    + eexists; reflexivity.
Qed.

Lemma config_sample_rate_ret (h : fake6050_h) (s : mpu6050_sensor) :
  fst (mpu6050_config_sample_rate h s) = if is_asleep (cfg s) then - EINVAL else 0.
Proof.
  unfold mpu6050_config_sample_rate.
  destruct (is_asleep (cfg s)); [reflexivity |].
  match goal with
  | |- context [if ?b then (0, s) else _] => destruct b
  end; reflexivity.
Qed.

Lemma config_sample_rate_awake (h : fake6050_h) (s : mpu6050_sensor) :
  is_asleep (cfg s) = false ->
  exists div : Z,
    mpu6050_config_sample_rate h s = (0, set_cfg s (cfg_set_rate_div (cfg s) div)).
Proof.
  intros Hs.
  destruct (config_sample_rate_frame h s) as [div E].
  exists div.
  rewrite (surjective_pairing (mpu6050_config_sample_rate h s)).
  now rewrite E, config_sample_rate_ret, Hs.
Qed.

(** ** What a call changes *)

#[local] Arguments mpu6050_config_sample_rate : simpl never.

Ltac split_ifs :=
  repeat match goal with
         | |- context [if ?b then _ else _] => destruct b eqn:?; cbn
         end.

Ltac open_sensor s :=
  let c := fresh "c" in
  destruct s as [? ? c ? ? ? ? ? ? ? ? ? ? ? ? ? ? ? ? ?]; destruct c; cbn in *.

Ltac case_flags :=
  repeat match goal with
         | |- context [negb ?b] => is_var b; destruct b; cbn
         | |- context [if ?b then _ else _] => is_var b; destruct b; cbn
         | |- context [andb ?b _] => is_var b; destruct b; cbn
         end.

Ltac unfold_enable :=
  unfold mpu6050_gyro_set_enable, mpu6050_accel_set_enable,
    mpu6050_gyro_enable, mpu6050_accel_enable,
    mpu6050_restore_context, mpu6050_set_lpa_freq, mpu6050_reset_chip,
    mpu6050_switch_engine, mpu6050_power_ctl.

(** Replaces a negotiation on an awake chip by its result. *)
Ltac negotiate_awake :=
  repeat match goal with
         | |- context [mpu6050_config_sample_rate ?h ?s1] =>
             let div := fresh "div" in
             let E := fresh "E" in
             destruct (config_sample_rate_awake h s1 eq_refl) as [div E];
             rewrite E; clear E; cbn
         end.

(** Closes a goal about the channel that was not called. *)
Ltac other_channel :=
  try match goal with
      | Hne : ?c <> _ |- _ => destruct c; try congruence; reflexivity
      end.

(** Enabling a channel of a chip that is not asleep. *)
Lemma set_enable_on (h : fake6050_h) (ch : channel) (s : mpu6050_sensor) :
  is_asleep (cfg s) = false ->
  fst (set_enable h ch s true) = 0 /\
  channel_on (snd (set_enable h ch s true)) ch = true /\
  engine_flag (snd (set_enable h ch s true)) ch = true /\
  power_enabled (snd (set_enable h ch s true)) = true /\
  is_asleep (cfg (snd (set_enable h ch s true))) = false /\
  (forall ch', ch' <> ch ->
     channel_on (snd (set_enable h ch s true)) ch' = channel_on s ch' /\
     engine_flag (snd (set_enable h ch s true)) ch' = engine_flag s ch' /\
     channel_timer (snd (set_enable h ch s true)) ch' = channel_timer s ch').
Proof.
  intros Hs. open_sensor s. subst.
  destruct ch; cbn [set_enable]; unfold_enable; cbn;
    match goal with
    | |- context [negb ?pw] => destruct pw
    end; cbn; negotiate_awake; split_ifs; repeat split;
    other_channel.
Qed.

(** Disabling a channel of a chip that is not asleep: the power goes off
    unless the other engine is on. *)
Lemma set_enable_off (h : fake6050_h) (ch : channel) (s : mpu6050_sensor) :
  is_asleep (cfg s) = false ->
  fst (set_enable h ch s false) = 0 /\
  channel_on (snd (set_enable h ch s false)) ch = false /\
  engine_flag (snd (set_enable h ch s false)) ch = false /\
  channel_timer (snd (set_enable h ch s false)) ch =
    (if match ch with Accel => batch_accel s | Gyro => batch_gyro s end
     then channel_timer s ch
     else snd (hrtimer_try_to_cancel (channel_timer s ch))) /\
  is_asleep (cfg (snd (set_enable h ch s false))) = false /\
  (forall ch', ch' <> ch ->
     channel_on (snd (set_enable h ch s false)) ch' = channel_on s ch' /\
     engine_flag (snd (set_enable h ch s false)) ch' = engine_flag s ch' /\
     channel_timer (snd (set_enable h ch s false)) ch' = channel_timer s ch' /\
     power_enabled (snd (set_enable h ch s false)) =
       (engine_flag s ch' && power_enabled s)).
Proof.
  intros Hs. open_sensor s. subst.
  destruct ch; cbn [set_enable]; unfold_enable; cbn;
    case_flags; repeat split; other_channel.
Qed.

Lemma gyro_set_poll_delay_control (s : mpu6050_sensor) (d : Z) :
  control (snd (mpu6050_gyro_set_poll_delay s d)) = control s.
Proof.
  unfold mpu6050_gyro_set_poll_delay.
  repeat match goal with
         | |- context [if ?b then _ else _] => destruct b
         end; reflexivity.
Qed.

Lemma accel_set_poll_delay_control (h : fake6050_h) (s : mpu6050_sensor) (d : Z) :
  control (snd (mpu6050_accel_set_poll_delay h s d)) = control s.
Proof.
  unfold mpu6050_accel_set_poll_delay.
  set (d' := if (if d <? _ then _ else d) >? _ then _ else _).
  destruct (accel_poll_ms s =? d'); [reflexivity |].
  cbn [accel_en set_accel_poll_ms set_accel_delay_change use_poll accel_timer].
  destruct (negb (atomic_read (accel_en s))); [reflexivity |].
  destruct (use_poll s).
  - destruct (accel_timer s); reflexivity.
  - match goal with
    | |- context [mpu6050_config_sample_rate h ?s1] =>
        destruct (config_sample_rate_frame h s1) as [div E];
        rewrite (surjective_pairing (mpu6050_config_sample_rate h s1)), E
    end.
    reflexivity.
Qed.

Lemma probe_ok (h : fake6050_h) (pdata_place : Z) :
  fst (mpu6050_probe h pdata_place) = 0 /\
  consistent (snd (mpu6050_probe h pdata_place)) /\
  any_channel_on (snd (mpu6050_probe h pdata_place)) = false.
Proof.
  unfold consistent. cbn. repeat split.
Qed.

Lemma do_call_consistent (h : fake6050_h) (s : mpu6050_sensor) (c : call) :
  consistent s -> consistent (do_call h s c).
Proof.
  intros (Hs & Ha & Hg & Hp).
  assert (Hctl : forall s', control s' = control s -> consistent s').
  { unfold control, consistent, any_channel_on. intros s' E.
    injection E as E1 E2 E3 E4 E5 E6.
    unfold channel_on, engine_flag in *.
    rewrite E1, E2, E3, E4, E5, E6. auto. }
  destruct c as [[|] | [|] | d | d]; cbn [do_call].
  - destruct (set_enable_on h Gyro s Hs) as (_ & Hon & Hen & Hpw & Hs' & Hoth).
    destruct (Hoth Accel ltac:(discriminate)) as (Ho1 & Ho2 & _).
    cbn [set_enable] in *. unfold consistent, any_channel_on.
    rewrite Hon, Hen, Hpw, Ho1, Ho2, orb_true_r. auto.
  - destruct (set_enable_off h Gyro s Hs) as (_ & Hon & Hen & _ & Hs' & Hoth).
    destruct (Hoth Accel ltac:(discriminate)) as (Ho1 & Ho2 & _ & Hpw).
    cbn [set_enable] in *. unfold consistent, any_channel_on in *.
    rewrite Hon, Hen, Hpw, Ho1, Ho2, Hp, <- Ha.
    destruct (channel_on s Accel), (channel_on s Gyro); auto.
  - destruct (set_enable_on h Accel s Hs) as (_ & Hon & Hen & Hpw & Hs' & Hoth).
    destruct (Hoth Gyro ltac:(discriminate)) as (Ho1 & Ho2 & _).
    cbn [set_enable] in *. unfold consistent, any_channel_on.
    rewrite Hon, Hen, Hpw, Ho1, Ho2. auto.
  - destruct (set_enable_off h Accel s Hs) as (_ & Hon & Hen & _ & Hs' & Hoth).
    destruct (Hoth Gyro ltac:(discriminate)) as (Ho1 & Ho2 & _ & Hpw).
    cbn [set_enable] in *. unfold consistent, any_channel_on in *.
    rewrite Hon, Hen, Hpw, Ho1, Ho2, Hp, <- Hg.
    destruct (channel_on s Accel), (channel_on s Gyro); auto.
  - apply Hctl, gyro_set_poll_delay_control.
  - apply Hctl, accel_set_poll_delay_control.
Qed.

Lemma run_calls_consistent (h : fake6050_h) (cs : list call) :
  forall s, consistent s -> Forall consistent (run_calls h s cs).
Proof.
  induction cs as [| c cs IH]; intros s Hs; cbn [run_calls].
  - constructor.
  - constructor.
    + now apply do_call_consistent.
    + apply IH. now apply do_call_consistent.
Qed.

(** ** The power flag follows the channels *)

(** C1. For every finite sequence of enable / disable / set-interval calls on
    the two channels of a probed sensor, after each call the power flag is set
    if and only if at least one channel is on. *)
Theorem power_flag_tracks_channels (h : fake6050_h) (pdata_place : Z)
  (cs : list call) :
  Forall (fun s => power_enabled s = true <->
                   (channel_on s Accel = true \/ channel_on s Gyro = true))
         (run_calls h (snd (mpu6050_probe h pdata_place)) cs).
Proof.
  eapply Forall_impl;
    [| apply run_calls_consistent, (probe_ok h pdata_place)].
  intros s (_ & _ & _ & Hp). rewrite Hp. unfold any_channel_on.
  apply orb_true_iff.
Qed.

(** ** Power control *)

Lemma set_power_enabled_idem (s : mpu6050_sensor) (on : bool) :
  set_power_enabled (set_power_enabled s on) on = set_power_enabled s on.
Proof. reflexivity. Qed.

(** An enable request on a chip marked asleep: the engine step refuses, after
    the power-up has been done. *)
Lemma set_enable_asleep (h : fake6050_h) (ch : channel) (s : mpu6050_sensor) :
  is_asleep (cfg s) = true ->
  set_enable h ch s true = (- EBUSY, set_power_enabled s true).
Proof.
  intros Hs. open_sensor s. subst.
  destruct ch; cbn [set_enable]; unfold_enable; cbn; case_flags; reflexivity.
Qed.

Lemma set_enable_ret (h : fake6050_h) (ch : channel) (s : mpu6050_sensor) :
  fst (set_enable h ch s true) = if is_asleep (cfg s) then - EBUSY else 0.
Proof.
  destruct (is_asleep (cfg s)) eqn:Hs.
  - now rewrite set_enable_asleep.
  - now destruct (set_enable_on h ch s Hs) as (-> & _).
Qed.

(** C10. The power-control operation returns 0 in every state and for either
    argument, leaves the power flag equal to the argument, changes nothing
    when the flag already has the requested value (so a second call is
    without effect); hence the test [ret < 0] that follows the power-up in
    enable() is never true, and an enable request returns 0 or, on a chip
    marked asleep, the engine step's -EBUSY. *)
Theorem power_ctl_never_fails (h : fake6050_h) (s : mpu6050_sensor) (on : bool) :
  fst (mpu6050_power_ctl s on) = 0 /\
  power_enabled (snd (mpu6050_power_ctl s on)) = on /\
  mpu6050_power_ctl (set_power_enabled s on) on = (0, set_power_enabled s on) /\
  mpu6050_power_ctl (snd (mpu6050_power_ctl s on)) on = mpu6050_power_ctl s on /\
  (fst (mpu6050_power_ctl s true) <? 0) = false /\
  fst (mpu6050_gyro_set_enable h s true) = (if is_asleep (cfg s) then - EBUSY else 0) /\
  fst (mpu6050_accel_set_enable h s true) = (if is_asleep (cfg s) then - EBUSY else 0).
Proof.
  repeat split.
  - apply power_ctl_ret.
  - now rewrite power_ctl_state.
  - now rewrite power_ctl_eq, set_power_enabled_idem.
  - rewrite (power_ctl_eq s on). cbn [snd]. now rewrite power_ctl_eq.
  - now rewrite power_ctl_ret.
  - apply (set_enable_ret h Gyro).
  - apply (set_enable_ret h Accel).
Qed.

(** ** A refused enable *)

(** C2, as the driver has it.  From a state with both channels off, an enable
    request fails only at the engine step, on a chip marked asleep; it then
    returns -EBUSY and changes nothing but the power flag: both channels are
    still off, and the power-up done before the engine step is not undone. *)
Theorem failed_enable_leaves_channel_off (h : fake6050_h) (ch : channel)
  (s : mpu6050_sensor) :
  channel_on s Accel = false ->
  channel_on s Gyro = false ->
  fst (set_enable h ch s true) < 0 ->
  is_asleep (cfg s) = true /\
  fst (set_enable h ch s true) = - EBUSY /\
  snd (set_enable h ch s true) = set_power_enabled s true /\
  channel_on (snd (set_enable h ch s true)) Accel = false /\
  channel_on (snd (set_enable h ch s true)) Gyro = false /\
  power_enabled (snd (set_enable h ch s true)) = true.
Proof.
  intros Ha Hg Hneg.
  assert (Hs : is_asleep (cfg s) = true).
  { rewrite set_enable_ret in Hneg. destruct (is_asleep (cfg s)); [reflexivity | lia]. }
  rewrite (set_enable_asleep h ch s Hs). cbn [fst snd].
  repeat split; assumption.
Qed.

Lemma failed_enable_leaves_channel_off_witness :
  is_asleep (cfg asleep_sensor) = true /\
  fst (set_enable datasheet_h Gyro asleep_sensor true) = - EBUSY /\
  snd (set_enable datasheet_h Gyro asleep_sensor true) =
    set_power_enabled asleep_sensor true /\
  channel_on (snd (set_enable datasheet_h Gyro asleep_sensor true)) Accel = false /\
  channel_on (snd (set_enable datasheet_h Gyro asleep_sensor true)) Gyro = false /\
  power_enabled (snd (set_enable datasheet_h Gyro asleep_sensor true)) = true.
Proof.
  apply (failed_enable_leaves_channel_off datasheet_h Gyro asleep_sensor).
  - reflexivity.
  - reflexivity.
  - vm_compute. reflexivity.
Defined.

(** C2 as stated fails: on a probed sensor marked asleep, with both channels
    off and the power off, enabling the gyroscope is refused and leaves the
    power flag set although no channel is on. *)
Lemma failed_enable_leaves_power_on :
  channel_on asleep_sensor Accel = false /\
  channel_on asleep_sensor Gyro = false /\
  power_enabled asleep_sensor = false /\
  fst (mpu6050_gyro_set_enable datasheet_h asleep_sensor true) = - EBUSY /\
  channel_on (snd (mpu6050_gyro_set_enable datasheet_h asleep_sensor true)) Gyro = false /\
  any_channel_on (snd (mpu6050_gyro_set_enable datasheet_h asleep_sensor true)) = false /\
  power_enabled (snd (mpu6050_gyro_set_enable datasheet_h asleep_sensor true)) = true.
Proof. vm_compute. repeat split. Qed.

(** ** Rate negotiation *)

Lemma code_min (a g : Z) : (if a <=? g then a else g) = Z.min a g.
Proof. destruct (Z.leb_spec a g); lia. Qed.

Lemma code_clamp (lo hi v : Z) :
  (if (if v >? hi then hi else v) <? lo then lo
   else if v >? hi then hi else v) = clamp lo hi v.
Proof.
  unfold clamp.
  destruct (v >? hi) eqn:E1;
    [destruct (hi <? lo) eqn:E2 | destruct (v <? lo) eqn:E2]; lia.
Qed.

Lemma clamp_bounds (lo hi v : Z) : lo <= hi -> lo <= clamp lo hi v <= hi.
Proof. unfold clamp. lia. Qed.

Lemma clamp_mono (lo hi v w : Z) : v <= w -> clamp lo hi v <= clamp lo hi w.
Proof. unfold clamp. lia. Qed.

(** Within the valid range of a mode neither the [u32] product nor the [u8]
    store wraps. *)
Lemma divisor_in_range (odr lo hi d : Z) :
  0 <= lo -> MSEC_PER_SEC <= odr * lo -> odr * hi <= 256 * MSEC_PER_SEC ->
  lo <= d <= hi ->
  u8_of (u32_of (odr * d) / MSEC_PER_SEC - 1) = odr * d / MSEC_PER_SEC - 1 /\
  0 <= odr * d / MSEC_PER_SEC - 1 <= 255.
Proof.
  unfold MSEC_PER_SEC, u8_of, u32_of. intros Hlo Hmin Hmax Hd.
  assert (Hodr : 0 < odr) by nia.
  assert (Hp : 1000 <= odr * d <= 256000) by nia.
  rewrite (Z.mod_small (odr * d)) by lia.
  assert (Hq : 1 <= odr * d / 1000 <= 256).
  { split.
    - apply Z.div_le_lower_bound; lia.
    - apply Z.div_le_upper_bound; lia. }
  rewrite Z.mod_small by lia. lia.
Qed.

(** On an awake chip the negotiator stores [trunc_negotiate]. *)
Lemma config_sample_rate_trunc (h : fake6050_h) (s : mpu6050_sensor) :
  header_in_range h ->
  is_asleep (cfg s) = false ->
  mpu6050_config_sample_rate h s =
    (0, set_cfg s (cfg_set_rate_div (cfg s)
                     (trunc_negotiate h (accel_poll_ms s) (gyro_poll_ms s) (lpf (cfg s))))) /\
  0 <= trunc_negotiate h (accel_poll_ms s) (gyro_poll_ms s) (lpf (cfg s)) <= 255.
Proof.
  intros (Hd & Hn & Hd1 & Hd2 & Hn1 & Hn2) Hs.
  unfold mpu6050_config_sample_rate, trunc_negotiate. rewrite Hs.
  rewrite code_min, !code_clamp.
  rewrite <- negb_orb.
  destruct ((lpf (cfg s) =? MPU_DLPF_256HZ_NOLPF2 h) ||
            (lpf (cfg s) =? MPU_DLPF_RESERVED h)); cbn [negb].
  - destruct (divisor_in_range (ODR_DLPF_DIS h) (DELAY_MS_MIN_NODLPF h)
                (DELAY_MS_MAX_NODLPF h)
                (clamp (DELAY_MS_MIN_NODLPF h) (DELAY_MS_MAX_NODLPF h)
                   (Z.min (accel_poll_ms s) (gyro_poll_ms s))))
      as [E B]; try lia; [apply clamp_bounds; lia |].
    rewrite E. split; [| exact B].
    destruct (Z.eqb_spec (rate_div (cfg s))
                (ODR_DLPF_DIS h *
                 clamp (DELAY_MS_MIN_NODLPF h) (DELAY_MS_MAX_NODLPF h)
                   (Z.min (accel_poll_ms s) (gyro_poll_ms s)) / MSEC_PER_SEC - 1))
      as [<- | _]; [| reflexivity].
    now rewrite cfg_eta, sensor_eta.
  - destruct (divisor_in_range (ODR_DLPF_ENA h) (DELAY_MS_MIN_DLPF h)
                (DELAY_MS_MAX_DLPF h)
                (clamp (DELAY_MS_MIN_DLPF h) (DELAY_MS_MAX_DLPF h)
                   (Z.min (accel_poll_ms s) (gyro_poll_ms s))))
      as [E B]; try lia; [apply clamp_bounds; lia |].
    rewrite E. split; [| exact B].
    destruct (Z.eqb_spec (rate_div (cfg s))
                (ODR_DLPF_ENA h *
                 clamp (DELAY_MS_MIN_DLPF h) (DELAY_MS_MAX_DLPF h)
                   (Z.min (accel_poll_ms s) (gyro_poll_ms s)) / MSEC_PER_SEC - 1))
      as [<- | _]; [| reflexivity].
    now rewrite cfg_eta, sensor_eta.
Qed.

(** Rounding an exact quotient is the quotient. *)
Lemma round_div_exact (n : Z) :
  n mod 1000 = 0 -> round_div n 1000 = n / MSEC_PER_SEC.
Proof.
  unfold round_div, MSEC_PER_SEC. intros Hn.
  pose proof (Z.div_mod n 1000 ltac:(lia)) as E. rewrite Hn in E.
  replace (2 * n + 1000) with ((n / 1000) * (2 * 1000) + 1000) by lia.
  rewrite Z.div_add_l by lia. cbn. lia.
Qed.

Lemma mul_mod_1000 (odr d : Z) : odr mod MSEC_PER_SEC = 0 -> (odr * d) mod 1000 = 0.
Proof.
  unfold MSEC_PER_SEC. intros Ho.
  rewrite Z.mul_mod by lia. rewrite Ho. reflexivity.
Qed.

Lemma spec_negotiate_trunc (h : fake6050_h) (a g lpf_mode : Z) :
  header_whole_rates h ->
  spec_negotiate h a g lpf_mode = trunc_negotiate h a g lpf_mode.
Proof.
  intros (He & Hd). unfold spec_negotiate, trunc_negotiate.
  destruct ((lpf_mode =? MPU_DLPF_256HZ_NOLPF2 h) || (lpf_mode =? MPU_DLPF_RESERVED h));
    rewrite round_div_exact; auto using mul_mod_1000.
Qed.

Lemma trunc_negotiate_mono (h : fake6050_h) (a a' g g' lpf_mode : Z) :
  header_in_range h -> a <= a' -> g <= g' ->
  trunc_negotiate h a g lpf_mode <= trunc_negotiate h a' g' lpf_mode.
Proof.
  intros (Hd & Hn & Hd1 & Hd2 & Hn1 & Hn2) Ha Hg.
  unfold trunc_negotiate, MSEC_PER_SEC in *.
  assert (Hm : Z.min a g <= Z.min a' g') by lia.
  assert (He : 0 < ODR_DLPF_ENA h) by nia.
  assert (Hi : 0 < ODR_DLPF_DIS h) by nia.
  destruct ((lpf_mode =? MPU_DLPF_256HZ_NOLPF2 h) || (lpf_mode =? MPU_DLPF_RESERVED h)).
  - apply Z.sub_le_mono_r, Z.div_le_mono; [lia |].
    apply Z.mul_le_mono_nonneg_l; [lia | now apply clamp_mono].
  - apply Z.sub_le_mono_r, Z.div_le_mono; [lia |].
    apply Z.mul_le_mono_nonneg_l; [lia | now apply clamp_mono].
Qed.

Lemma negotiated_interval_awake (h : fake6050_h) (s : mpu6050_sensor) (a g : Z) :
  header_in_range h -> is_asleep (cfg s) = false ->
  negotiated_interval h s a g =
    if (lpf (cfg s) =? MPU_DLPF_256HZ_NOLPF2 h) || (lpf (cfg s) =? MPU_DLPF_RESERVED h)
    then (trunc_negotiate h a g (lpf (cfg s)) + 1) * NSEC_PER_MSEC / 8
    else (trunc_negotiate h a g (lpf (cfg s)) + 1) * NSEC_PER_MSEC.
Proof.
  intros Hh Hs. unfold negotiated_interval.
  destruct (config_sample_rate_trunc h (set_gyro_poll_ms (set_accel_poll_ms s a) g) Hh Hs)
    as [E _].
  rewrite E. reflexivity.
Qed.

Lemma negotiated_interval_asleep (h : fake6050_h) (s : mpu6050_sensor) (a g : Z) :
  is_asleep (cfg s) = true ->
  negotiated_interval h s a g = mpu6050_get_sample_interval h s.
Proof.
  intros Hs. unfold negotiated_interval, mpu6050_config_sample_rate.
  cbn [cfg set_gyro_poll_ms set_accel_poll_ms]. rewrite Hs. reflexivity.
Qed.

(** C3. On an awake chip, for every pair of requested intervals and every
    filter mode, the negotiator stores the divisor of the specification: the
    smaller interval, clamped to the range of the mode, times the output data
    rate of the mode, over 1000, rounded, minus one.  The header is taken to
    keep the divisor within the 8-bit register and to give whole rates per
    millisecond. *)
Theorem negotiation_matches_spec (h : fake6050_h) (s : mpu6050_sensor) :
  header_in_range h ->
  header_whole_rates h ->
  is_asleep (cfg s) = false ->
  mpu6050_config_sample_rate h s =
    (0, set_cfg s (cfg_set_rate_div (cfg s)
                     (spec_negotiate h (accel_poll_ms s) (gyro_poll_ms s) (lpf (cfg s))))).
Proof.
  intros Hr Hw Hs.
  rewrite spec_negotiate_trunc by assumption.
  now destruct (config_sample_rate_trunc h s Hr Hs).
Qed.

Lemma negotiation_matches_spec_witness :
  mpu6050_config_sample_rate datasheet_h (snd (mpu6050_probe datasheet_h 0)) =
    (0, set_cfg (snd (mpu6050_probe datasheet_h 0))
          (cfg_set_rate_div (cfg (snd (mpu6050_probe datasheet_h 0)))
             (spec_negotiate datasheet_h 200 200 (MPU_DLPF_42HZ datasheet_h)))).
Proof.
  apply (negotiation_matches_spec datasheet_h (snd (mpu6050_probe datasheet_h 0))).
  - unfold header_in_range, MSEC_PER_SEC. cbn. lia.
  - split; reflexivity.
  - reflexivity.
Defined.

(** C6. With both channels asking for the interval [i] and the filter off
    (mode NoLpf or Reserved), the interval the driver reports for the
    negotiated divisor is (divisor + 1) ms over 8, and it is the clamped [i],
    in nanoseconds; in particular the two are within one divisor step (an
    eighth of a millisecond).  The header is taken to give the 8 kHz rate that
    the division by 8 stands for. *)
Theorem negotiate_roundtrip_nolpf (h : fake6050_h) (s : mpu6050_sensor) (i : Z) :
  header_in_range h ->
  ODR_DLPF_DIS h = 8 * MSEC_PER_SEC ->
  is_asleep (cfg s) = false ->
  lpf (cfg s) = MPU_DLPF_256HZ_NOLPF2 h \/ lpf (cfg s) = MPU_DLPF_RESERVED h ->
  negotiated_interval h s i i =
    (rate_div (cfg (snd (mpu6050_config_sample_rate h
                           (set_gyro_poll_ms (set_accel_poll_ms s i) i)))) + 1)
    * NSEC_PER_MSEC / 8 /\
  negotiated_interval h s i i =
    clamp (DELAY_MS_MIN_NODLPF h) (DELAY_MS_MAX_NODLPF h) i * NSEC_PER_MSEC /\
  Z.abs (negotiated_interval h s i i -
         clamp (DELAY_MS_MIN_NODLPF h) (DELAY_MS_MAX_NODLPF h) i * NSEC_PER_MSEC)
    <= NSEC_PER_MSEC / 8.
Proof.
  intros Hr Ho Hs Hl.
  assert (Hm : (lpf (cfg s) =? MPU_DLPF_256HZ_NOLPF2 h) ||
               (lpf (cfg s) =? MPU_DLPF_RESERVED h) = true).
  { apply orb_true_iff. destruct Hl as [-> | ->]; [left | right]; apply Z.eqb_refl. }
  assert (Hi : negotiated_interval h s i i =
               clamp (DELAY_MS_MIN_NODLPF h) (DELAY_MS_MAX_NODLPF h) i * NSEC_PER_MSEC).
  { rewrite negotiated_interval_awake by assumption. rewrite Hm.
    unfold trunc_negotiate. rewrite Hm, Ho, Z.min_id.
    unfold MSEC_PER_SEC, NSEC_PER_MSEC.
    set (d := clamp _ _ i).
    replace (8 * 1000 * d) with (8 * d * 1000) by lia.
    rewrite Z.div_mul by lia.
    replace ((8 * d - 1 + 1) * 1000000) with (d * 1000000 * 8) by lia.
    now rewrite Z.div_mul by lia. }
  repeat split.
  - unfold negotiated_interval at 1, mpu6050_get_sample_interval.
    destruct (config_sample_rate_trunc h (set_gyro_poll_ms (set_accel_poll_ms s i) i) Hr Hs)
      as [E _].
    rewrite E. cbn [snd cfg set_cfg lpf cfg_set_rate_div rate_div
                      set_gyro_poll_ms set_accel_poll_ms].
    now rewrite Hm.
  - exact Hi.
  - rewrite Hi, Z.sub_diag. unfold NSEC_PER_MSEC. cbn. lia.
Qed.

Lemma negotiate_roundtrip_nolpf_witness :
  negotiated_interval datasheet_h nolpf_sensor 1000 1000 =
    (rate_div (cfg (snd (mpu6050_config_sample_rate datasheet_h
                           (set_gyro_poll_ms (set_accel_poll_ms nolpf_sensor 1000) 1000)))) + 1)
    * NSEC_PER_MSEC / 8 /\
  negotiated_interval datasheet_h nolpf_sensor 1000 1000 =
    clamp (DELAY_MS_MIN_NODLPF datasheet_h) (DELAY_MS_MAX_NODLPF datasheet_h) 1000
    * NSEC_PER_MSEC /\
  Z.abs (negotiated_interval datasheet_h nolpf_sensor 1000 1000 -
         clamp (DELAY_MS_MIN_NODLPF datasheet_h) (DELAY_MS_MAX_NODLPF datasheet_h) 1000
         * NSEC_PER_MSEC)
    <= NSEC_PER_MSEC / 8.
Proof.
  apply (negotiate_roundtrip_nolpf datasheet_h nolpf_sensor 1000).
  - unfold header_in_range, MSEC_PER_SEC. cbn. lia.
  - reflexivity.
  - reflexivity.
  - left. reflexivity.
Defined.

(** C7. For every sensor state, filter mode and pair of requested intervals,
    raising the accelerometer interval, the gyroscope interval or both never
    lowers the sample interval reported for the negotiated divisor.  The
    header is taken to keep the divisor within the 8-bit register. *)
Theorem negotiation_monotone (h : fake6050_h) (s : mpu6050_sensor)
  (a a' g g' : Z) :
  header_in_range h ->
  a <= a' ->
  g <= g' ->
  negotiated_interval h s a g <= negotiated_interval h s a' g'.
Proof.
  intros Hr Ha Hg.
  destruct (is_asleep (cfg s)) eqn:Hs.
  - rewrite !negotiated_interval_asleep by assumption. lia.
  - rewrite !negotiated_interval_awake by assumption.
    pose proof (trunc_negotiate_mono h a a' g g' (lpf (cfg s)) Hr Ha Hg) as Hm.
    unfold NSEC_PER_MSEC.
    destruct ((lpf (cfg s) =? MPU_DLPF_256HZ_NOLPF2 h) ||
              (lpf (cfg s) =? MPU_DLPF_RESERVED h)).
    + apply Z.div_le_mono; lia.
    + lia.
Qed.

Lemma negotiation_monotone_witness :
  negotiated_interval datasheet_h nolpf_sensor 10 200 <=
  negotiated_interval datasheet_h nolpf_sensor 20 200.
Proof.
  apply (negotiation_monotone datasheet_h nolpf_sensor 10 20 200 200).
  - unfold header_in_range, MSEC_PER_SEC. cbn. lia.
  - lia.
  - lia.
Defined.

(** ** Placement transform *)

Lemma s16_of_0 : s16_of 0 = 0.
Proof. reflexivity. Qed.

Lemma s16_of_keep (v : Z) :
  -32768 <= v <= 32767 ->
  s16_of (v * 1) = (if (v =? -32768) && (1 =? -1) then v else v * 1).
Proof.
  intros Hv. cbn [Z.eqb andb]. rewrite andb_false_r.
  unfold s16_of. rewrite Z.mul_1_r.
  rewrite Z.mod_small by lia. lia.
Qed.

Lemma s16_of_flip (v : Z) :
  -32768 <= v <= 32767 ->
  s16_of (v * -1) = (if (v =? -32768) && (-1 =? -1) then v else v * -1).
Proof.
  intros Hv. cbn [Z.eqb Pos.eqb]. rewrite andb_true_r.
  unfold s16_of. destruct (Z.eqb_spec v (-32768)) as [-> | Hne].
  - reflexivity.
  - rewrite Z.mod_small by lia. lia.
Qed.

Lemma s16_of_keep_nonzero (v : Z) :
  -32768 <= v <= 32767 -> v <> 0 -> s16_of (v * 1) <> 0.
Proof.
  intros Hv Hz. rewrite s16_of_keep by assumption.
  rewrite andb_false_r. lia.
Qed.

Lemma s16_of_flip_nonzero (v : Z) :
  -32768 <= v <= 32767 -> v <> 0 -> s16_of (v * -1) <> 0.
Proof.
  intros Hv Hz. rewrite s16_of_flip by assumption.
  destruct ((v =? -32768) && (-1 =? -1)); lia.
Qed.

Lemma remap_identity (ch : channel) (d : axis_data) (p : Z) :
  p <= 0 \/ MPU6050_AXIS_REMAP_TAB_SZ <= p -> remap ch d p = d.
Proof.
  intros Hp. unfold MPU6050_AXIS_REMAP_TAB_SZ in Hp.
  destruct ch; cbn [remap];
    unfold mpu6050_remap_accel_data, mpu6050_remap_gyro_data, MPU6050_AXIS_REMAP_TAB_SZ;
    destruct (Z.leb_spec p 0); destruct (Z.geb_spec p 8); cbn [orb]; try reflexivity; lia.
Qed.

#[local] Arguments s16_of : simpl never.

Ltac remap_case v Hv Hz :=
  cbn; rewrite ?s16_of_0;
  first
    [ exists 0%nat; cbn; repeat split; try lia; auto;
      solve [ apply (s16_of_keep_nonzero v Hv Hz) | apply (s16_of_flip_nonzero v Hv Hz)
            | apply (s16_of_keep v Hv) | apply (s16_of_flip v Hv) ]
    | exists 1%nat; cbn; repeat split; try lia; auto;
      solve [ apply (s16_of_keep_nonzero v Hv Hz) | apply (s16_of_flip_nonzero v Hv Hz)
            | apply (s16_of_keep v Hv) | apply (s16_of_flip v Hv) ]
    | exists 2%nat; cbn; repeat split; try lia; auto;
      solve [ apply (s16_of_keep_nonzero v Hv Hz) | apply (s16_of_flip_nonzero v Hv Hz)
            | apply (s16_of_keep v Hv) | apply (s16_of_flip v Hv) ] ].

(** C4, as the driver has it.  For an orientation from 1 to 7, either channel
    and a reading of that channel whose only nonzero axis is axis [k] with the
    16-bit value [v]: the remapped reading has exactly one nonzero axis, the
    axis [i] whose table source is [k]; its value is [v] times the table sign
    of [i] stored in 16 bits, which is that product except for [v] = -32768
    under sign -1, which stays -32768; the axes of the other channel are
    untouched.  For orientation 0 and below, and 8 and above, every reading is
    returned unchanged. *)
Theorem remap_single_axis (ch : channel) (place : Z) (k : nat) (v : Z)
  (d : axis_data) :
  1 <= place <= 7 ->
  (k < 3)%nat ->
  -32768 <= v <= 32767 ->
  v <> 0 ->
  chan_axes ch d = single_axis k v ->
  (exists i : nat,
     (i < 3)%nat /\
     nth i (tab_src (tab_at (remap_tab ch) place)) 0 = Z.of_nat k /\
     (nth i (tab_sign (tab_at (remap_tab ch) place)) 0 = 1 \/
      nth i (tab_sign (tab_at (remap_tab ch) place)) 0 = -1) /\
     chan_axes ch (remap ch d place) =
       single_axis i (s16_of (v * nth i (tab_sign (tab_at (remap_tab ch) place)) 0)) /\
     s16_of (v * nth i (tab_sign (tab_at (remap_tab ch) place)) 0) <> 0 /\
     s16_of (v * nth i (tab_sign (tab_at (remap_tab ch) place)) 0) =
       (if (v =? -32768) && (nth i (tab_sign (tab_at (remap_tab ch) place)) 0 =? -1)
        then v
        else v * nth i (tab_sign (tab_at (remap_tab ch) place)) 0) /\
     other_axes ch (remap ch d place) = other_axes ch d) /\
  (forall (p : Z) (d' : axis_data),
     p <= 0 \/ MPU6050_AXIS_REMAP_TAB_SZ <= p -> remap ch d' p = d').
Proof.
  intros Hp Hk Hv Hz Hax. split; [| intros p d'; apply remap_identity].
  assert (Hcases : place = 1 \/ place = 2 \/ place = 3 \/ place = 4 \/
                   place = 5 \/ place = 6 \/ place = 7) by lia.
  destruct d as [dx dy dz drx dry drz].
  destruct k as [| [| [| k]]]; [| | | lia];
    destruct ch; cbn [chan_axes single_axis x y z rx ry rz] in Hax;
    injection Hax as -> -> ->;
    destruct Hcases as [-> | [-> | [-> | [-> | [-> | [-> | ->]]]]]];
    remap_case v Hv Hz.
Qed.

Lemma remap_single_axis_witness :
  (exists i : nat,
     (i < 3)%nat /\
     nth i (tab_src (tab_at (remap_tab Accel) 1)) 0 = Z.of_nat 0 /\
     (nth i (tab_sign (tab_at (remap_tab Accel) 1)) 0 = 1 \/
      nth i (tab_sign (tab_at (remap_tab Accel) 1)) 0 = -1) /\
     chan_axes Accel
       (remap Accel {| x := 5; y := 0; z := 0; rx := 7; ry := 8; rz := 9 |} 1) =
       single_axis i (s16_of (5 * nth i (tab_sign (tab_at (remap_tab Accel) 1)) 0)) /\
     s16_of (5 * nth i (tab_sign (tab_at (remap_tab Accel) 1)) 0) <> 0 /\
     s16_of (5 * nth i (tab_sign (tab_at (remap_tab Accel) 1)) 0) =
       (if (5 =? -32768) && (nth i (tab_sign (tab_at (remap_tab Accel) 1)) 0 =? -1)
        then 5
        else 5 * nth i (tab_sign (tab_at (remap_tab Accel) 1)) 0) /\
     other_axes Accel
       (remap Accel {| x := 5; y := 0; z := 0; rx := 7; ry := 8; rz := 9 |} 1) =
       other_axes Accel {| x := 5; y := 0; z := 0; rx := 7; ry := 8; rz := 9 |}) /\
  (forall (p : Z) (d' : axis_data),
     p <= 0 \/ MPU6050_AXIS_REMAP_TAB_SZ <= p -> remap Accel d' p = d').
Proof.
  apply (remap_single_axis Accel 1 0 5
           {| x := 5; y := 0; z := 0; rx := 7; ry := 8; rz := 9 |}).
  - lia.
  - lia.
  - lia.
  - lia.
  - reflexivity.
Defined.

(** C4 as stated fails at the reading (-32768, 0, 0) of the accelerometer
    under orientation 2: the table sign of the x axis is -1, yet the remapped
    x axis is -32768 again, with the sign of the input. *)
Lemma remap_sign_lost_at_int16_min :
  sign_x (tab_at mpu6050_accel_axis_remap_tab 2) = -1 /\
  src_x (tab_at mpu6050_accel_axis_remap_tab 2) = 0 /\
  mpu6050_remap_accel_data
    {| x := -32768; y := 0; z := 0; rx := 0; ry := 0; rz := 0 |} 2 =
    {| x := -32768; y := 0; z := 0; rx := 0; ry := 0; rz := 0 |} /\
  Z.sgn (x (mpu6050_remap_accel_data
              {| x := -32768; y := 0; z := 0; rx := 0; ry := 0; rz := 0 |} 2)) <>
    sign_x (tab_at mpu6050_accel_axis_remap_tab 2) * Z.sgn (-32768).
Proof. vm_compute. repeat split. discriminate. Qed.

(** ** Published samples *)

(** Replaces a negotiation by its effect on the sensor. *)
Ltac negotiate_frame :=
  repeat match goal with
         | |- context [mpu6050_config_sample_rate ?h ?s1] =>
             let div := fresh "div" in
             let E := fresh "E" in
             let r := fresh "r" in
             let s2 := fresh "s" in
             destruct (config_sample_rate_frame h s1) as [div E];
             destruct (mpu6050_config_sample_rate h s1) as [r s2];
             cbn [snd] in E; subst s2; cbn
         end.

(** No call touches the calibration, the placement or the raw axes. *)
Lemma do_call_keeps_data (h : fake6050_h) (s : mpu6050_sensor) (c : call) :
  acc_use_cal (do_call h s c) = acc_use_cal s /\
  acc_cal_params (do_call h s c) = acc_cal_params s /\
  place (do_call h s c) = place s /\
  axis (do_call h s c) = axis s.
Proof.
  destruct c as [e | e | d | d]; cbn [do_call].
  - open_sensor s.
    destruct e; unfold_enable; cbn; case_flags; negotiate_frame; case_flags;
      repeat split.
  - open_sensor s.
    destruct e; unfold_enable; cbn; case_flags; negotiate_frame; case_flags;
      repeat split.
  - unfold mpu6050_gyro_set_poll_delay.
    repeat match goal with
           | |- context [if ?b then _ else _] => destruct b
           end; repeat split.
  - unfold mpu6050_accel_set_poll_delay.
    set (d' := if (if d <? _ then _ else d) >? _ then _ else _).
    destruct (accel_poll_ms s =? d'); [repeat split |].
    cbn [accel_en set_accel_poll_ms set_accel_delay_change use_poll accel_timer].
    destruct (negb (atomic_read (accel_en s))); [repeat split |].
    destruct (use_poll s).
    + destruct (accel_timer s); repeat split.
    + negotiate_frame. repeat split.
Qed.

Lemma run_calls_keep_cal (h : fake6050_h) (cs : list call) :
  forall s, Forall (fun s' => acc_use_cal s' = acc_use_cal s) (run_calls h s cs).
Proof.
  induction cs as [| c cs IH]; intros s; cbn [run_calls]; constructor.
  - apply do_call_keeps_data.
  - eapply Forall_impl; [| apply IH].
    intros s' E. cbn beta in E. rewrite E. apply do_call_keeps_data.
Qed.

(** C5, as the driver has it.  A pass of the accelerometer worker publishes
    the accelerometer axes as the placement transform leaves them, whatever
    the calibration flag and bias are: no bias is applied.  The flag is clear
    after probe and after every call that follows. *)
Theorem accel_sample_is_remapped_axes (h : fake6050_h) (s : mpu6050_sensor)
  (timestamp : Z) (use_cal : bool) (bias : list Z) (cs : list call) :
  abs_values (snd (accel_poll_once s timestamp)) =
    chan_axes Accel (mpu6050_remap_accel_data (axis s) (place s)) /\
  abs_values (snd (accel_poll_once
                     (set_acc_cal_params (set_acc_use_cal s use_cal) bias) timestamp)) =
    abs_values (snd (accel_poll_once s timestamp)) /\
  acc_use_cal (snd (mpu6050_probe h (place s))) = false /\
  Forall (fun s' => acc_use_cal s' = false)
         (run_calls h (snd (mpu6050_probe h (place s))) cs).
Proof.
  repeat split.
  - unfold accel_poll_once.
    destruct (accel_delay_change s); [destruct (accel_poll_ms s <=? POLL_MS_100HZ) |];
      reflexivity.
  - unfold accel_poll_once.
    cbn [accel_delay_change accel_poll_ms set_acc_cal_params set_acc_use_cal].
    destruct (accel_delay_change s); [destruct (accel_poll_ms s <=? POLL_MS_100HZ) |];
      reflexivity.
  - apply (run_calls_keep_cal h cs (snd (mpu6050_probe h (place s)))).
Qed.

(** C5 as stated fails: with calibration switched on and the bias
    (100, -50, 25), under orientation 2 the raw reading (1000, 2000, 3000) is
    published as the remapped (-1000, -2000, 3000), which is neither that
    reading minus the bias nor that reading plus the bias. *)
Lemma accel_sample_ignores_calibration :
  acc_use_cal calibrated_sensor = true /\
  acc_cal_params calibrated_sensor = [100; -50; 25] /\
  chan_axes Accel (mpu6050_remap_accel_data (axis calibrated_sensor)
                     (place calibrated_sensor)) = [-1000; -2000; 3000] /\
  abs_values (snd (accel_poll_once calibrated_sensor 0)) = [-1000; -2000; 3000] /\
  abs_values (snd (accel_poll_once calibrated_sensor 0)) <>
    vec_sub [-1000; -2000; 3000] (acc_cal_params calibrated_sensor) /\
  abs_values (snd (accel_poll_once calibrated_sensor 0)) <>
    vec_add [-1000; -2000; 3000] (acc_cal_params calibrated_sensor).
Proof. vm_compute. repeat split; discriminate. Qed.

(** ** Poll interval requests *)

(** The gyroscope request writes the interval and the pending flag only. *)
Lemma gyro_set_poll_delay_timer (s : mpu6050_sensor) (d : Z) :
  fst (mpu6050_gyro_set_poll_delay s d) = 0 /\
  gyro_timer (snd (mpu6050_gyro_set_poll_delay s d)) = gyro_timer s /\
  accel_timer (snd (mpu6050_gyro_set_poll_delay s d)) = accel_timer s.
Proof.
  unfold mpu6050_gyro_set_poll_delay.
  repeat match goal with
         | |- context [if ?b then _ else _] => destruct b
         end; repeat split.
Qed.

(** A request whose clamped value is the stored interval. *)
Lemma gyro_set_poll_delay_same (s : mpu6050_sensor) (d : Z) :
  clamp MPU6050_GYRO_MIN_POLL_INTERVAL_MS MPU6050_GYRO_MAX_POLL_INTERVAL_MS d =
    gyro_poll_ms s ->
  mpu6050_gyro_set_poll_delay s d = (0, s).
Proof.
  unfold mpu6050_gyro_set_poll_delay, clamp, MPU6050_GYRO_MIN_POLL_INTERVAL_MS,
    MPU6050_GYRO_MAX_POLL_INTERVAL_MS.
  intros E.
  match goal with
  | |- (if gyro_poll_ms s =? ?v then _ else _) = _ =>
      replace v with (gyro_poll_ms s)
        by (destruct (d <? 10) eqn:E1;
            [destruct (10 >? 5000) eqn:E2 | destruct (d >? 5000) eqn:E2]; lia)
  end.
  now rewrite Z.eqb_refl.
Qed.

Lemma accel_set_poll_delay_same (h : fake6050_h) (s : mpu6050_sensor) (d : Z) :
  clamp MPU6050_ACCEL_MIN_POLL_INTERVAL_MS MPU6050_ACCEL_MAX_POLL_INTERVAL_MS d =
    accel_poll_ms s ->
  mpu6050_accel_set_poll_delay h s d = (None, s).
Proof.
  unfold mpu6050_accel_set_poll_delay, clamp, MPU6050_ACCEL_MIN_POLL_INTERVAL_MS,
    MPU6050_ACCEL_MAX_POLL_INTERVAL_MS.
  intros E.
  match goal with
  | |- (if accel_poll_ms s =? ?v then _ else _) = _ =>
      replace v with (accel_poll_ms s)
        by (destruct (d <? 10) eqn:E1;
            [destruct (10 >? 5000) eqn:E2 | destruct (d >? 5000) eqn:E2]; lia)
  end.
  now rewrite Z.eqb_refl.
Qed.

(** The timer and the interval fields after an enable request. *)
Lemma gyro_set_enable_on_timer (h : fake6050_h) (s : mpu6050_sensor) :
  is_asleep (cfg s) = false ->
  gyro_timer (snd (mpu6050_gyro_set_enable h s true)) =
    (if batch_gyro s then gyro_timer s
     else HR_ARMED (ktime_set 0 (gyro_poll_ms s * NSEC_PER_MSEC))) /\
  gyro_poll_ms (snd (mpu6050_gyro_set_enable h s true)) = gyro_poll_ms s /\
  gyro_en (snd (mpu6050_gyro_set_enable h s true)) = 1 /\
  use_poll (snd (mpu6050_gyro_set_enable h s true)) = use_poll s.
Proof.
  intros Hs. open_sensor s. subst.
  unfold_enable; cbn; case_flags; negotiate_awake; repeat apply conj; reflexivity.
Qed.

Lemma accel_set_enable_on_timer (h : fake6050_h) (s : mpu6050_sensor) :
  is_asleep (cfg s) = false ->
  accel_timer (snd (mpu6050_accel_set_enable h s true)) =
    (if batch_accel s then accel_timer s
     else HR_ARMED (ktime_set 0 (accel_poll_ms s * NSEC_PER_MSEC))) /\
  accel_poll_ms (snd (mpu6050_accel_set_enable h s true)) = accel_poll_ms s /\
  accel_en (snd (mpu6050_accel_set_enable h s true)) = 1 /\
  use_poll (snd (mpu6050_accel_set_enable h s true)) = use_poll s.
Proof.
  intros Hs. open_sensor s. subst.
  unfold_enable; cbn; case_flags; negotiate_awake; repeat apply conj; reflexivity.
Qed.

Lemma clamp_poll_interval (d : Z) :
  (if (if d <? 10 then 10 else d) >? 5000 then 5000
   else if d <? 10 then 10 else d) = clamp 10 5000 d /\
  u32_of (clamp 10 5000 d) = clamp 10 5000 d.
Proof.
  unfold clamp, u32_of. split.
  - destruct (d <? 10) eqn:E1;
      [destruct (10 >? 5000) eqn:E2 | destruct (d >? 5000) eqn:E2]; lia.
  - apply Z.mod_small. lia.
Qed.

(** A request that changes the stored interval. *)
Lemma gyro_set_poll_delay_change (s : mpu6050_sensor) (d : Z) :
  clamp MPU6050_GYRO_MIN_POLL_INTERVAL_MS MPU6050_GYRO_MAX_POLL_INTERVAL_MS d <>
    gyro_poll_ms s ->
  mpu6050_gyro_set_poll_delay s d =
    (0, set_gyro_poll_ms (set_gyro_delay_change s true)
          (clamp MPU6050_GYRO_MIN_POLL_INTERVAL_MS MPU6050_GYRO_MAX_POLL_INTERVAL_MS d)).
Proof.
  unfold mpu6050_gyro_set_poll_delay, MPU6050_GYRO_MIN_POLL_INTERVAL_MS,
    MPU6050_GYRO_MAX_POLL_INTERVAL_MS.
  intros Hne. destruct (clamp_poll_interval d) as [-> ->].
  destruct (Z.eqb_spec (gyro_poll_ms s) (clamp 10 5000 d)); [congruence |].
  destruct (negb _); reflexivity.
Qed.

Lemma accel_set_poll_delay_polling (h : fake6050_h) (s : mpu6050_sensor) (d : Z) :
  clamp MPU6050_ACCEL_MIN_POLL_INTERVAL_MS MPU6050_ACCEL_MAX_POLL_INTERVAL_MS d <>
    accel_poll_ms s ->
  atomic_read (accel_en s) = true ->
  use_poll s = true ->
  mpu6050_accel_set_poll_delay h s d =
    (Some (fst (hrtimer_try_to_cancel (accel_timer s))),
     set_accel_timer
       (set_accel_poll_ms (set_accel_delay_change s true)
          (clamp MPU6050_ACCEL_MIN_POLL_INTERVAL_MS MPU6050_ACCEL_MAX_POLL_INTERVAL_MS d))
       (HR_ARMED
          (ktime_set 0
             (clamp MPU6050_ACCEL_MIN_POLL_INTERVAL_MS
                MPU6050_ACCEL_MAX_POLL_INTERVAL_MS d * NSEC_PER_MSEC)))).
Proof.
  unfold mpu6050_accel_set_poll_delay, MPU6050_ACCEL_MIN_POLL_INTERVAL_MS,
    MPU6050_ACCEL_MAX_POLL_INTERVAL_MS.
  intros Hne Hen Hup. destruct (clamp_poll_interval d) as [-> ->].
  destruct (Z.eqb_spec (accel_poll_ms s) (clamp 10 5000 d)); [congruence |].
  cbn [accel_en use_poll accel_timer accel_poll_ms
         set_accel_poll_ms set_accel_delay_change].
  rewrite Hen, Hup. cbn [negb].
  destruct (accel_timer s); reflexivity.
Qed.

(** When its timer fires on an enabled gyroscope, the handler re-arms it for
    the stored interval. *)
Lemma gyro_timer_handle_rearms (s : mpu6050_sensor) :
  atomic_read (gyro_en s) = true ->
  gyro_timer (gyro_timer_handle s) =
    HR_ARMED (ktime_set 0 (gyro_poll_ms s * NSEC_PER_MSEC)).
Proof.
  intros Hen. unfold gyro_timer_handle, mpu6050_manage_polling.
  cbn [Z.eqb SNS_TYPE_GYRO gyro_en set_gyro_wkp_flag set_gyro_timer].
  rewrite Hen. reflexivity.
Qed.

(** The fields of a probed sensor. *)
Lemma probe_fields (h : fake6050_h) (pdata_place : Z) :
  is_asleep (cfg (snd (mpu6050_probe h pdata_place))) = false /\
  batch_gyro (snd (mpu6050_probe h pdata_place)) = false /\
  batch_accel (snd (mpu6050_probe h pdata_place)) = false /\
  use_poll (snd (mpu6050_probe h pdata_place)) = true /\
  gyro_poll_ms (snd (mpu6050_probe h pdata_place)) = 200 /\
  accel_poll_ms (snd (mpu6050_probe h pdata_place)) = 200 /\
  gyro_timer (snd (mpu6050_probe h pdata_place)) = HR_IDLE /\
  accel_timer (snd (mpu6050_probe h pdata_place)) = HR_IDLE.
Proof. repeat apply conj; reflexivity. Qed.

(** C8 on the code.  No gyroscope interval request touches the gyroscope
    timer.  On a probed sensor with the gyroscope enabled (polling mode, timer
    armed for 200 ms), a request for 5 ms stores 10 ms and sets the pending
    flag, but leaves the timer armed for the 200 ms of before: the 10 ms are
    used only when the handler re-arms the timer at that expiry.  The
    accelerometer request, on the same sequence, re-arms its timer for 10 ms
    at once. *)
Theorem gyro_interval_request_keeps_timer (h : fake6050_h) (pdata_place : Z) :
  let s1 := snd (mpu6050_gyro_set_enable h (snd (mpu6050_probe h pdata_place)) true) in
  let s2 := snd (mpu6050_gyro_set_poll_delay s1 5) in
  let a1 := snd (mpu6050_accel_set_enable h (snd (mpu6050_probe h pdata_place)) true) in
  let a2 := snd (mpu6050_accel_set_poll_delay h a1 5) in
  (forall (s : mpu6050_sensor) (d : Z),
     gyro_timer (snd (mpu6050_gyro_set_poll_delay s d)) = gyro_timer s) /\
  channel_on s1 Gyro = true /\
  use_poll s1 = true /\
  gyro_timer s1 = HR_ARMED (200 * NSEC_PER_MSEC) /\
  gyro_poll_ms s2 = 10 /\
  gyro_delay_change s2 = true /\
  gyro_timer s2 = HR_ARMED (200 * NSEC_PER_MSEC) /\
  gyro_timer (gyro_timer_handle s2) = HR_ARMED (10 * NSEC_PER_MSEC) /\
  accel_timer a1 = HR_ARMED (200 * NSEC_PER_MSEC) /\
  accel_poll_ms a2 = 10 /\
  accel_delay_change a2 = true /\
  accel_timer a2 = HR_ARMED (10 * NSEC_PER_MSEC).
Proof.
  intros s1 s2 a1 a2.
  destruct (probe_fields h pdata_place)
    as (Hs & Hbg & Hba & Hup & Hgp & Hap & Hgt & Hat).
  destruct (gyro_set_enable_on_timer h _ Hs) as (Ht1 & Hp1 & He1 & Hu1).
  destruct (accel_set_enable_on_timer h _ Hs) as (Ht1' & Hp1' & He1' & Hu1').
  fold s1 in Ht1, Hp1, He1, Hu1. fold a1 in Ht1', Hp1', He1', Hu1'.
  rewrite Hbg, Hgp in Ht1. rewrite Hba, Hap in Ht1'.
  rewrite Hgp in Hp1. rewrite Hap in Hp1'. rewrite Hup in Hu1, Hu1'.
  assert (E2 : s2 = set_gyro_poll_ms (set_gyro_delay_change s1 true) 10).
  { unfold s2. rewrite gyro_set_poll_delay_change; [reflexivity |].
    rewrite Hp1. discriminate. }
  assert (E2' : a2 = set_accel_timer
                       (set_accel_poll_ms (set_accel_delay_change a1 true) 10)
                       (HR_ARMED (10 * NSEC_PER_MSEC))).
  { unfold a2. rewrite accel_set_poll_delay_polling; [reflexivity | | | assumption].
    - rewrite Hp1'. discriminate.
    - unfold atomic_read. now rewrite He1'. }
  repeat apply conj.
  - intros s d. apply gyro_set_poll_delay_timer.
  - unfold channel_on, atomic_read. now rewrite He1.
  - exact Hu1.
  - exact Ht1.
  - now rewrite E2.
  - now rewrite E2.
  - rewrite E2. exact Ht1.
  - rewrite gyro_timer_handle_rearms.
    + now rewrite E2.
    + rewrite E2. unfold atomic_read. cbn [gyro_en set_gyro_poll_ms set_gyro_delay_change].
      now rewrite He1.
  - exact Ht1'.
  - now rewrite E2'.
  - now rewrite E2'.
  - now rewrite E2'.
Qed.

(** C9 on the code.  A request whose clamped value is the stored interval
    changes nothing on either channel; the gyroscope request returns 0, the
    accelerometer request returns the value of a local that was never
    assigned.  So it is on a probed sensor (both intervals 200 ms) for a
    request of 200 ms. *)
Theorem same_interval_request (h : fake6050_h) (pdata_place : Z)
  (s : mpu6050_sensor) (d : Z) :
  mpu6050_gyro_set_poll_delay
    (set_gyro_poll_ms s
       (clamp MPU6050_GYRO_MIN_POLL_INTERVAL_MS MPU6050_GYRO_MAX_POLL_INTERVAL_MS d)) d =
    (0, set_gyro_poll_ms s
          (clamp MPU6050_GYRO_MIN_POLL_INTERVAL_MS MPU6050_GYRO_MAX_POLL_INTERVAL_MS d)) /\
  mpu6050_accel_set_poll_delay h
    (set_accel_poll_ms s
       (clamp MPU6050_ACCEL_MIN_POLL_INTERVAL_MS MPU6050_ACCEL_MAX_POLL_INTERVAL_MS d)) d =
    (None, set_accel_poll_ms s
             (clamp MPU6050_ACCEL_MIN_POLL_INTERVAL_MS MPU6050_ACCEL_MAX_POLL_INTERVAL_MS d)) /\
  mpu6050_gyro_set_poll_delay (snd (mpu6050_probe h pdata_place)) 200 =
    (0, snd (mpu6050_probe h pdata_place)) /\
  mpu6050_accel_set_poll_delay h (snd (mpu6050_probe h pdata_place)) 200 =
    (None, snd (mpu6050_probe h pdata_place)).
Proof.
  repeat apply conj.
  - apply gyro_set_poll_delay_same. reflexivity.
  - apply accel_set_poll_delay_same. reflexivity.
  - apply gyro_set_poll_delay_same. reflexivity.
  - apply accel_set_poll_delay_same. reflexivity.
Qed.

(** ** Scenarios *)

(** Probe leaves the filter at 42 Hz and the divisor for 50 Hz. *)
Example probe_divisor :
  mpu6050_probe datasheet_h 2 =
    (0, set_place
          (set_use_poll
             (set_gyro_poll_ms
                (set_accel_poll_ms
                   (set_cfg sensor_zero
                      (cfg_set_rate_div (cfg_set_lpf cfg_zero 3) 19)) 200) 200) true) 2).
Proof. reflexivity. Qed.

(** Both intervals 200 ms, filter off: enabling the gyroscope and then the
    accelerometer gives the divisor for the 32 ms the mode allows at most;
    disabling the gyroscope keeps the power on, disabling the accelerometer
    too takes it off. *)
Example enable_both_then_disable :
  let s1 := snd (mpu6050_gyro_set_enable datasheet_h nolpf_sensor true) in
  let s2 := snd (mpu6050_accel_set_enable datasheet_h s1 true) in
  let s3 := snd (mpu6050_gyro_set_enable datasheet_h s2 false) in
  let s4 := snd (mpu6050_accel_set_enable datasheet_h s3 false) in
  rate_div (cfg s1) = 255 /\ rate_div (cfg s2) = 255 /\
  mpu6050_get_sample_interval datasheet_h s2 = 32 * NSEC_PER_MSEC /\
  power_enabled s2 = true /\ gyro_timer s2 = HR_ARMED (200 * NSEC_PER_MSEC) /\
  power_enabled s3 = true /\ gyro_timer s3 = HR_IDLE /\
  accel_timer s3 = HR_ARMED (200 * NSEC_PER_MSEC) /\
  power_enabled s4 = false /\ accel_timer s4 = HR_IDLE.
Proof. vm_compute. repeat apply conj; reflexivity. Qed.

(** Orientation 3 sends the accelerometer reading (1, 2, 3) to (-2, 1, 3) and
    the gyroscope reading (1, 2, 3) to (2, 1, -3). *)
Example remap_place_3 :
  mpu6050_remap_accel_data {| x := 1; y := 2; z := 3; rx := 1; ry := 2; rz := 3 |} 3 =
    {| x := -2; y := 1; z := 3; rx := 1; ry := 2; rz := 3 |} /\
  mpu6050_remap_gyro_data {| x := 1; y := 2; z := 3; rx := 1; ry := 2; rz := 3 |} 3 =
    {| x := 1; y := 2; z := 3; rx := 2; ry := 1; rz := -3 |}.
Proof. vm_compute. split; reflexivity. Qed.

(** A worker pass publishes three axis events, the two halves of the
    timestamp and a sync; each pass remaps the stored reading again. *)
Example accel_worker_two_wakes :
  snd (accel_poll_thread [Some 1500000000; Some 2000000000; None]
         (set_axis (snd (mpu6050_probe datasheet_h 1))
            {| x := 5; y := 6; z := 7; rx := 0; ry := 0; rz := 0 |})) =
    [ input_report_abs accel_dev ABS_X 6; input_report_abs accel_dev ABS_Y (-5);
      input_report_abs accel_dev ABS_Z 7;
      input_event_time_sec accel_dev 1; input_event_time_nsec accel_dev 500000000;
      input_sync accel_dev;
      input_report_abs accel_dev ABS_X (-5); input_report_abs accel_dev ABS_Y (-6);
      input_report_abs accel_dev ABS_Z 7;
      input_event_time_sec accel_dev 2; input_event_time_nsec accel_dev 0;
      input_sync accel_dev ].
Proof. vm_compute. reflexivity. Qed.

(** * Further properties *)

(** * Further properties *)

(** ** Placement transform, repeated *)

Lemma s16_of_range (v : Z) : in_s16 (s16_of v).
Proof.
  unfold in_s16, s16_of.
  pose proof (Z.mod_pos_bound (v + 32768) 65536 ltac:(lia)). lia.
Qed.

Lemma s16_of_id (v : Z) : in_s16 v -> s16_of v = v.
Proof.
  unfold in_s16, s16_of. intros Hv. rewrite Z.mod_small by lia. lia.
Qed.

Lemma s16_mul1 (v : Z) : in_s16 v -> s16_of (v * 1) = v.
Proof. intros Hv. rewrite Z.mul_1_r. now apply s16_of_id. Qed.

Lemma s16_negneg (v : Z) : in_s16 v -> s16_of (s16_of (v * -1) * -1) = v.
Proof.
  unfold in_s16. intros Hv.
  destruct (Z.eq_dec v (-32768)) as [-> | Hne]; [reflexivity |].
  rewrite (s16_of_id (v * -1)) by (unfold in_s16; lia).
  replace (v * -1 * -1) with v by lia.
  apply s16_of_id. exact Hv.
Qed.

(** What each orientation does to a reading, row by row of the two tables. *)

Lemma remap_accel_row_1 (a b c d e f : Z) :
  mpu6050_remap_accel_data {| x := a; y := b; z := c; rx := d; ry := e; rz := f |} 1 =
    {| x := s16_of (b * 1); y := s16_of (a * -1); z := s16_of (c * 1);
       rx := d; ry := e; rz := f |}.
Proof. reflexivity. Qed.

Lemma remap_accel_row_2 (a b c d e f : Z) :
  mpu6050_remap_accel_data {| x := a; y := b; z := c; rx := d; ry := e; rz := f |} 2 =
    {| x := s16_of (a * -1); y := s16_of (b * -1); z := s16_of (c * 1);
       rx := d; ry := e; rz := f |}.
Proof. reflexivity. Qed.

Lemma remap_accel_row_3 (a b c d e f : Z) :
  mpu6050_remap_accel_data {| x := a; y := b; z := c; rx := d; ry := e; rz := f |} 3 =
    {| x := s16_of (b * -1); y := s16_of (a * 1); z := s16_of (c * 1);
       rx := d; ry := e; rz := f |}.
Proof. reflexivity. Qed.

Lemma remap_accel_row_4 (a b c d e f : Z) :
  mpu6050_remap_accel_data {| x := a; y := b; z := c; rx := d; ry := e; rz := f |} 4 =
    {| x := s16_of (a * -1); y := s16_of (b * 1); z := s16_of (c * -1);
       rx := d; ry := e; rz := f |}.
Proof. reflexivity. Qed.

Lemma remap_accel_row_5 (a b c d e f : Z) :
  mpu6050_remap_accel_data {| x := a; y := b; z := c; rx := d; ry := e; rz := f |} 5 =
    {| x := s16_of (b * -1); y := s16_of (a * -1); z := s16_of (c * -1);
       rx := d; ry := e; rz := f |}.
Proof. reflexivity. Qed.

Lemma remap_accel_row_6 (a b c d e f : Z) :
  mpu6050_remap_accel_data {| x := a; y := b; z := c; rx := d; ry := e; rz := f |} 6 =
    {| x := s16_of (a * 1); y := s16_of (b * -1); z := s16_of (c * -1);
       rx := d; ry := e; rz := f |}.
Proof. reflexivity. Qed.

Lemma remap_accel_row_7 (a b c d e f : Z) :
  mpu6050_remap_accel_data {| x := a; y := b; z := c; rx := d; ry := e; rz := f |} 7 =
    {| x := s16_of (b * 1); y := s16_of (a * 1); z := s16_of (c * -1);
       rx := d; ry := e; rz := f |}.
Proof. reflexivity. Qed.

Lemma remap_gyro_row_1 (a b c d e f : Z) :
  mpu6050_remap_gyro_data {| x := d; y := e; z := f; rx := a; ry := b; rz := c |} 1 =
    {| x := d; y := e; z := f;
       rx := s16_of (b * -1); ry := s16_of (a * -1); rz := s16_of (c * -1) |}.
Proof. reflexivity. Qed.

Lemma remap_gyro_row_2 (a b c d e f : Z) :
  mpu6050_remap_gyro_data {| x := d; y := e; z := f; rx := a; ry := b; rz := c |} 2 =
    {| x := d; y := e; z := f;
       rx := s16_of (a * 1); ry := s16_of (b * -1); rz := s16_of (c * -1) |}.
Proof. reflexivity. Qed.

Lemma remap_gyro_row_3 (a b c d e f : Z) :
  mpu6050_remap_gyro_data {| x := d; y := e; z := f; rx := a; ry := b; rz := c |} 3 =
    {| x := d; y := e; z := f;
       rx := s16_of (b * 1); ry := s16_of (a * 1); rz := s16_of (c * -1) |}.
Proof. reflexivity. Qed.

Lemma remap_gyro_row_4 (a b c d e f : Z) :
  mpu6050_remap_gyro_data {| x := d; y := e; z := f; rx := a; ry := b; rz := c |} 4 =
    {| x := d; y := e; z := f;
       rx := s16_of (a * 1); ry := s16_of (b * 1); rz := s16_of (c * 1) |}.
Proof. reflexivity. Qed.

Lemma remap_gyro_row_5 (a b c d e f : Z) :
  mpu6050_remap_gyro_data {| x := d; y := e; z := f; rx := a; ry := b; rz := c |} 5 =
    {| x := d; y := e; z := f;
       rx := s16_of (b * 1); ry := s16_of (a * -1); rz := s16_of (c * 1) |}.
Proof. reflexivity. Qed.

Lemma remap_gyro_row_6 (a b c d e f : Z) :
  mpu6050_remap_gyro_data {| x := d; y := e; z := f; rx := a; ry := b; rz := c |} 6 =
    {| x := d; y := e; z := f;
       rx := s16_of (a * -1); ry := s16_of (b * -1); rz := s16_of (c * 1) |}.
Proof. reflexivity. Qed.

Lemma remap_gyro_row_7 (a b c d e f : Z) :
  mpu6050_remap_gyro_data {| x := d; y := e; z := f; rx := a; ry := b; rz := c |} 7 =
    {| x := d; y := e; z := f;
       rx := s16_of (b * -1); ry := s16_of (a * 1); rz := s16_of (c * 1) |}.
Proof. reflexivity. Qed.

Ltac remap_rows :=
  rewrite ?remap_accel_row_1,
    ?remap_accel_row_2,
    ?remap_accel_row_3,
    ?remap_accel_row_4,
    ?remap_accel_row_5,
    ?remap_accel_row_6,
    ?remap_accel_row_7,
    ?remap_gyro_row_1,
    ?remap_gyro_row_2,
    ?remap_gyro_row_3,
    ?remap_gyro_row_4,
    ?remap_gyro_row_5,
    ?remap_gyro_row_6,
    ?remap_gyro_row_7.

Ltac s16_simpl :=
  repeat first
    [ rewrite s16_mul1 by first [assumption | apply s16_of_range]
    | rewrite s16_negneg by first [assumption | apply s16_of_range] ].

(** X1. Four applications of the placement transform give back any reading
    whose axes of that channel are 16-bit values, for every orientation and
    both channels. *)
Theorem remap_four_times (ch : channel) (place : Z) (d : axis_data) :
  Forall in_s16 (chan_axes ch d) ->
  remap ch (remap ch (remap ch (remap ch d place) place) place) place = d.
Proof.
  intros Hd.
  destruct (Z_le_gt_dec place 0) as [Hlo | Hlo];
    [now rewrite !remap_identity by (left; exact Hlo) |].
  destruct (Z_le_gt_dec MPU6050_AXIS_REMAP_TAB_SZ place) as [Hhi | Hhi];
    [now rewrite !remap_identity by (right; exact Hhi) |].
  unfold MPU6050_AXIS_REMAP_TAB_SZ in Hhi.
  assert (Hcases : place = 1 \/ place = 2 \/ place = 3 \/ place = 4 \/
                   place = 5 \/ place = 6 \/ place = 7) by lia.
  destruct d as [dx dy dz drx dry drz].
  destruct ch; cbn [chan_axes x y z rx ry rz] in Hd;
    inversion Hd as [| ? ? H1 Hd1]; subst;
    inversion Hd1 as [| ? ? H2 Hd2]; subst;
    inversion Hd2 as [| ? ? H3 _]; subst;
    destruct Hcases as [-> | [-> | [-> | [-> | [-> | [-> | ->]]]]]];
    cbn [remap]; repeat (progress (remap_rows; s16_simpl)); reflexivity.
Qed.

Lemma remap_four_times_witness :
  remap Accel
    (remap Accel
       (remap Accel
          (remap Accel
             {| x := -32768; y := 7; z := 32767; rx := 1; ry := 2; rz := 3 |} 5) 5) 5) 5 =
    {| x := -32768; y := 7; z := 32767; rx := 1; ry := 2; rz := 3 |}.
Proof.
  apply (remap_four_times Accel 5
           {| x := -32768; y := 7; z := 32767; rx := 1; ry := 2; rz := 3 |}).
  cbn [chan_axes x y z].
  repeat (apply Forall_cons; [unfold in_s16; lia |]). apply Forall_nil.
Defined.

Lemma remap_in_s16 (ch : channel) (place : Z) (d : axis_data) :
  axes_in_s16 d -> axes_in_s16 (remap ch d place).
Proof.
  intros Hd.
  destruct ch; cbn [remap];
    unfold mpu6050_remap_accel_data, mpu6050_remap_gyro_data;
    destruct ((place <=? 0) || (place >=? MPU6050_AXIS_REMAP_TAB_SZ));
    try exact Hd;
    destruct Hd as (Hx & Hy & Hz & Hrx & Hry & Hrz);
    unfold axes_in_s16; cbv zeta; cbn [x y z rx ry rz];
    repeat apply conj;
    first [assumption | apply s16_of_range | unfold in_s16 in *; lia].
Qed.



(** ** Workers *)

Lemma accel_poll_once_facts (s : mpu6050_sensor) (t : Z) :
  axis (fst (accel_poll_once s t)) = mpu6050_remap_accel_data (axis s) (place s) /\
  place (fst (accel_poll_once s t)) = place s /\
  abs_values (snd (accel_poll_once s t)) =
    chan_axes Accel (mpu6050_remap_accel_data (axis s) (place s)) /\
  List.length (snd (accel_poll_once s t)) = 6%nat.
Proof.
  unfold accel_poll_once.
  destruct (accel_delay_change s); [destruct (accel_poll_ms s <=? POLL_MS_100HZ) |];
    repeat apply conj; reflexivity.
Qed.

Lemma gyro_poll_once_facts (s : mpu6050_sensor) (t : Z) :
  axis (fst (gyro_poll_once s t)) = mpu6050_remap_gyro_data (axis s) (place s) /\
  place (fst (gyro_poll_once s t)) = place s /\
  abs_values (snd (gyro_poll_once s t)) =
    chan_axes Gyro (mpu6050_remap_gyro_data (axis s) (place s)) /\
  List.length (snd (gyro_poll_once s t)) = 6%nat.
Proof.
  unfold gyro_poll_once.
  destruct (gyro_delay_change s); [destruct (gyro_poll_ms s <=? POLL_MS_100HZ) |];
    repeat apply conj; reflexivity.
Qed.

Lemma accel_poll_thread_cons (t : Z) (ws : list (option Z)) (s : mpu6050_sensor) :
  accel_poll_thread (Some t :: ws) s =
    (fst (accel_poll_thread ws (fst (accel_poll_once (set_accel_wkp_flag s 0) t))),
     snd (accel_poll_once (set_accel_wkp_flag s 0) t) ++
     snd (accel_poll_thread ws (fst (accel_poll_once (set_accel_wkp_flag s 0) t)))).
Proof.
  cbn [accel_poll_thread].
  destruct (accel_poll_once (set_accel_wkp_flag s 0) t) as [s1 evs].
  cbn [fst snd]. destruct (accel_poll_thread ws s1). reflexivity.
Qed.

Lemma gyro_poll_thread_cons (t : Z) (ws : list (option Z)) (s : mpu6050_sensor) :
  gyro_poll_thread (Some t :: ws) s =
    (fst (gyro_poll_thread ws (fst (gyro_poll_once (set_gyro_wkp_flag s 0) t))),
     snd (gyro_poll_once (set_gyro_wkp_flag s 0) t) ++
     snd (gyro_poll_thread ws (fst (gyro_poll_once (set_gyro_wkp_flag s 0) t)))).
Proof.
  cbn [gyro_poll_thread].
  destruct (gyro_poll_once (set_gyro_wkp_flag s 0) t) as [s1 evs].
  cbn [fst snd]. destruct (gyro_poll_thread ws s1). reflexivity.
Qed.

Lemma abs_values_app (a b : list input_ev) :
  abs_values (a ++ b) = abs_values a ++ abs_values b.
Proof.
  induction a as [| e a IH]; [reflexivity |].
  destruct e; cbn [app abs_values]; now rewrite IH.
Qed.

Lemma flat_map_seq_shift {A : Type} (f : nat -> list A) (n : nat) :
  flat_map f (seq 1 n) = flat_map (fun k => f (S k)) (seq 0 n).
Proof.
  rewrite <- seq_shift. induction (seq 0 n) as [| k l IH]; [reflexivity |].
  cbn [map flat_map]. now rewrite IH.
Qed.

Lemma accel_thread_axis (ts : list Z) :
  forall s,
    axis (fst (accel_poll_thread (map Some ts) s)) =
      Nat.iter (List.length ts) (fun a => mpu6050_remap_accel_data a (place s)) (axis s) /\
    abs_values (snd (accel_poll_thread (map Some ts) s)) =
      flat_map (fun k => chan_axes Accel
                  (Nat.iter (S k) (fun a => mpu6050_remap_accel_data a (place s)) (axis s)))
               (seq 0 (List.length ts)).
Proof.
  induction ts as [| t ts IH]; intros s; [split; reflexivity |].
  cbn [map]. rewrite accel_poll_thread_cons. cbn [fst snd List.length].
  destruct (accel_poll_once_facts (set_accel_wkp_flag s 0) t) as (Ha & Hp & Hv & _).
  destruct (IH (fst (accel_poll_once (set_accel_wkp_flag s 0) t))) as [IH1 IH2].
  rewrite Hp, Ha in IH1, IH2. cbn [place axis set_accel_wkp_flag] in IH1, IH2.
  split.
  - rewrite IH1. symmetry. exact (Nat.iter_succ_r _ _ _ _).
  - rewrite abs_values_app, Hv, IH2. cbn [seq flat_map].
    cbn [place axis set_accel_wkp_flag]. apply f_equal.
    rewrite flat_map_seq_shift. apply flat_map_ext. intros k.
    apply f_equal. symmetry. exact (Nat.iter_succ_r (S k) _ _ _).
Qed.

Lemma gyro_thread_axis (ts : list Z) :
  forall s,
    axis (fst (gyro_poll_thread (map Some ts) s)) =
      Nat.iter (List.length ts) (fun a => mpu6050_remap_gyro_data a (place s)) (axis s) /\
    abs_values (snd (gyro_poll_thread (map Some ts) s)) =
      flat_map (fun k => chan_axes Gyro
                  (Nat.iter (S k) (fun a => mpu6050_remap_gyro_data a (place s)) (axis s)))
               (seq 0 (List.length ts)).
Proof.
  induction ts as [| t ts IH]; intros s; [split; reflexivity |].
  cbn [map]. rewrite gyro_poll_thread_cons. cbn [fst snd List.length].
  destruct (gyro_poll_once_facts (set_gyro_wkp_flag s 0) t) as (Ha & Hp & Hv & _).
  destruct (IH (fst (gyro_poll_once (set_gyro_wkp_flag s 0) t))) as [IH1 IH2].
  rewrite Hp, Ha in IH1, IH2. cbn [place axis set_gyro_wkp_flag] in IH1, IH2.
  split.
  - rewrite IH1. symmetry. exact (Nat.iter_succ_r _ _ _ _).
  - rewrite abs_values_app, Hv, IH2. cbn [seq flat_map].
    cbn [place axis set_gyro_wkp_flag]. apply f_equal.
    rewrite flat_map_seq_shift. apply flat_map_ext. intros k.
    apply f_equal. symmetry. exact (Nat.iter_succ_r (S k) _ _ _).
Qed.

(** X2. The workers transform the stored reading in place: after [n]
    wake-ups the stored reading is the placement transform applied [n] times
    to the reading the thread started with, and the [k]-th sample published
    carries the transform applied [k] times (k = 1 .. n), for both workers. *)
Theorem worker_remaps_in_place (ts : list Z) (s : mpu6050_sensor) :
  (axis (fst (accel_poll_thread (map Some ts) s)) =
     Nat.iter (List.length ts) (fun a => mpu6050_remap_accel_data a (place s)) (axis s) /\
   abs_values (snd (accel_poll_thread (map Some ts) s)) =
     flat_map (fun k => chan_axes Accel
                 (Nat.iter (S k) (fun a => mpu6050_remap_accel_data a (place s)) (axis s)))
              (seq 0 (List.length ts))) /\
  (axis (fst (gyro_poll_thread (map Some ts) s)) =
     Nat.iter (List.length ts) (fun a => mpu6050_remap_gyro_data a (place s)) (axis s) /\
   abs_values (snd (gyro_poll_thread (map Some ts) s)) =
     flat_map (fun k => chan_axes Gyro
                 (Nat.iter (S k) (fun a => mpu6050_remap_gyro_data a (place s)) (axis s)))
              (seq 0 (List.length ts))).
Proof. split; [apply accel_thread_axis | apply gyro_thread_axis]. Qed.

Lemma remap_accel_gyro_commute (d : axis_data) (p q : Z) :
  mpu6050_remap_accel_data (mpu6050_remap_gyro_data d q) p =
  mpu6050_remap_gyro_data (mpu6050_remap_accel_data d p) q.
Proof.
  unfold mpu6050_remap_accel_data, mpu6050_remap_gyro_data.
  destruct ((p <=? 0) || (p >=? MPU6050_AXIS_REMAP_TAB_SZ));
    destruct ((q <=? 0) || (q >=? MPU6050_AXIS_REMAP_TAB_SZ)); reflexivity.
Qed.

(** X3. The two workers do not disturb each other's samples: a pass of one
    publishes the same values whether or not the other made a pass before it,
    and the stored reading after a pass of each is the same in either
    order. *)
Theorem worker_passes_commute (s : mpu6050_sensor) (ta tg : Z) :
  abs_values (snd (accel_poll_once (fst (gyro_poll_once s tg)) ta)) =
    abs_values (snd (accel_poll_once s ta)) /\
  abs_values (snd (gyro_poll_once (fst (accel_poll_once s ta)) tg)) =
    abs_values (snd (gyro_poll_once s tg)) /\
  axis (fst (accel_poll_once (fst (gyro_poll_once s tg)) ta)) =
    axis (fst (gyro_poll_once (fst (accel_poll_once s ta)) tg)).
Proof.
  destruct (accel_poll_once_facts s ta) as (Ha & Hpa & Hva & _).
  destruct (gyro_poll_once_facts s tg) as (Hg & Hpg & Hvg & _).
  destruct (accel_poll_once_facts (fst (gyro_poll_once s tg)) ta) as (Ha' & _ & Hva' & _).
  destruct (gyro_poll_once_facts (fst (accel_poll_once s ta)) tg) as (Hg' & _ & Hvg' & _).
  rewrite Hva', Hvg', Hva, Hvg, Ha', Hg', Ha, Hg, Hpa, Hpg.
  repeat apply conj.
  - unfold mpu6050_remap_accel_data, mpu6050_remap_gyro_data.
    destruct ((place s <=? 0) || (place s >=? MPU6050_AXIS_REMAP_TAB_SZ)); reflexivity.
  - unfold mpu6050_remap_accel_data, mpu6050_remap_gyro_data.
    destruct ((place s <=? 0) || (place s >=? MPU6050_AXIS_REMAP_TAB_SZ)); reflexivity.
  - apply remap_accel_gyro_commute.
Qed.

Lemma accel_thread_stop (ts : list Z) (rest : list (option Z)) :
  forall s,
    accel_poll_thread (map Some ts ++ None :: rest) s =
      accel_poll_thread (map Some ts ++ [None]) s /\
    accel_wkp_flag (fst (accel_poll_thread (map Some ts ++ None :: rest) s)) = 0 /\
    List.length (snd (accel_poll_thread (map Some ts ++ None :: rest) s)) =
      (6 * List.length ts)%nat.
Proof.
  induction ts as [| t ts IH]; intros s.
  - repeat apply conj; reflexivity.
  - cbn [map app]. rewrite !accel_poll_thread_cons. cbn [fst snd].
    destruct (IH (fst (accel_poll_once (set_accel_wkp_flag s 0) t))) as (E & F & L).
    rewrite E. repeat apply conj.
    + reflexivity.
    + rewrite <- E. exact F.
    + rewrite <- E, length_app, L.
      destruct (accel_poll_once_facts (set_accel_wkp_flag s 0) t) as (_ & _ & _ & ->).
      cbn [List.length]. lia.
Qed.

Lemma gyro_thread_stop (ts : list Z) (rest : list (option Z)) :
  forall s,
    gyro_poll_thread (map Some ts ++ None :: rest) s =
      gyro_poll_thread (map Some ts ++ [None]) s /\
    gyro_wkp_flag (fst (gyro_poll_thread (map Some ts ++ None :: rest) s)) = 0 /\
    List.length (snd (gyro_poll_thread (map Some ts ++ None :: rest) s)) =
      (6 * List.length ts)%nat.
Proof.
  induction ts as [| t ts IH]; intros s.
  - repeat apply conj; reflexivity.
  - cbn [map app]. rewrite !gyro_poll_thread_cons. cbn [fst snd].
    destruct (IH (fst (gyro_poll_once (set_gyro_wkp_flag s 0) t))) as (E & F & L).
    rewrite E. repeat apply conj.
    + reflexivity.
    + rewrite <- E. exact F.
    + rewrite <- E, length_app, L.
      destruct (gyro_poll_once_facts (set_gyro_wkp_flag s 0) t) as (_ & _ & _ & ->).
      cbn [List.length]. lia.
Qed.

(** X4. A worker thread ends at the first stop request: the wake-ups that
    would follow are not served, the wake flag is clear when it ends, and it
    has published exactly six events for each wake-up before the stop. *)
Theorem worker_stops_at_first_stop (ts : list Z) (rest : list (option Z))
  (s : mpu6050_sensor) :
  (accel_poll_thread (map Some ts ++ None :: rest) s =
     accel_poll_thread (map Some ts ++ [None]) s /\
   accel_wkp_flag (fst (accel_poll_thread (map Some ts ++ None :: rest) s)) = 0 /\
   List.length (snd (accel_poll_thread (map Some ts ++ None :: rest) s)) =
     (6 * List.length ts)%nat) /\
  (gyro_poll_thread (map Some ts ++ None :: rest) s =
     gyro_poll_thread (map Some ts ++ [None]) s /\
   gyro_wkp_flag (fst (gyro_poll_thread (map Some ts ++ None :: rest) s)) = 0 /\
   List.length (snd (gyro_poll_thread (map Some ts ++ None :: rest) s)) =
     (6 * List.length ts)%nat).
Proof. split; [apply accel_thread_stop | apply gyro_thread_stop]. Qed.

(** ** Negotiation, again *)

Lemma negotiated_div_range (h : fake6050_h) (a g l : Z) :
  0 <= negotiated_div h a g l <= 255.
Proof.
  unfold negotiated_div, u8_of.
  destruct (negb (l =? MPU_DLPF_256HZ_NOLPF2 h) && negb (l =? MPU_DLPF_RESERVED h));
    match goal with
    | |- 0 <= ?v mod 256 <= 255 =>
        pose proof (Z.mod_pos_bound v 256 ltac:(lia)); lia
    end.
Qed.

Lemma config_sample_rate_div (h : fake6050_h) (s : mpu6050_sensor) :
  is_asleep (cfg s) = false ->
  mpu6050_config_sample_rate h s =
    (0, set_cfg s (cfg_set_rate_div (cfg s)
                     (negotiated_div h (accel_poll_ms s) (gyro_poll_ms s) (lpf (cfg s))))).
Proof.
  intros Hs. unfold mpu6050_config_sample_rate. rewrite Hs.
  fold (negotiated_div h (accel_poll_ms s) (gyro_poll_ms s) (lpf (cfg s))).
  destruct (Z.eqb_spec (rate_div (cfg s))
              (negotiated_div h (accel_poll_ms s) (gyro_poll_ms s) (lpf (cfg s))))
    as [<- | _]; [| reflexivity].
  now rewrite cfg_eta, sensor_eta.
Qed.

Lemma config_sample_rate_asleep (h : fake6050_h) (s : mpu6050_sensor) :
  is_asleep (cfg s) = true -> mpu6050_config_sample_rate h s = (- EINVAL, s).
Proof. intros Hs. unfold mpu6050_config_sample_rate. now rewrite Hs. Qed.

(** X5. Negotiating twice is negotiating once: a second negotiation returns
    what the first returned and writes nothing, on an awake chip (divisor
    already in place) as on a chip marked asleep (refused both times). *)
Theorem negotiation_idempotent (h : fake6050_h) (s : mpu6050_sensor) :
  mpu6050_config_sample_rate h (snd (mpu6050_config_sample_rate h s)) =
    mpu6050_config_sample_rate h s.
Proof.
  destruct (is_asleep (cfg s)) eqn:Hs.
  - rewrite (config_sample_rate_asleep h s Hs). cbn [snd].
    apply config_sample_rate_asleep, Hs.
  - rewrite (config_sample_rate_div h s Hs). cbn [snd].
    rewrite config_sample_rate_div by exact Hs.
    reflexivity.
Qed.

Lemma negotiated_div_min (h : fake6050_h) (a g l : Z) :
  negotiated_div h a g l = negotiated_div h g a l /\
  negotiated_div h a g l = negotiated_div h (Z.min a g) (Z.min a g) l.
Proof.
  unfold negotiated_div. rewrite !code_min, Z.min_id, (Z.min_comm g a).
  split; reflexivity.
Qed.

(** X6. The divisor depends on the two requested intervals through their
    minimum only: exchanging the accelerometer and gyroscope intervals, or
    setting both to the smaller one, leaves the negotiated divisor the
    same. *)
Theorem negotiation_uses_minimum (h : fake6050_h) (s : mpu6050_sensor) (a g : Z) :
  rate_div (cfg (snd (mpu6050_config_sample_rate h
                        (set_gyro_poll_ms (set_accel_poll_ms s a) g)))) =
    rate_div (cfg (snd (mpu6050_config_sample_rate h
                          (set_gyro_poll_ms (set_accel_poll_ms s g) a)))) /\
  rate_div (cfg (snd (mpu6050_config_sample_rate h
                        (set_gyro_poll_ms (set_accel_poll_ms s a) g)))) =
    rate_div (cfg (snd (mpu6050_config_sample_rate h
                          (set_gyro_poll_ms (set_accel_poll_ms s (Z.min a g))
                             (Z.min a g))))).
Proof.
  destruct (is_asleep (cfg s)) eqn:Hs.
  - rewrite !config_sample_rate_asleep by exact Hs. split; reflexivity.
  - rewrite !config_sample_rate_div by exact Hs.
    cbn [snd cfg set_cfg rate_div cfg_set_rate_div accel_poll_ms gyro_poll_ms lpf
           set_gyro_poll_ms set_accel_poll_ms].
    apply negotiated_div_min.
Qed.


(** X7. With the data-sheet rates (1 kHz with the filter, 8 kHz without) and
    ranges that fit the divisor, the interval reported after a negotiation on
    an awake chip is exactly the smaller requested interval clamped to the
    range of the filter mode, in nanoseconds, in either mode. *)
Theorem negotiated_interval_is_clamped_minimum (h : fake6050_h)
  (s : mpu6050_sensor) (a g : Z) :
  header_in_range h ->
  ODR_DLPF_ENA h = MSEC_PER_SEC ->
  ODR_DLPF_DIS h = 8 * MSEC_PER_SEC ->
  is_asleep (cfg s) = false ->
  negotiated_interval h s a g =
    (if (lpf (cfg s) =? MPU_DLPF_256HZ_NOLPF2 h) || (lpf (cfg s) =? MPU_DLPF_RESERVED h)
     then clamp (DELAY_MS_MIN_NODLPF h) (DELAY_MS_MAX_NODLPF h) (Z.min a g)
     else clamp (DELAY_MS_MIN_DLPF h) (DELAY_MS_MAX_DLPF h) (Z.min a g))
    * NSEC_PER_MSEC.
Proof.
  intros Hr He Hd Hs.
  rewrite negotiated_interval_awake by assumption.
  unfold trunc_negotiate. rewrite He, Hd.
  unfold MSEC_PER_SEC, NSEC_PER_MSEC.
  destruct ((lpf (cfg s) =? MPU_DLPF_256HZ_NOLPF2 h) ||
            (lpf (cfg s) =? MPU_DLPF_RESERVED h)).
  - set (d := clamp _ _ _).
    replace (8 * 1000 * d) with (8 * d * 1000) by lia.
    rewrite Z.div_mul by lia.
    replace ((8 * d - 1 + 1) * 1000000) with (d * 1000000 * 8) by lia.
    now rewrite Z.div_mul by lia.
  - set (d := clamp _ _ _).
    replace (1000 * d) with (d * 1000) by lia.
    rewrite Z.div_mul by lia. lia.
Qed.

Lemma negotiated_interval_is_clamped_minimum_witness :
  negotiated_interval datasheet_h (snd (mpu6050_probe datasheet_h 0)) 300 70 =
    (if (lpf (cfg (snd (mpu6050_probe datasheet_h 0))) =? MPU_DLPF_256HZ_NOLPF2 datasheet_h)
        || (lpf (cfg (snd (mpu6050_probe datasheet_h 0))) =? MPU_DLPF_RESERVED datasheet_h)
     then clamp (DELAY_MS_MIN_NODLPF datasheet_h) (DELAY_MS_MAX_NODLPF datasheet_h)
            (Z.min 300 70)
     else clamp (DELAY_MS_MIN_DLPF datasheet_h) (DELAY_MS_MAX_DLPF datasheet_h)
            (Z.min 300 70))
    * NSEC_PER_MSEC.
Proof.
  apply (negotiated_interval_is_clamped_minimum datasheet_h
           (snd (mpu6050_probe datasheet_h 0)) 300 70).
  - unfold header_in_range, MSEC_PER_SEC. cbn. lia.
  - reflexivity.
  - reflexivity.
  - reflexivity.
Defined.

(** ** Enable and disable, composed *)

Ltac negotiate_div :=
  repeat match goal with
         | |- context [mpu6050_config_sample_rate ?h ?s1] =>
             rewrite (config_sample_rate_div h s1 eq_refl); cbn
         end.

Lemma gyro_set_enable_on_eq (h : fake6050_h) (s : mpu6050_sensor) :
  is_asleep (cfg s) = false ->
  mpu6050_gyro_set_enable h s true =
    (0, set_gyro_en
          (set_gyro_timer
             (set_cfg (set_power_enabled s true)
                (cfg_set_rate_div
                   (cfg_set_enable (cfg_set_gyro_enable (cfg s) true) true)
                   (negotiated_div h (accel_poll_ms s) (gyro_poll_ms s) (lpf (cfg s)))))
             (if batch_gyro s then gyro_timer s
              else HR_ARMED (gyro_poll_ms s * NSEC_PER_MSEC))) 1).
Proof.
  intros Hs. open_sensor s. subst.
  unfold_enable; cbn; case_flags; negotiate_div; reflexivity.
Qed.

Lemma accel_set_enable_on_eq (h : fake6050_h) (s : mpu6050_sensor) :
  is_asleep (cfg s) = false ->
  mpu6050_accel_set_enable h s true =
    (0, set_accel_en
          (set_accel_timer
             (set_cfg (set_power_enabled s true)
                (cfg_set_rate_div
                   (cfg_set_enable (cfg_set_accel_enable (cfg s) true) true)
                   (negotiated_div h (accel_poll_ms s) (gyro_poll_ms s) (lpf (cfg s)))))
             (if batch_accel s then accel_timer s
              else HR_ARMED (accel_poll_ms s * NSEC_PER_MSEC))) 1).
Proof.
  intros Hs. open_sensor s. subst.
  unfold_enable; cbn; case_flags; negotiate_div; reflexivity.
Qed.

Lemma gyro_set_enable_off_eq (h : fake6050_h) (s : mpu6050_sensor) :
  is_asleep (cfg s) = false ->
  mpu6050_gyro_set_enable h s false =
    (0, set_power_enabled
          (set_cfg
             (set_gyro_timer (set_gyro_en s 0)
                (if batch_gyro s then gyro_timer s
                 else snd (hrtimer_try_to_cancel (gyro_timer s))))
             (cfg_set_enable (cfg_set_gyro_enable (cfg s) false)
                (accel_enable (cfg s) && enable (cfg s))))
          (accel_enable (cfg s) && power_enabled s)).
Proof.
  intros Hs. open_sensor s. subst.
  unfold_enable; cbn; case_flags; reflexivity.
Qed.

Lemma accel_set_enable_off_eq (h : fake6050_h) (s : mpu6050_sensor) :
  is_asleep (cfg s) = false ->
  mpu6050_accel_set_enable h s false =
    (0, set_power_enabled
          (set_cfg
             (set_accel_timer (set_accel_en s 0)
                (if batch_accel s then accel_timer s
                 else snd (hrtimer_try_to_cancel (accel_timer s))))
             (cfg_set_enable (cfg_set_accel_enable (cfg s) false)
                (gyro_enable (cfg s) && enable (cfg s))))
          (gyro_enable (cfg s) && power_enabled s)).
Proof.
  intros Hs. open_sensor s. subst.
  unfold_enable; cbn; case_flags; reflexivity.
Qed.



Lemma channel_off_flag (v : Z) : atomic_read v = false -> v = 0.
Proof.
  unfold atomic_read. intros Hv. apply negb_false_iff in Hv. now apply Z.eqb_eq.
Qed.

(** X9. Enable followed by disable is a round trip: on an awake chip with the
    channel off (flag clear, engine off, timer idle) and the power and master
    enable flags following the other channel's engine, the two calls leave the
    sensor as it was except that the divisor is the negotiated one. *)
Theorem enable_disable_round_trip (h : fake6050_h) (ch : channel)
  (s : mpu6050_sensor) :
  is_asleep (cfg s) = false ->
  channel_on s ch = false ->
  engine_flag s ch = false ->
  channel_timer s ch = HR_IDLE ->
  (forall ch', ch' <> ch ->
     power_enabled s = engine_flag s ch' /\ enable (cfg s) = engine_flag s ch') ->
  snd (set_enable h ch (snd (set_enable h ch s true)) false) =
    set_cfg s (cfg_set_rate_div (cfg s)
                 (negotiated_div h (accel_poll_ms s) (gyro_poll_ms s) (lpf (cfg s)))).
Proof.
  intros Hs Hoff Heng Htim Hoth.
  destruct ch; cbn [set_enable channel_on engine_flag channel_timer] in *.
  - destruct (Hoth Gyro ltac:(discriminate)) as [Hp He].
    apply channel_off_flag in Hoff.
    rewrite (accel_set_enable_on_eq h s Hs). cbn [snd].
    rewrite accel_set_enable_off_eq by exact Hs.
    open_sensor s. subst. case_flags; reflexivity.
  - destruct (Hoth Accel ltac:(discriminate)) as [Hp He].
    apply channel_off_flag in Hoff.
    rewrite (gyro_set_enable_on_eq h s Hs). cbn [snd].
    rewrite gyro_set_enable_off_eq by exact Hs.
    open_sensor s. subst. case_flags; reflexivity.
Qed.

Lemma enable_disable_round_trip_witness :
  snd (set_enable datasheet_h Accel
         (snd (set_enable datasheet_h Accel (snd (mpu6050_probe datasheet_h 1)) true))
         false) =
    set_cfg (snd (mpu6050_probe datasheet_h 1))
      (cfg_set_rate_div (cfg (snd (mpu6050_probe datasheet_h 1)))
         (negotiated_div datasheet_h
            (accel_poll_ms (snd (mpu6050_probe datasheet_h 1)))
            (gyro_poll_ms (snd (mpu6050_probe datasheet_h 1)))
            (lpf (cfg (snd (mpu6050_probe datasheet_h 1)))))).
Proof.
  apply (enable_disable_round_trip datasheet_h Accel (snd (mpu6050_probe datasheet_h 1))).
  - reflexivity.
  - reflexivity.
  - reflexivity.
  - reflexivity.
  - intros [|] Hne; [congruence | split; reflexivity].
Defined.

(** X10. A disable request on a chip marked asleep returns -EBUSY after the
    local bookkeeping is done: the channel's flag is clear and its timer
    cancelled (left alone in batch mode), while the engine flags, the power
    flag and the other channel are as before. *)
Theorem disable_asleep (h : fake6050_h) (ch : channel) (s : mpu6050_sensor) :
  is_asleep (cfg s) = true ->
  fst (set_enable h ch s false) = - EBUSY /\
  channel_on (snd (set_enable h ch s false)) ch = false /\
  channel_timer (snd (set_enable h ch s false)) ch =
    (if match ch with Accel => batch_accel s | Gyro => batch_gyro s end
     then channel_timer s ch
     else snd (hrtimer_try_to_cancel (channel_timer s ch))) /\
  cfg (snd (set_enable h ch s false)) = cfg s /\
  power_enabled (snd (set_enable h ch s false)) = power_enabled s /\
  (forall ch', ch' <> ch ->
     channel_on (snd (set_enable h ch s false)) ch' = channel_on s ch' /\
     channel_timer (snd (set_enable h ch s false)) ch' = channel_timer s ch').
Proof.
  intros Hs. open_sensor s. subst.
  destruct ch; cbn [set_enable]; unfold_enable; cbn; case_flags;
    repeat apply conj; try reflexivity;
    intros [|] Hne; try congruence; split; reflexivity.
Qed.

Lemma disable_asleep_witness :
  fst (set_enable datasheet_h Gyro asleep_sensor false) = - EBUSY /\
  channel_on (snd (set_enable datasheet_h Gyro asleep_sensor false)) Gyro = false /\
  channel_timer (snd (set_enable datasheet_h Gyro asleep_sensor false)) Gyro =
    (if batch_gyro asleep_sensor
     then channel_timer asleep_sensor Gyro
     else snd (hrtimer_try_to_cancel (channel_timer asleep_sensor Gyro))) /\
  cfg (snd (set_enable datasheet_h Gyro asleep_sensor false)) = cfg asleep_sensor /\
  power_enabled (snd (set_enable datasheet_h Gyro asleep_sensor false)) =
    power_enabled asleep_sensor /\
  (forall ch', ch' <> Gyro ->
     channel_on (snd (set_enable datasheet_h Gyro asleep_sensor false)) ch' =
       channel_on asleep_sensor ch' /\
     channel_timer (snd (set_enable datasheet_h Gyro asleep_sensor false)) ch' =
       channel_timer asleep_sensor ch').
Proof.
  apply (disable_asleep datasheet_h Gyro asleep_sensor). reflexivity.
Defined.

(** ** Interval requests, composed *)

Lemma accel_set_poll_delay_fields (h : fake6050_h) (s : mpu6050_sensor) (d : Z) :
  clamp MPU6050_ACCEL_MIN_POLL_INTERVAL_MS MPU6050_ACCEL_MAX_POLL_INTERVAL_MS d <>
    accel_poll_ms s ->
  accel_poll_ms (snd (mpu6050_accel_set_poll_delay h s d)) =
    clamp MPU6050_ACCEL_MIN_POLL_INTERVAL_MS MPU6050_ACCEL_MAX_POLL_INTERVAL_MS d /\
  accel_delay_change (snd (mpu6050_accel_set_poll_delay h s d)) = true /\
  wake_up_idle (snd (mpu6050_accel_set_poll_delay h s d)) = wake_up_idle s /\
  gyro_poll_ms (snd (mpu6050_accel_set_poll_delay h s d)) = gyro_poll_ms s.
Proof.
  unfold mpu6050_accel_set_poll_delay, MPU6050_ACCEL_MIN_POLL_INTERVAL_MS,
    MPU6050_ACCEL_MAX_POLL_INTERVAL_MS.
  intros Hne. destruct (clamp_poll_interval d) as [-> ->].
  destruct (Z.eqb_spec (accel_poll_ms s) (clamp 10 5000 d)); [congruence |].
  cbn [accel_en use_poll accel_timer accel_poll_ms
         set_accel_poll_ms set_accel_delay_change].
  destruct (negb (atomic_read (accel_en s))); [repeat apply conj; reflexivity |].
  destruct (use_poll s).
  - destruct (accel_timer s); repeat apply conj; reflexivity.
  - negotiate_frame. repeat apply conj; reflexivity.
Qed.

(** X11. After an interval request the stored interval is the request clamped
    to [10, 5000] ms, for either channel and in every state; the pending flag
    is set if and only if the stored value changed (a flag already set
    stays); repeating the request changes nothing more. *)
Theorem interval_request_postcondition (h : fake6050_h) (s : mpu6050_sensor) (d : Z) :
  (gyro_poll_ms (snd (mpu6050_gyro_set_poll_delay s d)) =
     clamp MPU6050_GYRO_MIN_POLL_INTERVAL_MS MPU6050_GYRO_MAX_POLL_INTERVAL_MS d /\
   gyro_delay_change (snd (mpu6050_gyro_set_poll_delay s d)) =
     gyro_delay_change s ||
     negb (gyro_poll_ms s =?
           clamp MPU6050_GYRO_MIN_POLL_INTERVAL_MS MPU6050_GYRO_MAX_POLL_INTERVAL_MS d) /\
   mpu6050_gyro_set_poll_delay (snd (mpu6050_gyro_set_poll_delay s d)) d =
     (0, snd (mpu6050_gyro_set_poll_delay s d))) /\
  (accel_poll_ms (snd (mpu6050_accel_set_poll_delay h s d)) =
     clamp MPU6050_ACCEL_MIN_POLL_INTERVAL_MS MPU6050_ACCEL_MAX_POLL_INTERVAL_MS d /\
   accel_delay_change (snd (mpu6050_accel_set_poll_delay h s d)) =
     accel_delay_change s ||
     negb (accel_poll_ms s =?
           clamp MPU6050_ACCEL_MIN_POLL_INTERVAL_MS MPU6050_ACCEL_MAX_POLL_INTERVAL_MS d) /\
   snd (mpu6050_accel_set_poll_delay h (snd (mpu6050_accel_set_poll_delay h s d)) d) =
     snd (mpu6050_accel_set_poll_delay h s d)).
Proof.
  split.
  - destruct (Z.eqb_spec (gyro_poll_ms s)
                (clamp MPU6050_GYRO_MIN_POLL_INTERVAL_MS
                   MPU6050_GYRO_MAX_POLL_INTERVAL_MS d)) as [E | E].
    + rewrite (gyro_set_poll_delay_same s d (eq_sym E)). cbn [snd negb].
      rewrite orb_false_r, (gyro_set_poll_delay_same s d (eq_sym E)).
      repeat apply conj; first [reflexivity | exact E].
    + rewrite (gyro_set_poll_delay_change s d (not_eq_sym E)). cbn [snd negb].
      rewrite orb_true_r.
      rewrite gyro_set_poll_delay_same by reflexivity.
      repeat apply conj; reflexivity.
  - destruct (Z.eqb_spec (accel_poll_ms s)
                (clamp MPU6050_ACCEL_MIN_POLL_INTERVAL_MS
                   MPU6050_ACCEL_MAX_POLL_INTERVAL_MS d)) as [E | E].
    + rewrite (accel_set_poll_delay_same h s d (eq_sym E)). cbn [snd negb].
      rewrite orb_false_r, (accel_set_poll_delay_same h s d (eq_sym E)).
      repeat apply conj; first [reflexivity | exact E].
    + destruct (accel_set_poll_delay_fields h s d (not_eq_sym E)) as (Hp & Hf & _).
      rewrite Hp, Hf. cbn [negb]. rewrite orb_true_r.
      rewrite (accel_set_poll_delay_same h _ d) by (symmetry; exact Hp).
      repeat apply conj; reflexivity.
Qed.



(** X13. The pending flag reaches the worker: after an interval request that
    changes the stored interval, the next pass of that channel's worker sets
    the idle-wake hint to "interval at most 10 ms" and clears the flag, and a
    further pass leaves the hint alone. *)
Theorem interval_change_reaches_worker (h : fake6050_h) (s : mpu6050_sensor)
  (d t t' : Z) :
  (clamp MPU6050_GYRO_MIN_POLL_INTERVAL_MS MPU6050_GYRO_MAX_POLL_INTERVAL_MS d <>
     gyro_poll_ms s ->
   wake_up_idle (fst (gyro_poll_once (snd (mpu6050_gyro_set_poll_delay s d)) t)) =
     (clamp MPU6050_GYRO_MIN_POLL_INTERVAL_MS MPU6050_GYRO_MAX_POLL_INTERVAL_MS d
      <=? POLL_MS_100HZ) /\
   gyro_delay_change
     (fst (gyro_poll_once (snd (mpu6050_gyro_set_poll_delay s d)) t)) = false /\
   wake_up_idle
     (fst (gyro_poll_once
             (fst (gyro_poll_once (snd (mpu6050_gyro_set_poll_delay s d)) t)) t')) =
     wake_up_idle (fst (gyro_poll_once (snd (mpu6050_gyro_set_poll_delay s d)) t))) /\
  (clamp MPU6050_ACCEL_MIN_POLL_INTERVAL_MS MPU6050_ACCEL_MAX_POLL_INTERVAL_MS d <>
     accel_poll_ms s ->
   wake_up_idle (fst (accel_poll_once (snd (mpu6050_accel_set_poll_delay h s d)) t)) =
     (clamp MPU6050_ACCEL_MIN_POLL_INTERVAL_MS MPU6050_ACCEL_MAX_POLL_INTERVAL_MS d
      <=? POLL_MS_100HZ) /\
   accel_delay_change
     (fst (accel_poll_once (snd (mpu6050_accel_set_poll_delay h s d)) t)) = false /\
   wake_up_idle
     (fst (accel_poll_once
             (fst (accel_poll_once (snd (mpu6050_accel_set_poll_delay h s d)) t)) t')) =
     wake_up_idle (fst (accel_poll_once (snd (mpu6050_accel_set_poll_delay h s d)) t))).
Proof.
  split; intros Hne.
  - rewrite (gyro_set_poll_delay_change s d Hne). cbn [snd].
    unfold gyro_poll_once.
    cbn [gyro_delay_change gyro_poll_ms set_gyro_poll_ms set_gyro_delay_change].
    destruct (clamp _ _ d <=? POLL_MS_100HZ); repeat apply conj; reflexivity.
  - destruct (accel_set_poll_delay_fields h s d Hne) as (Hp & Hf & _).
    unfold accel_poll_once. rewrite Hf, Hp.
    destruct (clamp _ _ d <=? POLL_MS_100HZ); repeat apply conj; reflexivity.
Qed.
Lemma interval_change_reaches_worker_witness :
  wake_up_idle
    (fst (gyro_poll_once
            (snd (mpu6050_gyro_set_poll_delay (snd (mpu6050_probe datasheet_h 0)) 5))
            0)) = true.
Proof.
  destruct (interval_change_reaches_worker datasheet_h
              (snd (mpu6050_probe datasheet_h 0)) 5 0 0) as [Hg _].
  destruct Hg as [E _]; [vm_compute; discriminate |].
  rewrite E. vm_compute. reflexivity.
Defined.


(** ** What every reachable sensor satisfies *)

Ltac open_steady H s :=
  let ms := fresh "ms" in
  destruct H as ((Hs & Ha & Hg & Hp) & Hme & Hup & Hbg & Hba & Hae & Hge &
                 Hgp & Hap & Hrd & Hax & Hat & (ms & Hms & Hgt));
  open_sensor s;
  unfold any_channel_on, channel_on, engine_flag in *; cbn in *; subst.

Ltac unfold_intervals :=
  unfold MPU6050_GYRO_MIN_POLL_INTERVAL_MS, MPU6050_GYRO_MAX_POLL_INTERVAL_MS,
    MPU6050_ACCEL_MIN_POLL_INTERVAL_MS, MPU6050_ACCEL_MAX_POLL_INTERVAL_MS,
    MPU6050_GYRO_DEFAULT_POLL_INTERVAL_MS, MPU6050_ACCEL_DEFAULT_POLL_INTERVAL_MS in *.

Ltac close_steady :=
  unfold steady, consistent, any_channel_on, channel_on, engine_flag; cbn;
  repeat match goal with |- _ /\ _ => split end;
  try reflexivity; try assumption; try (left; reflexivity); try (right; reflexivity);
  try apply negotiated_div_range;
  try lia;
  try (eexists; split; [| reflexivity]; eassumption).

Lemma probe_steady (h : fake6050_h) (pdata_place : Z) :
  steady (snd (mpu6050_probe h pdata_place)).
Proof.
  unfold steady, consistent, any_channel_on, channel_on, engine_flag,
    poll_interval_ok, axes_in_s16, in_s16. cbn.
  unfold_intervals.
  repeat apply conj; try reflexivity; try lia.
  - unfold u8_of.
    pose proof (Z.mod_pos_bound (ODR_DLPF_ENA h ÷ INIT_FIFO_RATE h - 1) 256 ltac:(lia)).
    lia.
  - unfold u8_of.
    pose proof (Z.mod_pos_bound (ODR_DLPF_ENA h ÷ INIT_FIFO_RATE h - 1) 256 ltac:(lia)).
    lia.
  - exists 200. split; [lia | reflexivity].
Qed.


Lemma steady_enable (h : fake6050_h) (ch : channel) (on : bool) (s : mpu6050_sensor) :
  steady s -> steady (snd (set_enable h ch s on)).
Proof.
  intros H.
  assert (Hs0 : is_asleep (cfg s) = false) by apply H.
  destruct ch, on; cbn [set_enable].
  - rewrite (accel_set_enable_on_eq h s Hs0). cbn [snd].
    open_steady H s. destruct Hae as [-> | ->], Hge as [-> | ->]; close_steady.
  - rewrite (accel_set_enable_off_eq h s Hs0). cbn [snd].
    open_steady H s. destruct Hae as [-> | ->], Hge as [-> | ->]; close_steady.
  - rewrite (gyro_set_enable_on_eq h s Hs0). cbn [snd].
    open_steady H s. destruct Hae as [-> | ->], Hge as [-> | ->]; close_steady.
  - rewrite (gyro_set_enable_off_eq h s Hs0). cbn [snd].
    open_steady H s. destruct Hae as [-> | ->], Hge as [-> | ->]; close_steady.
Qed.

Lemma clamp_interval_ok (d : Z) :
  poll_interval_ok
    (clamp MPU6050_GYRO_MIN_POLL_INTERVAL_MS MPU6050_GYRO_MAX_POLL_INTERVAL_MS d).
Proof. unfold poll_interval_ok, clamp. unfold_intervals. lia. Qed.

Lemma steady_gyro_interval (s : mpu6050_sensor) (d : Z) :
  steady s -> steady (snd (mpu6050_gyro_set_poll_delay s d)).
Proof.
  intros H.
  destruct (Z.eq_dec
              (clamp MPU6050_GYRO_MIN_POLL_INTERVAL_MS MPU6050_GYRO_MAX_POLL_INTERVAL_MS d)
              (gyro_poll_ms s)) as [E | E].
  - now rewrite (gyro_set_poll_delay_same s d E).
  - rewrite (gyro_set_poll_delay_change s d E). cbn [snd].
    pose proof (clamp_interval_ok d) as Hc.
    open_steady H s. close_steady.
Qed.

Lemma steady_accel_interval (h : fake6050_h) (s : mpu6050_sensor) (d : Z) :
  steady s -> steady (snd (mpu6050_accel_set_poll_delay h s d)).
Proof.
  intros H.
  destruct (Z.eq_dec
              (clamp MPU6050_ACCEL_MIN_POLL_INTERVAL_MS MPU6050_ACCEL_MAX_POLL_INTERVAL_MS d)
              (accel_poll_ms s)) as [E | E].
  - now rewrite (accel_set_poll_delay_same h s d E).
  - pose proof (clamp_interval_ok d) as Hc.
    destruct (atomic_read (accel_en s)) eqn:Hon.
    + rewrite (accel_set_poll_delay_polling h s d E Hon ltac:(apply H)). cbn [snd].
      open_steady H s. destruct Hae as [-> | ->]; [discriminate |].
      close_steady.
    + revert E. unfold mpu6050_accel_set_poll_delay, MPU6050_ACCEL_MIN_POLL_INTERVAL_MS,
        MPU6050_ACCEL_MAX_POLL_INTERVAL_MS. intros E.
      destruct (clamp_poll_interval d) as [-> ->].
      destruct (Z.eqb_spec (accel_poll_ms s) (clamp 10 5000 d)); [congruence |].
      cbn [accel_en set_accel_poll_ms set_accel_delay_change]. rewrite Hon.
      cbn [negb snd].
      open_steady H s. destruct Hae as [-> | ->]; [| discriminate].
      close_steady.
Qed.

Lemma steady_gyro_timer (s : mpu6050_sensor) :
  steady s ->
  steady (match gyro_timer s with HR_ARMED _ => gyro_timer_handle s | _ => s end).
Proof.
  intros H. destruct (gyro_timer s) eqn:Ht; try exact H.
  unfold gyro_timer_handle, mpu6050_manage_polling.
  open_steady H s. destruct Hge as [-> | ->]; [discriminate |].
  close_steady.
Qed.

Lemma steady_accel_timer (s : mpu6050_sensor) :
  steady s ->
  steady (match accel_timer s with HR_ARMED _ => accel_timer_handle s | _ => s end).
Proof.
  intros H. destruct (accel_timer s) eqn:Ht; try exact H.
  unfold accel_timer_handle, mpu6050_manage_polling.
  open_steady H s. destruct Hae as [-> | ->]; [discriminate |].
  close_steady.
Qed.

Lemma steady_set_axis (s : mpu6050_sensor) (a : axis_data) :
  steady s -> axes_in_s16 a -> steady (set_axis s a).
Proof.
  intros H Ha'. open_steady H s. close_steady.
Qed.

Lemma steady_gyro_wake (s : mpu6050_sensor) (t : Z) :
  steady s -> steady (fst (gyro_poll_thread [Some t] s)).
Proof.
  intros H.
  assert (Hr : axes_in_s16 (mpu6050_remap_gyro_data (axis s) (place s)))
    by (apply (remap_in_s16 Gyro), H).
  cbn [gyro_poll_thread]. unfold gyro_poll_once.
  cbn [gyro_delay_change gyro_poll_ms set_gyro_wkp_flag].
  destruct (gyro_delay_change s); [destruct (gyro_poll_ms s <=? POLL_MS_100HZ) |];
    open_steady H s; close_steady.
Qed.

Lemma steady_accel_wake (s : mpu6050_sensor) (t : Z) :
  steady s -> steady (fst (accel_poll_thread [Some t] s)).
Proof.
  intros H.
  assert (Hr : axes_in_s16 (mpu6050_remap_accel_data (axis s) (place s)))
    by (apply (remap_in_s16 Accel), H).
  cbn [accel_poll_thread]. unfold accel_poll_once.
  cbn [accel_delay_change accel_poll_ms set_accel_wkp_flag].
  destruct (accel_delay_change s); [destruct (accel_poll_ms s <=? POLL_MS_100HZ) |];
    open_steady H s; close_steady.
Qed.

Lemma axis_set_in_s16 (code : abs_code) (a : axis_data) (v : Z) :
  axes_in_s16 a -> axes_in_s16 (axis_set code a (s16_of v)).
Proof.
  intros (Hx & Hy & Hz & Hrx & Hry & Hrz).
  pose proof (s16_of_range v).
  destruct code; unfold axes_in_s16; cbn [axis_set x y z rx ry rz];
    repeat match goal with |- _ /\ _ => split end; assumption.
Qed.

Lemma steady_store (s : mpu6050_sensor) (code : abs_code) (parsed : option Z)
  (count : Z) :
  steady s -> steady (snd (attr_set code s parsed count)).
Proof.
  intros H. destruct parsed as [v |]; cbn [attr_set snd]; [| exact H].
  apply steady_set_axis; [exact H |].
  apply axis_set_in_s16, H.
Qed.

Lemma do_event_steady (h : fake6050_h) (s : mpu6050_sensor) (e : event) :
  steady s -> steady (do_event h s e).
Proof.
  intros H. destruct e as [[en | en | d | d] | | | t | t | code parsed count];
    cbn [do_event do_call].
  - apply (steady_enable h Gyro en s H).
  - apply (steady_enable h Accel en s H).
  - apply steady_gyro_interval, H.
  - apply steady_accel_interval, H.
  - apply steady_gyro_timer, H.
  - apply steady_accel_timer, H.
  - destruct (gyro_wkp_flag s =? 0); [exact H | apply steady_gyro_wake, H].
  - destruct (accel_wkp_flag s =? 0); [exact H | apply steady_accel_wake, H].
  - apply steady_store, H.
Qed.

Lemma run_events_steady (h : fake6050_h) (es : list event) :
  forall s, steady s -> Forall steady (run_events h s es).
Proof.
  induction es as [| e es IH]; intros s Hs; cbn [run_events]; constructor.
  - now apply do_event_steady.
  - apply IH. now apply do_event_steady.
Qed.

(** X14. Whatever happens to a probed sensor (calls, timer expiries, worker
    passes, attribute writes, in any order), afterwards the chip is not
    marked asleep, the power flag and the master enable flag are set exactly
    when a channel is on, and therefore every enable or disable request
    succeeds. *)
Theorem events_keep_power (h : fake6050_h) (pdata_place : Z) (es : list event) :
  Forall (fun s =>
            is_asleep (cfg s) = false /\
            power_enabled s = any_channel_on s /\
            enable (cfg s) = any_channel_on s /\
            (forall ch on, fst (set_enable h ch s on) = 0))
         (run_events h (snd (mpu6050_probe h pdata_place)) es).
Proof.
  eapply Forall_impl; [| apply run_events_steady, probe_steady].
  intros s ((Hs & Ha & Hg & Hp) & Hme & _).
  repeat match goal with |- _ /\ _ => split end; try assumption.
  intros ch [|].
  - apply set_enable_on, Hs.
  - apply set_enable_off, Hs.
Qed.


(** X16. Whatever happens to a probed sensor, afterwards both stored
    intervals lie between 10 and 5000 ms, the divisor between 0 and 255, the
    six axes within 16 bits, and the reported sample interval between an
    eighth of a millisecond and 256 ms, for every header. *)
Theorem events_keep_ranges (h : fake6050_h) (pdata_place : Z) (es : list event) :
  Forall (fun s =>
            poll_interval_ok (gyro_poll_ms s) /\
            poll_interval_ok (accel_poll_ms s) /\
            0 <= rate_div (cfg s) <= 255 /\
            axes_in_s16 (axis s) /\
            NSEC_PER_MSEC / 8 <= mpu6050_get_sample_interval h s <= 256 * NSEC_PER_MSEC)
         (run_events h (snd (mpu6050_probe h pdata_place)) es).
Proof.
  eapply Forall_impl; [| apply run_events_steady, probe_steady].
  intros s (_ & _ & _ & _ & _ & _ & _ & Hgp & Hap & Hrd & Hax & _).
  repeat match goal with |- _ /\ _ => split end; try assumption; try lia;
    unfold mpu6050_get_sample_interval, NSEC_PER_MSEC;
    destruct ((lpf (cfg s) =? MPU_DLPF_256HZ_NOLPF2 h) ||
              (lpf (cfg s) =? MPU_DLPF_RESERVED h)).
  - apply Z.div_le_mono; lia.
  - change (1000000 / 8) with 125000. lia.
  - apply Z.div_le_upper_bound; lia.
  - lia.
Qed.

(** ** Placement names *)

Lemma place_lookup_cases (place_name : String.string) :
  (place_lookup mpu6050_place_name2num place_name = None /\
   forall p, ~ In (place_name, p) mpu6050_place_name2num) \/
  (exists p, place_lookup mpu6050_place_name2num place_name = Some p /\
             In (place_name, p) mpu6050_place_name2num /\ 0 <= p <= 7).
Proof.
  unfold mpu6050_place_name2num. cbn [place_lookup].
  repeat match goal with
         | |- context [String.eqb place_name ?n] =>
             destruct (String.eqb_spec place_name n) as [-> | ?];
             [right; eexists; split; [reflexivity | split; [cbn; tauto | lia]] |]
         end.
  left. split; [reflexivity |].
  intros p Hin. cbn in Hin.
  repeat match goal with
         | H : _ \/ _ |- _ => destruct H as [H | H]
         | H : (_, _) = (_, _) |- _ => injection H as ? ?; congruence
         end.
  exact Hin.
Qed.

(** X17. Reading the placement from the device tree never yields an index
    outside the table: a failed property read returns -EINVAL and leaves the
    placement alone; otherwise the call returns 0 with a placement between 0
    and 7, which is 0 when the name is not in the table, so that the name
    attribute of a sensor probed with it can always be shown. *)
Theorem dt_place_in_table (place_name : String.string) (pdata_place : Z)
  (s : mpu6050_sensor) :
  mpu6050_dt_get_place None pdata_place = (- EINVAL, pdata_place) /\
  fst (mpu6050_dt_get_place (Some place_name) pdata_place) = 0 /\
  0 <= snd (mpu6050_dt_get_place (Some place_name) pdata_place)
    < MPU6050_AXIS_REMAP_TAB_SZ /\
  ((forall p, ~ In (place_name, p) mpu6050_place_name2num) ->
   snd (mpu6050_dt_get_place (Some place_name) pdata_place) = 0) /\
  mpu6050_get_place
    (set_place s (snd (mpu6050_dt_get_place (Some place_name) pdata_place))) <> None.
Proof.
  unfold mpu6050_dt_get_place, MPU6050_AXIS_REMAP_TAB_SZ.
  destruct (place_lookup_cases place_name) as [[-> Hno] | (p & -> & Hin & Hp)];
    cbn [fst snd]; repeat match goal with |- _ /\ _ => split end;
    try reflexivity; try lia.
  - discriminate.
  - intros Hno. exfalso. exact (Hno p Hin).
  - assert (Hc : p = 0 \/ p = 1 \/ p = 2 \/ p = 3 \/ p = 4 \/ p = 5 \/ p = 6 \/ p = 7)
      by lia.
    destruct Hc as [-> | [-> | [-> | [-> | [-> | [-> | [-> | ->]]]]]]]; discriminate.
Qed.
Lemma dt_place_in_table_witness :
  snd (mpu6050_dt_get_place (Some "Sideways"%string) 5) = 0.
Proof.
  destruct (dt_place_in_table "Sideways"%string 5 sensor_zero) as (_ & _ & _ & H & _).
  apply H. intros p Hin. cbn in Hin.
  repeat (destruct Hin as [Hin | Hin]; [discriminate Hin |]).
  exact Hin.
Defined.


(** X18. Names and placements round-trip: for every entry (name, place) of
    the table, the device-tree lookup of the name gives that place, and the
    place attribute of a sensor with that place shows the name followed by a
    newline, in full, returning its length. *)
Theorem place_name_round_trip (place_name : String.string) (p pdata_place : Z)
  (s : mpu6050_sensor) :
  In (place_name, p) mpu6050_place_name2num ->
  mpu6050_dt_get_place (Some place_name) pdata_place = (0, p) /\
  mpu6050_get_place (set_place s p) =
    Some (Z.of_nat (String.length place_name) + 1, String.append place_name newline).
Proof.
  intros Hin. cbn in Hin.
  repeat match goal with
         | H : _ \/ _ |- _ => destruct H as [H | H]
         end; try contradiction;
    injection Hin as <- <-; split; reflexivity.
Qed.

Lemma place_name_round_trip_witness :
  mpu6050_dt_get_place (Some "Landscape Left Back Side"%string) 5 = (0, 7) /\
  mpu6050_get_place (set_place sensor_zero 7) =
    Some (Z.of_nat (String.length "Landscape Left Back Side"%string) + 1,
          String.append "Landscape Left Back Side"%string newline).
Proof.
  apply (place_name_round_trip "Landscape Left Back Side"%string 7 5 sensor_zero).
  cbn. tauto.
Defined.

(** ** Axis attributes *)

Lemma zrange_In (n : nat) :
  forall start v, start <= v < start + Z.of_nat n -> In v (zrange n start).
Proof.
  induction n as [| n IH]; intros start v Hv; [lia |].
  cbn [zrange]. destruct (Z.eq_dec start v) as [-> | Hne]; [now left | right].
  apply IH. lia.
Qed.

Lemma show_text_ok_all : forallb show_text_ok (zrange (Z.to_nat 65536) (-32768)) = true.
Proof. vm_compute. reflexivity. Qed.

Lemma show_text_ok_s16 (v : Z) : in_s16 v -> show_text_ok v = true.
Proof.
  intros Hv. pose proof show_text_ok_all as Hall.
  rewrite forallb_forall in Hall. apply Hall.
  apply zrange_In. unfold in_s16 in Hv. rewrite Z2Nat.id by lia. lia.
Qed.

Lemma attr_get_eq (code : abs_code) (s : mpu6050_sensor) :
  attr_get code s =
    snprintf 4 (String.append (fmt_d (axis_get code (axis s))) newline).
Proof. destruct code; reflexivity. Qed.

(** X19. An axis attribute shows at most three characters.  For a 16-bit
    reading [v] the value returned is the length of the decimal text of [v]
    plus the newline; the buffer holds that whole text exactly when
    [-9 <= v <= 99]; for every other reading it holds the first three
    characters of the number and no newline, fewer characters than the
    length returned. *)
Theorem axis_attribute_shows_three_chars (code : abs_code) (s : mpu6050_sensor) :
  in_s16 (axis_get code (axis s)) ->
  fst (attr_get code s) =
    Z.of_nat (String.length (fmt_d (axis_get code (axis s)))) + 1 /\
  snd (attr_get code s) =
    (if (-9 <=? axis_get code (axis s)) && (axis_get code (axis s) <=? 99)
     then String.append (fmt_d (axis_get code (axis s))) newline
     else String.substring 0 3 (fmt_d (axis_get code (axis s)))) /\
  ((-9 <=? axis_get code (axis s)) && (axis_get code (axis s) <=? 99) = true \/
   (String.length (snd (attr_get code s)) = 3%nat /\ 3 < fst (attr_get code s))).
Proof.
  intros Hv. apply show_text_ok_s16 in Hv.
  rewrite attr_get_eq. unfold show_text_ok in Hv.
  cbv zeta in Hv.
  apply andb_true_iff in Hv. destruct Hv as [Hv H3].
  apply andb_true_iff in Hv. destruct Hv as [H1 H2].
  apply Z.eqb_eq in H1. apply String.eqb_eq in H2.
  repeat match goal with |- _ /\ _ => split end; try assumption.
  apply orb_true_iff in H3. destruct H3 as [H3 | H3]; [now left | right].
  apply andb_true_iff in H3. destruct H3 as [H3 H4].
  apply Z.ltb_lt in H3. apply Nat.eqb_eq in H4. now split.
Qed.

Lemma axis_attribute_shows_three_chars_witness :
  fst (attr_get ABS_X calibrated_sensor) =
    Z.of_nat (String.length (fmt_d (axis_get ABS_X (axis calibrated_sensor)))) + 1 /\
  snd (attr_get ABS_X calibrated_sensor) =
    (if (-9 <=? axis_get ABS_X (axis calibrated_sensor)) &&
        (axis_get ABS_X (axis calibrated_sensor) <=? 99)
     then String.append (fmt_d (axis_get ABS_X (axis calibrated_sensor))) newline
     else String.substring 0 3 (fmt_d (axis_get ABS_X (axis calibrated_sensor)))) /\
  ((-9 <=? axis_get ABS_X (axis calibrated_sensor)) &&
   (axis_get ABS_X (axis calibrated_sensor) <=? 99) = true \/
   (String.length (snd (attr_get ABS_X calibrated_sensor)) = 3%nat /\
    3 < fst (attr_get ABS_X calibrated_sensor))).
Proof.
  apply (axis_attribute_shows_three_chars ABS_X calibrated_sensor).
  unfold in_s16. vm_compute. split; discriminate.
Defined.

Lemma axis_get_set (code : abs_code) (a : axis_data) (v : Z) :
  axis_get code (axis_set code a v) = v.
Proof. destruct code; reflexivity. Qed.

Lemma axis_get_set_other (code code' : abs_code) (a : axis_data) (v : Z) :
  code' <> code -> axis_get code' (axis_set code a v) = axis_get code' a.
Proof. destruct code, code'; intros Hne; try congruence; reflexivity. Qed.

Lemma s16_of_period (v : Z) : s16_of (v + 65536) = s16_of v.
Proof.
  unfold s16_of.
  replace (v + 65536 + 32768) with (v + 32768 + 1 * 65536) by lia.
  now rewrite Z.mod_add by lia.
Qed.

(** X20. Writing an axis attribute and reading it back: a write that parses
    to [v] stores [v] reduced to 16 bits in that axis and touches no other
    axis, so that [v] and [v + 65536] store the same; for [0 <= v <= 99] the
    attribute then shows the decimal text of [v] and a newline.  A write that
    does not parse returns -EINVAL and leaves the sensor as it was. *)
Theorem axis_attribute_write_read (code : abs_code) (s : mpu6050_sensor)
  (v count : Z) :
  0 <= v <= 99 ->
  attr_get code (snd (attr_set code s (Some v) count)) =
    (Z.of_nat (String.length (fmt_d v)) + 1, String.append (fmt_d v) newline) /\
  (forall w : Z,
     axis_get code (axis (snd (attr_set code s (Some w) count))) = s16_of w /\
     (forall code', code' <> code ->
        axis_get code' (axis (snd (attr_set code s (Some w) count))) =
          axis_get code' (axis s)) /\
     attr_set code s (Some (w + 65536)) count = attr_set code s (Some w) count) /\
  attr_set code s None count = (Some (- EINVAL), s).
Proof.
  intros Hv. split; [| split; [intros w; split; [| split] |]].
  - assert (Hin : in_s16 v) by (unfold in_s16; lia).
    pose proof (show_text_ok_s16 v Hin) as Hok.
    rewrite attr_get_eq. cbn [attr_set snd axis set_axis].
    rewrite axis_get_set, (s16_of_id v Hin).
    unfold show_text_ok in Hok. cbv zeta in Hok.
    apply andb_true_iff in Hok. destruct Hok as [Hok _].
    apply andb_true_iff in Hok. destruct Hok as [H1 H2].
    apply Z.eqb_eq in H1. apply String.eqb_eq in H2.
    replace ((-9 <=? v) && (v <=? 99)) with true in H2
      by (symmetry; apply andb_true_iff; split; [apply Z.leb_le | apply Z.leb_le]; lia).
    rewrite (surjective_pairing (snprintf 4 _)). now rewrite H1, H2.
  - cbn [attr_set snd axis set_axis]. apply axis_get_set.
  - intros code' Hne. cbn [attr_set snd axis set_axis].
    now apply axis_get_set_other.
  - cbn [attr_set]. now rewrite s16_of_period.
  - reflexivity.
Qed.

Lemma axis_attribute_write_read_witness :
  attr_get ABS_RY (snd (attr_set ABS_RY sensor_zero (Some 42) 3)) =
    (Z.of_nat (String.length (fmt_d 42)) + 1, String.append (fmt_d 42) newline) /\
  (forall w : Z,
     axis_get ABS_RY (axis (snd (attr_set ABS_RY sensor_zero (Some w) 3))) = s16_of w /\
     (forall code', code' <> ABS_RY ->
        axis_get code' (axis (snd (attr_set ABS_RY sensor_zero (Some w) 3))) =
          axis_get code' (axis sensor_zero)) /\
     attr_set ABS_RY sensor_zero (Some (w + 65536)) 3 =
       attr_set ABS_RY sensor_zero (Some w) 3) /\
  attr_set ABS_RY sensor_zero None 3 = (Some (- EINVAL), sensor_zero).
Proof.
  apply (axis_attribute_write_read ABS_RY sensor_zero 42 3). lia.
Defined.

(** ** Attribute files *)

Lemma In_device_remove_file (l : list nat) (j k : nat) :
  In k (device_remove_file l j) <-> In k l /\ k <> j.
Proof.
  unfold device_remove_file. split.
  - apply in_remove.
  - intros [Hin Hne]. now apply in_in_remove.
Qed.

Lemma In_remove_down (i : nat) :
  forall l k, In k (remove_down l i) <-> In k l /\ (i < k)%nat.
Proof.
  induction i as [| i IH]; intros l k; cbn [remove_down].
  - rewrite In_device_remove_file. intuition lia.
  - rewrite IH, In_device_remove_file. intuition lia.
Qed.

Lemma In_remove_all (l : list nat) (k : nat) :
  In k (fold_left device_remove_file (seq 0 ARRAY_SIZE_attr) l) <->
  In k l /\ (ARRAY_SIZE_attr <= k)%nat.
Proof.
  unfold ARRAY_SIZE_attr. cbn [seq fold_left].
  rewrite !In_device_remove_file. intuition lia.
Qed.

Lemma create_from_spec (create_err : nat -> Z) (todo : nat) :
  forall (i : nat) (files : list nat),
    (fst (create_from create_err files i todo) = 0 /\
     (forall j, (i <= j < i + todo)%nat -> create_err j = 0) /\
     (forall k, In k (snd (create_from create_err files i todo)) <->
                In k files \/ (i <= k < i + todo)%nat)) \/
    (exists j, (i <= j < i + todo)%nat /\ create_err j <> 0 /\
               (forall j', (i <= j' < j)%nat -> create_err j' = 0) /\
               fst (create_from create_err files i todo) = create_err j /\
               (forall k, In k (snd (create_from create_err files i todo)) <->
                          In k files /\ (j < k)%nat)).
Proof.
  induction todo as [| todo IH]; intros i files; cbn [create_from].
  - left. cbn [fst snd]. split; [reflexivity |]. split; [intros j Hj; lia |].
    intros k. intuition lia.
  - unfold device_create_file.
    destruct (Z.eqb_spec (create_err i) 0) as [E | E]; cbn [negb Z.eqb].
    + destruct (IH (S i) (i :: files))
        as [(H0 & Hall & Hin) | (j & Hj & Hne & Hbefore & Hret & Hin)].
      * left. repeat split.
        -- exact H0.
        -- intros j Hj. destruct (Nat.eq_dec j i) as [-> | Hne]; [exact E |].
           apply Hall. lia.
        -- intros Hk. apply Hin in Hk. cbn [In] in Hk. intuition lia.
        -- intros Hk. apply Hin. cbn [In]. intuition lia.
      * right. exists j. repeat split; try lia; try assumption.
        -- intros j' Hj'. destruct (Nat.eq_dec j' i) as [-> | Hne']; [exact E |].
           apply Hbefore. lia.
        -- apply Hin in H. cbn [In] in H. intuition lia.
        -- apply Hin in H. intuition lia.
        -- intros [Hk Hlt]. apply Hin. cbn [In]. tauto.
    + destruct (create_err i =? 0) eqn:E'; [apply Z.eqb_eq in E'; contradiction |].
      cbn [negb fst snd]. right. exists i. repeat split; try lia; try assumption.
      * apply In_remove_down in H. tauto.
      * apply In_remove_down in H. tauto.
      * intros Hk. apply In_remove_down. exact Hk.
Qed.

(** X21. Creating the attribute files of a device is all or nothing.  On a
    device that has none of the four files: the call returns 0 exactly when
    every creation succeeds, and then the four files exist besides what was
    there; otherwise it returns the error of the first creation that failed
    and the device's files are exactly those of before.  Removing the files
    after a successful creation gives back the files of before.  The
    accelerometer and gyroscope variants do the same. *)
Theorem create_sysfs_all_or_nothing (create_err : nat -> Z) (files : list nat) :
  (forall k, (k < ARRAY_SIZE_attr)%nat -> ~ In k files) ->
  (fst (create_gyro_sysfs_interfaces create_err files) = 0 <->
   forall j, (j < ARRAY_SIZE_attr)%nat -> create_err j = 0) /\
  (fst (create_gyro_sysfs_interfaces create_err files) = 0 ->
   (forall k, In k (snd (create_gyro_sysfs_interfaces create_err files)) <->
              In k files \/ (k < ARRAY_SIZE_attr)%nat) /\
   (forall k, In k (snd (remove_gyro_sysfs_interfaces
                           (snd (create_gyro_sysfs_interfaces create_err files)))) <->
              In k files)) /\
  (fst (create_gyro_sysfs_interfaces create_err files) <> 0 ->
   (forall k, In k (snd (create_gyro_sysfs_interfaces create_err files)) <->
              In k files) /\
   exists j, (j < ARRAY_SIZE_attr)%nat /\
             fst (create_gyro_sysfs_interfaces create_err files) = create_err j /\
             forall j', (j' < j)%nat -> create_err j' = 0) /\
  create_accel_sysfs_interfaces create_err files =
    create_gyro_sysfs_interfaces create_err files.
Proof.
  intros Hnone.
  unfold create_gyro_sysfs_interfaces, create_accel_sysfs_interfaces,
    remove_gyro_sysfs_interfaces.
  destruct (create_from_spec create_err ARRAY_SIZE_attr 0 files)
    as [(H0 & Hall & Hin) | (j & Hj & Hne & Hbefore & Hret & Hin)].
  - split; [| split; [| split]].
    + split; [intros _ j Hj; apply Hall; lia | intros _; exact H0].
    + intros _. split.
      * intros k. rewrite Hin. intuition lia.
      * intros k. cbn [snd]. rewrite In_remove_all, Hin.
        split; [| intros Hk; split; [tauto |]].
        -- intros [[Hk | Hk] Hge]; [exact Hk | lia].
        -- destruct (Nat.lt_ge_cases k ARRAY_SIZE_attr) as [Hlt | Hge];
             [exfalso; exact (Hnone k Hlt Hk) | exact Hge].
    + intros Hnz. contradiction.
    + reflexivity.
  - split; [| split; [| split]].
    + split.
      * intros H0. rewrite Hret in H0. contradiction.
      * intros Hall. exfalso. apply Hne, Hall. lia.
    + intros H0. rewrite Hret in H0. contradiction.
    + intros _. split.
      * intros k. rewrite Hin. split; [tauto |].
        intros Hk. split; [exact Hk |].
        destruct (Nat.lt_ge_cases j k) as [Hlt | Hge]; [exact Hlt |].
        exfalso. apply (Hnone k); [lia | exact Hk].
      * exists j. split; [lia |]. split; [exact Hret |].
        intros j' Hj'. apply Hbefore. lia.
    + reflexivity.
Qed.

Lemma create_sysfs_all_or_nothing_witness :
  (fst (create_gyro_sysfs_interfaces (fun i => if Nat.eqb i 2 then -12 else 0) [7%nat]) = 0 <->
   forall j, (j < ARRAY_SIZE_attr)%nat -> (fun i => if Nat.eqb i 2 then -12 else 0) j = 0) /\
  (fst (create_gyro_sysfs_interfaces (fun i => if Nat.eqb i 2 then -12 else 0) [7%nat]) = 0 ->
   (forall k, In k (snd (create_gyro_sysfs_interfaces
                           (fun i => if Nat.eqb i 2 then -12 else 0) [7%nat])) <->
              In k [7%nat] \/ (k < ARRAY_SIZE_attr)%nat) /\
   (forall k, In k (snd (remove_gyro_sysfs_interfaces
                           (snd (create_gyro_sysfs_interfaces
                                   (fun i => if Nat.eqb i 2 then -12 else 0) [7%nat])))) <->
              In k [7%nat])) /\
  (fst (create_gyro_sysfs_interfaces (fun i => if Nat.eqb i 2 then -12 else 0) [7%nat]) <> 0 ->
   (forall k, In k (snd (create_gyro_sysfs_interfaces
                           (fun i => if Nat.eqb i 2 then -12 else 0) [7%nat])) <->
              In k [7%nat]) /\
   exists j, (j < ARRAY_SIZE_attr)%nat /\
             fst (create_gyro_sysfs_interfaces
                    (fun i => if Nat.eqb i 2 then -12 else 0) [7%nat]) =
               (fun i => if Nat.eqb i 2 then -12 else 0) j /\
             forall j', (j' < j)%nat ->
                        (fun i => if Nat.eqb i 2 then -12 else 0) j' = 0) /\
  create_accel_sysfs_interfaces (fun i => if Nat.eqb i 2 then -12 else 0) [7%nat] =
    create_gyro_sysfs_interfaces (fun i => if Nat.eqb i 2 then -12 else 0) [7%nat].
Proof.
  apply (create_sysfs_all_or_nothing (fun i => if Nat.eqb i 2 then -12 else 0) [7%nat]).
  unfold ARRAY_SIZE_attr. intros k Hk [E | []]. lia.
Defined.

(** ** Timer and worker *)

(** X22. One sample per expiry.  When an armed gyroscope (accelerometer)
    timer expires the wake flag is set; the worker pass that follows clears
    it and transforms the stored reading once; a further wake-up without a
    new expiry does nothing.  A timer that is not armed does not expire. *)
Theorem one_pass_per_expiry (h : fake6050_h) (s : mpu6050_sensor) (t t' : Z) :
  (forall ns, gyro_timer s = HR_ARMED ns ->
     gyro_wkp_flag (do_event h s ev_gyro_timer) = 1 /\
     gyro_wkp_flag (do_event h (do_event h s ev_gyro_timer) (ev_gyro_wake t)) = 0 /\
     axis (do_event h (do_event h s ev_gyro_timer) (ev_gyro_wake t)) =
       mpu6050_remap_gyro_data (axis s) (place s) /\
     do_event h (do_event h (do_event h s ev_gyro_timer) (ev_gyro_wake t))
       (ev_gyro_wake t') =
       do_event h (do_event h s ev_gyro_timer) (ev_gyro_wake t)) /\
  (forall ns, accel_timer s = HR_ARMED ns ->
     accel_wkp_flag (do_event h s ev_accel_timer) = 1 /\
     accel_wkp_flag (do_event h (do_event h s ev_accel_timer) (ev_accel_wake t)) = 0 /\
     axis (do_event h (do_event h s ev_accel_timer) (ev_accel_wake t)) =
       mpu6050_remap_accel_data (axis s) (place s) /\
     do_event h (do_event h (do_event h s ev_accel_timer) (ev_accel_wake t))
       (ev_accel_wake t') =
       do_event h (do_event h s ev_accel_timer) (ev_accel_wake t)) /\
  (gyro_timer s = HR_IDLE -> do_event h s ev_gyro_timer = s) /\
  (accel_timer s = HR_IDLE -> do_event h s ev_accel_timer = s).
Proof.
  split; [| split; [| split]].
  - intros ns Ht. destruct s. cbn in Ht. subst.
    cbn [do_event gyro_timer].
    unfold gyro_timer_handle, mpu6050_manage_polling, atomic_read.
    cbn - [mpu6050_remap_gyro_data].
    repeat match goal with
           | |- context [if ?b then _ else _] =>
               destruct b; cbn - [mpu6050_remap_gyro_data]
           end;
      repeat match goal with |- _ /\ _ => split end; reflexivity.
  - intros ns Ht. destruct s. cbn in Ht. subst.
    cbn [do_event accel_timer].
    unfold accel_timer_handle, mpu6050_manage_polling, atomic_read.
    cbn - [mpu6050_remap_accel_data].
    repeat match goal with
           | |- context [if ?b then _ else _] =>
               destruct b; cbn - [mpu6050_remap_accel_data]
           end;
      repeat match goal with |- _ /\ _ => split end; reflexivity.
  - intros Ht. cbn [do_event]. now rewrite Ht.
  - intros Ht. cbn [do_event]. now rewrite Ht.
Qed.
Lemma one_pass_per_expiry_witness :
  gyro_wkp_flag
    (do_event datasheet_h
       (snd (mpu6050_gyro_set_enable datasheet_h (snd (mpu6050_probe datasheet_h 0)) true))
       ev_gyro_timer) = 1.
Proof.
  destruct (one_pass_per_expiry datasheet_h
              (snd (mpu6050_gyro_set_enable datasheet_h
                      (snd (mpu6050_probe datasheet_h 0)) true)) 0 0) as [Hg _].
  destruct (Hg (200 * NSEC_PER_MSEC)) as [E _]; [vm_compute; reflexivity |].
  exact E.
Defined.


(** ** Configuration that never changes *)

Lemma do_event_static (h : fake6050_h) (s : mpu6050_sensor) (e : event) :
  is_asleep (cfg s) = false ->
  lpf (cfg (do_event h s e)) = lpf (cfg s) /\
  lpa_freq (cfg (do_event h s e)) = lpa_freq (cfg s) /\
  acc_use_cal (do_event h s e) = acc_use_cal s /\
  use_poll (do_event h s e) = use_poll s /\
  place (do_event h s e) = place s.
Proof.
  intros Hs.
  destruct e as [[[|] | [|] | d | d] | | | t | t | code [v |] count];
    cbn [do_event do_call attr_set snd].
  - rewrite (gyro_set_enable_on_eq h s Hs). repeat split.
  - rewrite (gyro_set_enable_off_eq h s Hs). repeat split.
  - rewrite (accel_set_enable_on_eq h s Hs). repeat split.
  - rewrite (accel_set_enable_off_eq h s Hs). repeat split.
  - unfold mpu6050_gyro_set_poll_delay.
    repeat match goal with
           | |- context [if ?b then _ else _] => destruct b
           end; repeat split.
  - unfold mpu6050_accel_set_poll_delay.
    set (d' := if (if d <? _ then _ else d) >? _ then _ else _).
    destruct (accel_poll_ms s =? d'); [repeat split |].
    cbn [accel_en set_accel_poll_ms set_accel_delay_change use_poll accel_timer].
    destruct (negb (atomic_read (accel_en s))); [repeat split |].
    destruct (use_poll s) eqn:Hup.
    + destruct (accel_timer s); cbn; rewrite ?Hup; repeat split.
    + negotiate_frame. rewrite ?Hup. repeat split.
  - destruct (gyro_timer s); try (repeat split; fail).
    unfold gyro_timer_handle, mpu6050_manage_polling.
    cbn [Z.eqb SNS_TYPE_GYRO gyro_en set_gyro_wkp_flag set_gyro_timer].
    destruct (atomic_read (gyro_en s)); repeat split.
  - destruct (accel_timer s); try (repeat split; fail).
    unfold accel_timer_handle, mpu6050_manage_polling.
    cbn [Z.eqb SNS_TYPE_GYRO SNS_TYPE_ACCEL accel_en set_accel_wkp_flag set_accel_timer].
    destruct (atomic_read (accel_en s)); repeat split.
  - destruct (gyro_wkp_flag s =? 0); [repeat split |].
    cbn [gyro_poll_thread fst]. unfold gyro_poll_once.
    cbn [gyro_delay_change gyro_poll_ms set_gyro_wkp_flag].
    destruct (gyro_delay_change s); [destruct (gyro_poll_ms s <=? POLL_MS_100HZ) |];
      repeat split.
  - destruct (accel_wkp_flag s =? 0); [repeat split |].
    cbn [accel_poll_thread fst]. unfold accel_poll_once.
    cbn [accel_delay_change accel_poll_ms set_accel_wkp_flag].
    destruct (accel_delay_change s); [destruct (accel_poll_ms s <=? POLL_MS_100HZ) |];
      repeat split.
  - repeat split.
  - repeat split.
Qed.

Lemma run_events_static (h : fake6050_h) (pdata_place : Z) (es : list event) :
  forall s, steady s -> static_ok h pdata_place s ->
            Forall (static_ok h pdata_place) (run_events h s es).
Proof.
  induction es as [| e es IH]; intros s Hst Hs; cbn [run_events]; constructor.
  - destruct (do_event_static h s e ltac:(apply Hst)) as (E1 & E2 & E3 & E4 & E5).
    unfold static_ok in *. rewrite E1, E2, E3, E4, E5. exact Hs.
  - apply IH; [now apply do_event_steady |].
    destruct (do_event_static h s e ltac:(apply Hst)) as (E1 & E2 & E3 & E4 & E5).
    unfold static_ok in *. rewrite E1, E2, E3, E4, E5. exact Hs.
Qed.

(** X23. What probe configures stays for good: whatever happens to a probed
    sensor, the filter mode is the 42 Hz one, the driver is in polling mode,
    calibration is off and the placement is the probed one; and the
    low-power wake-up frequency is 0, not the 5 Hz value probe writes, which
    the later clearing of the configuration wipes. *)
Theorem probe_configuration_is_static (h : fake6050_h) (pdata_place : Z)
  (es : list event) :
  Forall (fun s =>
            lpf (cfg s) = MPU_DLPF_42HZ h /\ lpa_freq (cfg s) = 0 /\
            acc_use_cal s = false /\ use_poll s = true /\ place s = pdata_place)
         (run_events h (snd (mpu6050_probe h pdata_place)) es).
Proof.
  apply (run_events_static h pdata_place es).
  - apply probe_steady.
  - repeat split.
Qed.
